(** * Retrieval-augmented context construction: a shallow embedding

    This development embeds the three Python modules of the agent
    ([domain_utils.py], [structured_data_parser.py], [rag_mm_agent.py])
    and proves properties of them.

    Modelling conventions.
    - Python text is modelled by [string] (a sequence of 8-bit characters);
      [str.lower] acts on the letters A-Z, all other characters are kept.
    - JSON-like run-time values are the inductive type [pyval]; floating
      point numbers are not part of the model.
    - A Python dict is an association list in insertion order.
    - A Python exception is the [Raise] alternative of [outcome]. *)

From Stdlib Require Import ZArith List Bool Ascii String DecimalString Lia.
Import ListNotations.

Open Scope string_scope.
Set Warnings "-register-all".

(** ** Exceptions and fallible computations *)

Inductive exn : Type :=
| TypeError
| AttributeError
| IndexError
| CollaboratorError (msg : string).

Inductive outcome (A : Type) : Type :=
| Ok (a : A)
| Raise (e : exn).

Arguments Ok {A} a.
Arguments Raise {A} e.

Definition rbind {A B : Type} (r : outcome A) (k : A -> outcome B) : outcome B :=
  match r with
  | Ok a => k a
  | Raise e => Raise e
  end.

Declare Scope res_scope.
Delimit Scope res_scope with res.
Notation "'let*' x ':=' r 'in' k" := (rbind r (fun x => k))
  (at level 10, x name, r at level 100, k at level 200) : res_scope.
Open Scope res_scope.

(** [for x in xs: acc = body acc x], where the body may raise. *)
Fixpoint rfold {A B : Type} (body : A -> B -> outcome A) (xs : list B) (acc : A)
  : outcome A :=
  match xs with
  | [] => Ok acc
  | x :: xs' => let* acc' := body acc x in rfold body xs' acc'
  end.

Fixpoint rmap {A B : Type} (f : A -> outcome B) (xs : list A) : outcome (list B) :=
  match xs with
  | [] => Ok []
  | x :: xs' => let* y := f x in let* ys := rmap f xs' in Ok (y :: ys)
  end.

(** ** Python string operations *)

Module PyStr.

Definition lower_char (c : ascii) : ascii :=
  let n := nat_of_ascii c in
  if (65 <=? n)%nat && (n <=? 90)%nat then ascii_of_nat (n + 32) else c.

(** [s.lower()] *)
Fixpoint lower (s : string) : string :=
  match s with
  | EmptyString => EmptyString
  | String c s' => String (lower_char c) (lower s')
  end.

(** [s.startswith(p)] *)
Fixpoint startswith (s p : string) {struct p} : bool :=
  match p, s with
  | EmptyString, _ => true
  | String _ _, EmptyString => false
  | String a p', String b s' => Ascii.eqb a b && startswith s' p'
  end.

(** [p in s] for strings *)
Fixpoint contains (s p : string) : bool :=
  startswith s p ||
  match s with
  | EmptyString => false
  | String _ s' => contains s' p
  end.

(** Worker of [replace]: [skip] characters of a matched occurrence are
    still to be dropped. *)
Fixpoint replace_from (old new : string) (skip : nat) (s : string) : string :=
  match s with
  | EmptyString => EmptyString
  | String c s' =>
      match skip with
      | S k => replace_from old new k s'
      | O =>
          if startswith s old
          then new ++ replace_from old new (String.length old - 1) s'
          else String c (replace_from old new 0 s')
      end
  end.

(** [s.replace(old, new)] for a non-empty [old]. *)
Definition replace (s old new : string) : string :=
  replace_from old new 0 s.

(** [s.split(sep)[0]] for a non-empty [sep]: the text before the first
    occurrence of [sep], or all of [s]. *)
Fixpoint split_head (s sep : string) : string :=
  match s with
  | EmptyString => EmptyString
  | String c s' =>
      if startswith s sep then EmptyString else String c (split_head s' sep)
  end.

(** [sep.join(parts)] *)
Fixpoint join (sep : string) (parts : list string) : string :=
  match parts with
  | [] => ""
  | [p] => p
  | p :: ps => p ++ sep ++ join sep ps
  end.

Fixpoint mem_char (c : ascii) (cs : string) : bool :=
  match cs with
  | EmptyString => false
  | String d cs' => Ascii.eqb c d || mem_char c cs'
  end.

(** [s.lstrip(chars)] *)
Fixpoint lstrip (s chars : string) : string :=
  match s with
  | EmptyString => EmptyString
  | String c s' => if mem_char c chars then lstrip s' chars else s
  end.

(** [s.rstrip(chars)] *)
Fixpoint rstrip (s chars : string) : string :=
  match s with
  | EmptyString => EmptyString
  | String c s' =>
      match rstrip s' chars with
      | EmptyString => if mem_char c chars then EmptyString else String c EmptyString
      | r => String c r
      end
  end.

(** The characters [str.strip()] removes: tab, line feed, vertical tab,
    form feed, carriage return, the separators 0x1c-0x1f and space. *)
Definition whitespace : string :=
  String (ascii_of_nat 9) (String (ascii_of_nat 10) (String (ascii_of_nat 11)
  (String (ascii_of_nat 12) (String (ascii_of_nat 13) (String (ascii_of_nat 28)
  (String (ascii_of_nat 29) (String (ascii_of_nat 30) (String (ascii_of_nat 31)
  " ")))))))).

(** [s.strip()] *)
Definition strip (s : string) : string := rstrip (lstrip s whitespace) whitespace.

Definition nl : string := String (ascii_of_nat 10) EmptyString.

(** [str(n)] for an integer *)
Definition of_Z (z : Z) : string := NilZero.string_of_int (Z.to_int z).

End PyStr.

Example replace_ex1 : PyStr.replace "[[Paris]], [[France]]" "[[" "" = "Paris]], France]]".
Proof. reflexivity. Qed.
Example replace_ex2 : PyStr.replace "[]][" "]]" "" = "[[".
Proof. reflexivity. Qed.
Example split_ex : PyStr.split_head "a<br>b<br/>c" "<br" = "a".
Proof. reflexivity. Qed.
Example rstrip_ex : PyStr.rstrip "kcal: 10, fat: 2, " ", " = "kcal: 10, fat: 2".
Proof. reflexivity. Qed.
Example of_Z_ex : PyStr.of_Z (-120) = "-120" /\ PyStr.of_Z 0 = "0".
Proof. split; reflexivity. Qed.

(** ** Python values *)

(** The JSON-like values that flow through the agent: [None], booleans,
    integers, text, lists and string-keyed mappings. *)
Inductive pyval : Type :=
| PNone
| PBool (b : bool)
| PInt (z : Z)
| PStr (s : string)
| PList (l : list pyval)
| PDict (d : list (string * pyval)).

(** A dict with text keys, in insertion order. *)
Definition dict : Type := list (string * pyval).

Module Py.

(** [d.get(k)] ; [None] of the option stands for an absent key. *)
Fixpoint get (d : dict) (k : string) : option pyval :=
  match d with
  | [] => None
  | (k', v) :: d' => if String.eqb k k' then Some v else get d' k
  end.

(** [d.get(k, default)] *)
Definition get_default (d : dict) (k : string) (default : pyval) : pyval :=
  match get d k with
  | Some v => v
  | None => default
  end.

(** [k in d] *)
Definition has (d : dict) (k : string) : bool :=
  match get d k with
  | Some _ => true
  | None => false
  end.

(** [d[k] = v]: an existing key keeps its position. *)
Fixpoint set (d : dict) (k : string) (v : pyval) : dict :=
  match d with
  | [] => [(k, v)]
  | (k', v') :: d' =>
      if String.eqb k k' then (k', v) :: d' else (k', v') :: set d' k v
  end.

(** [{**d, **extra}] *)
Definition merge (d extra : dict) : dict :=
  fold_left (fun acc kv => set acc (fst kv) (snd kv)) extra d.

(** [bool(v)] *)
Definition truthy (v : pyval) : bool :=
  match v with
  | PNone => false
  | PBool b => b
  | PInt z => negb (z =? 0)%Z
  | PStr s => negb (String.eqb s "")
  | PList l => match l with [] => false | _ => true end
  | PDict d => match d with [] => false | _ => true end
  end.

(** Lists and dicts cannot be hashed, hence cannot be used as dict keys. *)
Definition hashable (v : pyval) : bool :=
  match v with
  | PList _ | PDict _ => false
  | _ => true
  end.

(** The integer a key compares equal to: [True == 1] and [False == 0]. *)
Definition int_key (v : pyval) : option Z :=
  match v with
  | PInt z => Some z
  | PBool true => Some 1%Z
  | PBool false => Some 0%Z
  | _ => None
  end.

(** [a == b] on hashable values. *)
Definition key_eqb (a b : pyval) : bool :=
  match a, b with
  | PNone, PNone => true
  | PStr s, PStr t => String.eqb s t
  | _, _ =>
      match int_key a, int_key b with
      | Some x, Some y => (x =? y)%Z
      | _, _ => false
      end
  end.

Definition hex_digit (n : nat) : ascii :=
  if (n <? 10)%nat then ascii_of_nat (48 + n) else ascii_of_nat (87 + n).

(** One character of [repr(s)], with [q] the enclosing quote. *)
Definition repr_char (q c : ascii) : string :=
  let n := nat_of_ascii c in
  if Ascii.eqb c "\"%char then "\\"
  else if Ascii.eqb c q then String "\"%char (String q EmptyString)
  else if (n =? 9)%nat then "\t"
  else if (n =? 10)%nat then "\n"
  else if (n =? 13)%nat then "\r"
  else if (n <? 32)%nat || (n =? 127)%nat
       then String "\"%char (String "x"%char
              (String (hex_digit (n / 16)) (String (hex_digit (n mod 16)) EmptyString)))
  else String c EmptyString.

Definition dquote : ascii := ascii_of_nat 34.
Definition squote : ascii := ascii_of_nat 39.

(** [repr(s)] for text: single quotes unless the text has a single quote
    and no double quote. *)
Definition repr_str (s : string) : string :=
  let q := if PyStr.mem_char squote s && negb (PyStr.mem_char dquote s)
           then dquote else squote in
  String q (String.concat "" (map (repr_char q) (list_ascii_of_string s))
            ++ String q EmptyString).

(** [repr(v)] *)
Fixpoint repr (v : pyval) : string :=
  match v with
  | PNone => "None"
  | PBool true => "True"
  | PBool false => "False"
  | PInt z => PyStr.of_Z z
  | PStr s => repr_str s
  | PList l => "[" ++ PyStr.join ", " (map repr l) ++ "]"
  | PDict d =>
      "{" ++ PyStr.join ", "
               (map (fun kv => repr_str (fst kv) ++ ": " ++ repr (snd kv)) d)
          ++ "}"
  end.

(** [str(v)], which is also how an f-string renders [{v}]. *)
Definition str (v : pyval) : string :=
  match v with
  | PStr s => s
  | _ => repr v
  end.

(** The elements a [for] loop over [v] visits. *)
Definition iter (v : pyval) : outcome (list pyval) :=
  match v with
  | PList l => Ok l
  | PDict d => Ok (map (fun kv => PStr (fst kv)) d)
  | PStr s => Ok (map (fun c => PStr (String c EmptyString)) (list_ascii_of_string s))
  | _ => Raise TypeError
  end.

End Py.

Example repr_ex1 :
  Py.repr (PDict [("text", PStr "hi"); ("domain", PInt 0); ("tags", PList [PNone; PBool true])])
  = "{'text': 'hi', 'domain': 0, 'tags': [None, True]}".
Proof. reflexivity. Qed.
Example repr_ex2 : Py.repr (PStr "it's") = String Py.dquote ("it's" ++ String Py.dquote "").
Proof. reflexivity. Qed.
Example merge_ex :
  Py.merge [("name", PStr "a")] [("x", PInt 1); ("name", PStr "b")]
  = [("name", PStr "b"); ("x", PInt 1)].
Proof. reflexivity. Qed.

(** ** domain_utils.py *)

Definition DOMAIN_MAP : list (Z * string) :=
  [ (0, "food"); (1, "shopping"); (2, "landmark"); (3, "math_science");
    (4, "art"); (5, "entertainment"); (6, "events"); (7, "nature");
    (8, "people"); (9, "sports"); (10, "technology"); (11, "transportation");
    (12, "other") ]%Z.

Definition QUERY_CATEGORY_MAP : list (Z * string) :=
  [ (0, "simple"); (1, "simple_w_condition"); (2, "comparison");
    (3, "aggregation"); (4, "set"); (5, "false_premise");
    (6, "post-processing"); (7, "multi-hop") ]%Z.

Definition DYNAMISM_MAP : list (Z * string) :=
  [ (0, "static"); (1, "slow-changing"); (2, "fast-changing"); (3, "real-time") ]%Z.

(** The entry of an integer-keyed table whose key equals [key]. *)
Fixpoint table_find (table : list (Z * string)) (key : Z) : option string :=
  match table with
  | [] => None
  | (k, v) :: table' => if (k =? key)%Z then Some v else table_find table' key
  end.

(** [table.get(key, default)] on an integer-keyed table: hashing an
    unhashable key raises [TypeError]. *)
Definition table_get (table : list (Z * string)) (key : pyval) (default : string)
  : outcome string :=
  if Py.hashable key then
    match Py.int_key key with
    | Some z =>
        match table_find table z with
        | Some v => Ok v
        | None => Ok default
        end
    | None => Ok default
    end
  else Raise TypeError.

Definition get_domain_name (domain_id : pyval) : outcome string :=
  table_get DOMAIN_MAP domain_id "other".

Definition get_query_category_name (category_id : pyval) : outcome string :=
  table_get QUERY_CATEGORY_MAP category_id "simple".

Definition get_dynamism_name (dynamism_id : pyval) : outcome string :=
  table_get DYNAMISM_MAP dynamism_id "static".

(** The keyword table of [infer_domain_from_query], in the order of the
    dict literal. *)
Definition domain_keywords : list (string * list string) :=
  [ ("food", ["food"; "dish"; "meal"; "recipe"; "ingredient"; "cuisine"; "eat";
              "drink"; "cook"; "bake"]);
    ("shopping", ["product"; "price"; "brand"; "buy"; "purchase"; "cost"; "store";
                  "shop"; "mall"]);
    ("landmark", ["landmark"; "building"; "monument"; "museum"; "tourist";
                  "location"; "place"; "visit"]);
    ("math_science", ["math"; "science"; "formula"; "equation"; "calculate";
                      "physics"; "chemistry"; "biology"]);
    ("art", ["art"; "painting"; "sculpture"; "museum"; "artist"; "gallery"; "draw";
             "creative"]);
    ("entertainment", ["movie"; "film"; "series"; "show"; "actor"; "actress";
                       "director"; "watch"]);
    ("events", ["event"; "conference"; "meeting"; "festival"; "concert";
                "exhibition"; "ceremony"]);
    ("nature", ["nature"; "plant"; "animal"; "flower"; "tree"; "landscape";
                "outdoor"; "environment"; "bin"; "recycle"; "battery"]);
    ("people", ["person"; "people"; "man"; "woman"; "child"; "family"; "group"]);
    ("sports", ["sport"; "game"; "team"; "player"; "match"; "competition";
                "athlete"; "race"]);
    ("technology", ["technology"; "device"; "computer"; "phone"; "gadget"; "tech";
                    "digital"; "battery"]);
    ("transportation", ["car"; "vehicle"; "train"; "bus"; "transportation";
                        "travel"; "trip"; "journey"]) ].

(** [any(keyword in text for keyword in keywords)] *)
Definition any_keyword_in (text : string) (keywords : list string) : bool :=
  existsb (fun keyword => PyStr.contains text keyword) keywords.

(** The [for domain, keywords in ...: if any(...): return domain] loop,
    ending in the default. *)
Fixpoint first_matching (table : list (string * list string)) (text : string)
  : string :=
  match table with
  | [] => "other"
  | (domain, keywords) :: table' =>
      if any_keyword_in text keywords then domain else first_matching table' text
  end.

Definition infer_domain_from_query (query : string) : string :=
  let query_lower := PyStr.lower query in
  first_matching domain_keywords query_lower.

(** The scan of a list-valued content for a part with a [domain]. *)
Fixpoint first_part_domain (parts : list pyval) : option pyval :=
  match parts with
  | [] => None
  | PDict part :: parts' =>
      match Py.get part "domain" with
      | Some PNone | None => first_part_domain parts'
      | Some domain_id => Some domain_id
      end
  | _ :: parts' => first_part_domain parts'
  end.

(** The domain id one message yields in
    [extract_domain_from_message_history], if any. *)
Definition message_domain_id (message : dict) : option pyval :=
  let from_content :=
    match Py.get message "role" with
    | Some (PStr "user") =>
        match Py.get_default message "content" (PStr "") with
        | PList parts => first_part_domain parts
        | PDict content =>
            match Py.get content "domain" with
            | Some PNone | None => None
            | Some domain_id => Some domain_id
            end
        | _ => None
        end
    | _ => None
    end in
  match from_content with
  | Some domain_id => Some domain_id
  | None => Py.get message "domain"
  end.

Fixpoint extract_domain_from_message_history (message_history : list dict)
  : outcome (option string) :=
  match message_history with
  | [] => Ok None
  | message :: rest =>
      match message_domain_id message with
      | Some domain_id => let* name := get_domain_name domain_id in Ok (Some name)
      | None => extract_domain_from_message_history rest
      end
  end.

Example infer_ex1 : infer_domain_from_query "What BATTERY is this?" = "nature".
Proof. reflexivity. Qed.
Example infer_ex2 : infer_domain_from_query "creative digital" = "food".
Proof. reflexivity. Qed.
Example domain_ex1 : get_domain_name (PBool true) = Ok "shopping".
Proof. reflexivity. Qed.
Example domain_ex2 : get_domain_name (PList []) = Raise TypeError.
Proof. reflexivity. Qed.

(** ** structured_data_parser.py *)

Module StructuredDataParser.

Import PyStr.

(** [data.get(k1, data.get(k2, default))] *)
Definition get2 (data : dict) (k1 k2 : string) (default : pyval) : pyval :=
  Py.get_default data k1 (Py.get_default data k2 default).

(** [result += f"{label}: {value}\n"] under [if value:] *)
Definition add_if (result label : string) (value : pyval) : string :=
  if Py.truthy value then result ++ label ++ ": " ++ Py.str value ++ nl else result.

(** The operands of [', '.join(values)] must all be text. *)
Fixpoint texts (values : list pyval) : outcome (list string) :=
  match values with
  | [] => Ok []
  | PStr s :: values' => let* ss := texts values' in Ok (s :: ss)
  | _ :: _ => Raise TypeError
  end.

(** A field rendered as a comma-joined list when it is a list. *)
Definition add_joined (result label : string) (value : pyval) : outcome string :=
  if Py.truthy value then
    match value with
    | PList l =>
        let* ss := texts l in Ok (result ++ label ++ ": " ++ join ", " ss ++ nl)
    | _ => Ok (result ++ label ++ ": " ++ Py.str value ++ nl)
    end
  else Ok result.

(** The [Specifications:] section of the product and device formatters. *)
Definition add_specifications (result : string) (specifications : pyval) : string :=
  if Py.truthy specifications then
    let result := result ++ "Specifications:" ++ nl in
    match specifications with
    | PDict d =>
        fold_left
          (fun result kv => result ++ "  - " ++ fst kv ++ ": " ++ Py.str (snd kv) ++ nl)
          d result
    | _ => result ++ "  - " ++ Py.str specifications ++ nl
    end
  else result.

Definition parse_food (data : dict) : outcome string :=
  let result := "<Food>" ++ nl in
  let name := get2 data "name" "dish_name" (PStr "Unknown dish") in
  let result := result ++ "Name: " ++ Py.str name ++ nl in
  let food_type := get2 data "food_type" "type" (PStr "") in
  let result := add_if result "Type" food_type in
  let ingredients := Py.get_default data "ingredients" (PList []) in
  let* result := add_joined result "Ingredients" ingredients in
  let nutrition := Py.get_default data "nutrition" (PDict []) in
  let result :=
    if Py.truthy nutrition then
      let result := result ++ "Nutrition: " in
      match nutrition with
      | PDict d =>
          let result :=
            fold_left
              (fun result kv => result ++ fst kv ++ ": " ++ Py.str (snd kv) ++ ", ")
              d result in
          rstrip result ", " ++ nl
      | _ => result ++ Py.str nutrition ++ nl
      end
    else result in
  let cooking_method := get2 data "cooking_method" "preparation" (PStr "") in
  let result := add_if result "Cooking Method" cooking_method in
  let cuisine := get2 data "cuisine" "origin" (PStr "") in
  let result := add_if result "Cuisine" cuisine in
  Ok (result ++ "</Food>").

Definition parse_shopping (data : dict) : outcome string :=
  let result := "<Product>" ++ nl in
  let name := get2 data "name" "product_name" (PStr "Unknown product") in
  let result := result ++ "Name: " ++ Py.str name ++ nl in
  let result := add_if result "Brand" (get2 data "brand" "manufacturer" (PStr "")) in
  let result := add_if result "Price" (get2 data "price" "cost" (PStr "")) in
  let result := add_if result "Category" (get2 data "category" "type" (PStr "")) in
  let specifications := get2 data "specifications" "specs" (PDict []) in
  let result := add_specifications result specifications in
  Ok (result ++ "</Product>").

(** [value.replace("[[", "").replace("]]", "")] *)
Definition strip_links (value : string) : string :=
  replace (replace value "[[" "") "]]" "".

(** [value.replace("{{", "").replace("}}", "")] *)
Definition strip_templates (value : string) : string :=
  replace (replace value "{{" "") "}}" "".

(** A landmark field cleaned with [clean], a method of [str]: calling it
    on a value that is not text raises [AttributeError]. *)
Definition add_cleaned (result label : string) (value : pyval)
    (clean : string -> string) : outcome string :=
  if Py.truthy value then
    match value with
    | PStr s => Ok (result ++ label ++ ": " ++ clean s ++ nl)
    | _ => Raise AttributeError
    end
  else Ok result.

(** [name.split('<br')[0] if '{{' in name else name] *)
Definition landmark_name (name : pyval) : outcome pyval :=
  match name with
  | PStr s => Ok (PStr (if contains s "{{" then split_head s "<br" else s))
  | PList l =>
      if existsb (fun x => Py.key_eqb x (PStr "{{")) l
      then Raise AttributeError else Ok name
  | PDict d => if Py.has d "{{" then Raise AttributeError else Ok name
  | _ => Raise TypeError
  end.

(** The cleaning of the address: links stripped, then cut at ['<br']. *)
Definition clean_address (address : string) : string :=
  let address := strip_links address in
  if contains address "<br" then split_head address "<br" else address.

Definition parse_landmark (data : dict) : outcome string :=
  let result := "<Landmark>" ++ nl in
  let* name := landmark_name (Py.get_default data "name" (PStr "Unknown landmark")) in
  let result := result ++ "Name: " ++ Py.str name ++ nl in
  let address := Py.get_default data "address" (PStr "") in
  let* result := add_cleaned result "Address" address clean_address in
  let building_type := Py.get_default data "building_type" (PStr "") in
  let* result := add_cleaned result "Type" building_type strip_links in
  let architectural_style := Py.get_default data "architectural_style" (PStr "") in
  let* result := add_cleaned result "Style" architectural_style strip_links in
  let floor_count := Py.get_default data "floor_count" (PStr "") in
  let result := add_if result "Floors" floor_count in
  let architect := Py.get_default data "architect" (PStr "") in
  let* result := add_cleaned result "Architect" architect strip_links in
  let completion_date := Py.get_default data "completion_date" (PStr "") in
  let result := add_if result "Completed" completion_date in
  Ok (result ++ "</Landmark>").

Definition parse_nature (data : dict) : outcome string :=
  let result := "<Nature>" ++ nl in
  let name := Py.get_default data "name" (PStr "Unknown") in
  let result := result ++ "Name: " ++ Py.str name ++ nl in
  let result := add_if result "Type" (Py.get_default data "type" (PStr "")) in
  let result := add_if result "Location" (Py.get_default data "location" (PStr "")) in
  let result := add_if result "Rules" (get2 data "rules" "policy" (PStr "")) in
  let result := add_if result "Recyclable" (get2 data "recyclable" "can_recycle" (PStr "")) in
  let materials := Py.get_default data "materials" (PStr "") in
  let* result := add_joined result "Materials" materials in
  Ok (result ++ "</Nature>").

Definition parse_people (data : dict) : outcome string :=
  let result := "<Person>" ++ nl in
  let name := Py.get_default data "name" (PStr "Unknown person") in
  let result := result ++ "Name: " ++ Py.str name ++ nl in
  let result := add_if result "Born" (get2 data "birth_date" "born" (PStr "")) in
  let result := add_if result "Occupation" (Py.get_default data "occupation" (PStr "")) in
  let result := add_if result "Nationality" (Py.get_default data "nationality" (PStr "")) in
  let result := add_if result "Known for" (get2 data "achievements" "known_for" (PStr "")) in
  Ok (result ++ "</Person>").

Definition parse_technology (data : dict) : outcome string :=
  let result := "<Technology>" ++ nl in
  let name := Py.get_default data "name" (PStr "Unknown device") in
  let result := result ++ "Name: " ++ Py.str name ++ nl in
  let result := add_if result "Type" (get2 data "type" "category" (PStr "")) in
  let result := add_if result "Brand" (get2 data "brand" "manufacturer" (PStr "")) in
  let specifications := get2 data "specifications" "specs" (PDict []) in
  let result := add_specifications result specifications in
  let result := add_if result "Disposal" (get2 data "disposal" "recycling" (PStr "")) in
  let result :=
    add_if result "Environmental Impact"
           (Py.get_default data "environmental_impact" (PStr "")) in
  Ok (result ++ "</Technology>").

(** The keys the generic formatter never prints. *)
Definition skipped_keys : list string :=
  ["image"; "image_size"; "coordinates"; "mapframe_wikidata"].

(** [not value or value.startswith("http") or "URL|" in value] *)
Definition suppressed (value : string) : bool :=
  String.eqb value "" || startswith value "http" || contains value "URL|".

(** One line of a nested mapping. *)
Definition generic_nested (result : string) (kv : string * pyval) : string :=
  let '(k, v) := kv in
  match v with
  | PStr s =>
      if String.eqb s "" || startswith s "http" then result
      else result ++ "  - " ++ k ++ ": " ++ s ++ nl
  | _ => result ++ "  - " ++ k ++ ": " ++ Py.str v ++ nl
  end.

(** One iteration of the loop of [parse_generic]. *)
Definition generic_field (result : string) (kv : string * pyval) : string :=
  let '(key, value) := kv in
  if existsb (String.eqb key) skipped_keys then result
  else
    match value with
    | PStr s =>
        let s := strip_templates (strip_links s) in
        if suppressed s then result else result ++ key ++ ": " ++ s ++ nl
    | PDict d => fold_left generic_nested d (result ++ key ++ ":" ++ nl)
    | PList l => result ++ key ++ ": " ++ join ", " (map Py.str l) ++ nl
    | _ => result ++ key ++ ": " ++ Py.str value ++ nl
    end.

Definition parse_generic (data : dict) : string :=
  let result := "<Info>" ++ nl in
  let result := fold_left generic_field data result in
  result ++ "</Info>".

Definition parse_math_science (data : dict) : outcome string := Ok (parse_generic data).
Definition parse_art (data : dict) : outcome string := Ok (parse_generic data).
Definition parse_entertainment (data : dict) : outcome string := Ok (parse_generic data).
Definition parse_events (data : dict) : outcome string := Ok (parse_generic data).
Definition parse_sports (data : dict) : outcome string := Ok (parse_generic data).
Definition parse_transportation (data : dict) : outcome string := Ok (parse_generic data).

(** The dispatch table [self.parsers]. *)
Definition parsers : list (string * (dict -> outcome string)) :=
  [ ("food", parse_food); ("shopping", parse_shopping); ("landmark", parse_landmark);
    ("math_science", parse_math_science); ("art", parse_art);
    ("entertainment", parse_entertainment); ("events", parse_events);
    ("nature", parse_nature); ("people", parse_people); ("sports", parse_sports);
    ("technology", parse_technology); ("transportation", parse_transportation);
    ("other", fun data => Ok (parse_generic data)) ].

Fixpoint find_parser (table : list (string * (dict -> outcome string))) (domain : string)
  : option (dict -> outcome string) :=
  match table with
  | [] => None
  | (d, p) :: table' => if String.eqb domain d then Some p else find_parser table' domain
  end.

Definition parse (domain : string) (data : dict) : outcome string :=
  match find_parser parsers domain with
  | Some parser => parser data
  | None => Ok (parse_generic data)
  end.

End StructuredDataParser.

Example generic_ex1 :
  StructuredDataParser.parse_generic
    [("capital", PStr "[[Paris]]"); ("site", PStr "http://x"); ("image", PStr "a.png");
     ("note", PStr "a<br>b")]
  = "<Info>" ++ PyStr.nl ++ "capital: Paris" ++ PyStr.nl ++
    "note: a<br>b" ++ PyStr.nl ++ "</Info>".
Proof. reflexivity. Qed.
Example landmark_ex1 :
  StructuredDataParser.parse_landmark
    [("name", PStr "{{Tower}}<br>x"); ("address", PStr "[[1 Main St]]<br/>City");
     ("architect", PStr "http://x")]
  = Ok ("<Landmark>" ++ PyStr.nl ++ "Name: {{Tower}}" ++ PyStr.nl ++
        "Address: 1 Main St" ++ PyStr.nl ++ "Architect: http://x" ++ PyStr.nl ++
        "</Landmark>").
Proof. reflexivity. Qed.
Example food_ex1 :
  StructuredDataParser.parse_food
    [("name", PStr "Soup"); ("ingredients", PList [PStr "water"; PStr "salt"]);
     ("nutrition", PDict [("kcal", PInt 10); ("fat", PStr "2g")])]
  = Ok ("<Food>" ++ PyStr.nl ++ "Name: Soup" ++ PyStr.nl ++
        "Ingredients: water, salt" ++ PyStr.nl ++
        "Nutrition: kcal: 10, fat: 2g" ++ PyStr.nl ++ "</Food>").
Proof. reflexivity. Qed.

(** ** rag_mm_agent.py: the pure stages *)

Module RAGMMAgent.

Import PyStr.

(** [enumerate(xs)] *)
Definition enumerate {A : Type} (xs : list A) : list (nat * A) :=
  combine (seq 0 (List.length xs)) xs.

(** [message.get("role") == "user"] *)
Definition is_user (message : dict) : bool :=
  match Py.get message "role" with
  | Some (PStr role) => String.eqb role "user"
  | _ => false
  end.

Definition extract_domain_from_turn (turn : dict) : outcome string :=
  match turn with
  | [] => Ok "other"
  | _ =>
      match Py.get turn "domain" with
      | Some PNone | None => Ok "other"
      | Some domain_id => get_domain_name domain_id
      end
  end.

Record session_info : Type := { domain : string; is_multi_turn : bool }.

(** One iteration of the inner loop of [extract_session_info]. *)
Definition session_info_step (current_info : session_info) (im : nat * dict)
  : outcome session_info :=
  let '(i, message) := im in
  if (i mod 2 =? 0)%nat && is_user message then
    match Py.get_default message "content" (PStr "") with
    | PDict content =>
        match Py.get content "domain" with
        | Some domain_id =>
            let* name := get_domain_name domain_id in
            Ok {| domain := name; is_multi_turn := is_multi_turn current_info |}
        | None => Ok current_info
        end
    | _ => Ok current_info
    end
  else Ok current_info.

Definition history_session_info (history : list dict) : outcome session_info :=
  let current_info :=
    {| domain := "other"; is_multi_turn := (0 <? List.length history)%nat |} in
  rfold session_info_step (enumerate history) current_info.

Definition extract_session_info (message_histories : list (list dict))
  : outcome (list session_info) :=
  rmap history_session_info message_histories.

Definition domain_prefixes : list (string * string) :=
  [ ("food", "food dish "); ("shopping", "product item ");
    ("landmark", "landmark building ");
    ("nature", "nature landscape recycling bin ");
    ("people", "person people "); ("sports", "sports game ");
    ("technology", "technology device battery ");
    ("transportation", "vehicle transportation ") ].

Fixpoint prefix_of (table : list (string * string)) (domain : string) : string :=
  match table with
  | [] => ""
  | (d, prefix) :: table' =>
      if String.eqb domain d then prefix else prefix_of table' domain
  end.

Definition _enhance_query (query domain : string) : string :=
  let prefix := prefix_of domain_prefixes domain in
  prefix ++ query.

Section PrepareSearchQueries.

Variable image : Type.

(** The body of the loop of [prepare_search_queries]. *)
Definition search_query_of (item : string * (image * session_info)) : string :=
  let '(query, (_, info)) := item in
  let domain := domain info in
  let domain := if String.eqb domain "other" then infer_domain_from_query query
                else domain in
  _enhance_query query domain.

Definition prepare_search_queries (queries : list string) (images : list image)
    (message_histories : list (list dict)) : outcome (list string) :=
  let* session_info := extract_session_info message_histories in
  Ok (map search_query_of (combine queries (combine images session_info))).

End PrepareSearchQueries.

Arguments prepare_search_queries {image} queries images message_histories.

(** [any(keyword in attrs_str for keyword in ...)] chain of
    [_infer_entity_domain]. *)
Definition entity_keywords : list (string * list string) :=
  [ ("food", ["food"; "dish"; "meal"; "recipe"; "ingredient"; "cuisine"]);
    ("shopping", ["product"; "price"; "brand"; "buy"; "store"]);
    ("landmark", ["building"; "architect"; "address"; "location"]);
    ("people", ["person"; "born"; "birth"]);
    ("nature", ["recycle"; "battery"; "bin"]) ].

Definition _infer_entity_domain (entity_attrs : pyval) : string :=
  let attrs_str := lower (Py.str entity_attrs) in
  first_matching entity_keywords attrs_str.

(** The body of [for entity in entities]. *)
Definition add_entity (parsed_result : string) (entity : pyval) : outcome string :=
  match entity with
  | PDict entity =>
      let entity_name := Py.get_default entity "entity_name" (PStr "Unknown") in
      let entity_attrs := Py.get_default entity "entity_attributes" (PDict []) in
      let entity_attrs :=
        match entity_attrs with PNone => PDict [] | _ => entity_attrs end in
      let domain := _infer_entity_domain entity_attrs in
      match entity_attrs with
      | PDict attrs =>
          let* parsed_entity :=
            StructuredDataParser.parse domain
              (Py.merge [("name", entity_name)] attrs) in
          if String.eqb parsed_entity "" then Ok parsed_result
          else Ok (parsed_result ++ parsed_entity ++ nl ++ nl)
      | _ => Raise TypeError
      end
  | _ => Raise AttributeError
  end.

(** The body of [for result in result_list]. *)
Definition add_result (parsed_result : string) (result : dict) : outcome string :=
  let* entities := Py.iter (Py.get_default result "entities" (PList [])) in
  rfold add_entity entities parsed_result.

(** The evidence block of one item. *)
Definition image_context (result_list : list dict) : outcome string :=
  match result_list with
  | [] => Ok ""
  | _ => let* parsed_result := rfold add_result result_list "" in
         Ok (strip parsed_result)
  end.

Definition process_image_search_results (search_results : list (list dict))
  : outcome (list string) :=
  rmap image_context search_results.

(** The body of the loop over web hits. *)
Definition add_snippet (context : string) (result : dict) : string :=
  if Py.has result "page_snippet" then
    let snippet := Py.get_default result "page_snippet" (PStr "") in
    let page_name := Py.get_default result "page_name" (PStr "Unknown Source") in
    if Py.truthy snippet
    then context ++ "From " ++ Py.str page_name ++ ":" ++ nl ++ Py.str snippet ++ nl ++ nl
    else context
  else context.

Definition web_context (result_list : list dict) : string :=
  match result_list with
  | [] => ""
  | _ => strip (fold_left add_snippet result_list "")
  end.

Definition process_web_search_results (search_results : list (list dict))
  : list string :=
  map web_context search_results.

(** The text parts of a list-valued content:
    [part.get("text", "")] of every dict part whose type is ["text"]. *)
Fixpoint text_parts (parts : list pyval) : list pyval :=
  match parts with
  | [] => []
  | PDict part :: parts' =>
      match Py.get part "type" with
      | Some (PStr "text") => Py.get_default part "text" (PStr "") :: text_parts parts'
      | _ => text_parts parts'
      end
  | _ :: parts' => text_parts parts'
  end.

(** The content of a history message after flattening. *)
Definition flatten_content (content : pyval) : outcome pyval :=
  match content with
  | PList parts =>
      let* ss := StructuredDataParser.texts (text_parts parts) in
      Ok (PStr (join " " ss))
  | PDict _ => Ok (PStr (Py.str content))
  | _ => Ok content
  end.

(** The body of the loop of [_process_message_history]. *)
Definition process_message (processed_history : list dict) (message : dict)
  : outcome (list dict) :=
  match Py.get message "role", Py.get message "content" with
  | Some role, Some content =>
      let* content := flatten_content content in
      Ok (processed_history ++ [[("role", role); ("content", content)]])%list
  | _, _ => Ok processed_history
  end.

Definition _process_message_history (message_history : list dict)
  : outcome (list dict) :=
  rfold process_message message_history [].

Definition system_prompt : string :=
  "You are a helpful visual assistant. Answer questions about the image " ++
  "accurately and concisely based on what you can see and the provided context. " ++
  "If you don't know the answer, say 'I don't know'.".

(** [contexts and idx < len(contexts) and contexts[idx]]: the non-empty
    evidence block of item [idx], if there is one. *)
Definition context_at (contexts : option (list string)) (idx : nat) : option string :=
  match contexts with
  | Some l =>
      match nth_error l idx with
      | Some c => if String.eqb c "" then None else Some c
      | None => None
      end
  | None => None
  end.

Definition system_message (content : string) : dict :=
  [("role", PStr "system"); ("content", PStr content)].

Definition user_message (query : string) : dict :=
  [("role", PStr "user");
   ("content", PList [PDict [("type", PStr "image")];
                      PDict [("type", PStr "text"); ("text", PStr query)]])].

(** The message list [prepare_llm_prompts] builds for item [idx]. *)
Definition build_messages (idx : nat) (query : string) (history : list dict)
    (image_contexts web_contexts : option (list string)) : outcome (list dict) :=
  let messages := [system_message system_prompt] in
  let* messages :=
    match history with
    | [] => Ok messages
    | _ => let* processed_history := _process_message_history history in
           Ok (messages ++ processed_history)%list
    end in
  let messages :=
    match context_at image_contexts idx with
    | Some c =>
        (messages ++
         [system_message ("Information about what's in the image:" ++ nl ++ nl ++ c)])%list
    | None => messages
    end in
  let messages :=
    match context_at web_contexts idx with
    | Some c =>
        (messages ++
         [system_message ("Additional information from the web:" ++ nl ++ nl ++ c)])%list
    | None => messages
    end in
  Ok (messages ++ [user_message query])%list.

End RAGMMAgent.

Example enhance_ex : RAGMMAgent._enhance_query "red car" "transportation"
                     = "vehicle transportation red car".
Proof. reflexivity. Qed.
Example history_ex :
  RAGMMAgent._process_message_history
    [ [("role", PStr "user");
       ("content", PList [PDict [("type", PStr "image")];
                          PDict [("type", PStr "text"); ("text", PStr "what")];
                          PDict [("type", PStr "text"); ("text", PStr "is it")]])];
      [("role", PStr "assistant")];
      [("role", PStr "user"); ("content", PDict [("domain", PInt 0)])] ]
  = Ok [ [("role", PStr "user"); ("content", PStr "what is it")];
         [("role", PStr "user"); ("content", PStr "{'domain': 0}")] ].
Proof. reflexivity. Qed.

(** ** The session store *)

Module SessionStore.

(** One remembered exchange, [{"query": query, "response": response}]. *)
Record exchange : Type := { query : string; response : string }.

(** [self.session_cache]: session id to the exchanges appended so far. *)
Definition store : Type := list (pyval * list exchange).

(** [self.session_cache.get(key)] for a hashable key. *)
Fixpoint find (cache : store) (key : pyval) : option (list exchange) :=
  match cache with
  | [] => None
  | (k, l) :: cache' => if Py.key_eqb key k then Some l else find cache' key
  end.

(** [key in self.session_cache] *)
Definition mem (cache : store) (key : pyval) : bool :=
  match find cache key with
  | Some _ => true
  | None => false
  end.

(** [self.session_cache[key].append(e)] for a key that is present. *)
Fixpoint append (cache : store) (key : pyval) (e : exchange) : store :=
  match cache with
  | [] => []
  | (k, l) :: cache' =>
      if Py.key_eqb key k then (k, l ++ [e])%list :: cache'
      else (k, l) :: append cache' key e
  end.

Definition keys (cache : store) : list pyval := map fst cache.

(** The value of the first message that has a [session_id] field. *)
Fixpoint first_session_id (history : list dict) : option pyval :=
  match history with
  | [] => None
  | message :: history' =>
      match Py.get message "session_id" with
      | Some session_id => Some session_id
      | None => first_session_id history'
      end
  end.

(** One iteration of the loop of [_update_session_cache]. *)
Definition update (cache : store) (q r : string) (history : list dict)
  : outcome store :=
  match history with
  | [] => Ok cache
  | _ =>
      let session_id :=
        match first_session_id history with
        | Some session_id => session_id
        | None => PNone
        end in
      if negb (Py.truthy session_id) then Ok cache
      else if negb (Py.hashable session_id) then Raise TypeError
      else
        let cache :=
          if mem cache session_id then cache
          else (cache ++ [(session_id, [])])%list in
        Ok (append cache session_id {| query := q; response := r |})
  end.

End SessionStore.

(** ** rag_mm_agent.py: the agent and its collaborators *)

Module Agent.

Import PyStr RAGMMAgent.

Section WithImages.

(** Images are opaque handles. *)
Variable image : Type.

(** One entry of the batch handed to [llm.generate]. *)
Record prompt : Type := { prompt_text : string; multi_modal_image : image }.

(** The external components: the retrieval engine ([search_pipeline], with
    its capability probes), the tokenizer and the generation engine. A
    search may answer differently for each item of the batch. *)
Record collaborators : Type := {
  image_search : nat -> image -> outcome (list dict);
  has_search_web : outcome bool;
  web_index_present : outcome bool;
  web_search : nat -> string -> outcome (list dict);
  apply_chat_template : list dict -> outcome string;
  generate : list prompt -> outcome (list (list string))
}.

(** The calls made to the collaborators, in order. *)
Inductive call : Type :=
| CallImageSearch (i : nat) (img : image)
| CallWebCapability
| CallWebSearch (i : nat) (q : string)
| CallChatTemplate (messages : list dict)
| CallGenerate (prompts : list prompt).

(** The mutable state of a run: the agent's session cache, and the calls
    observed so far. *)
Record agent : Type := {
  session_cache : SessionStore.store;
  calls : list call
}.

(** Stateful computations that may raise; the state survives a raise. *)
Definition M (A : Type) : Type := agent -> outcome A * agent.

Definition ret {A : Type} (a : A) : M A := fun st => (Ok a, st).

Definition bind {A B : Type} (m : M A) (k : A -> M B) : M B :=
  fun st =>
    match m st with
    | (Ok a, st') => k a st'
    | (Raise e, st') => (Raise e, st')
    end.

Definition lift {A : Type} (r : outcome A) : M A := fun st => (r, st).

(** [try: m except Exception: handler] *)
Definition try_except {A : Type} (m : M A) (handler : exn -> M A) : M A :=
  fun st =>
    match m st with
    | (Ok a, st') => (Ok a, st')
    | (Raise e, st') => handler e st'
    end.

Definition observe (c : call) : M unit :=
  fun st => (Ok tt, {| session_cache := session_cache st;
                       calls := (calls st ++ [c])%list |}).

Notation "x <- m ;; k" := (bind m (fun x => k))
  (at level 61, m at next level, right associativity).
Notation "m ;;; k" := (bind m (fun _ => k))
  (at level 61, right associativity).

(** A [for] loop that appends one value per element. *)
Fixpoint for_each {A B : Type} (body : A -> M B) (xs : list A) : M (list B) :=
  match xs with
  | [] => ret []
  | x :: xs' => y <- body x ;; ys <- for_each body xs' ;; ret (y :: ys)
  end.

Variable C : collaborators.

(** The guarded image search of one item. *)
Definition try_image_search (item : nat * (string * image)) : M (list dict) :=
  let '(i, (_, img)) := item in
  try_except
    (observe (CallImageSearch i img) ;;; lift (image_search C i img))
    (fun _ => ret []).

(** The guarded web search of one item. *)
Definition try_web_search (item : nat * string) : M (list dict) :=
  let '(i, q) := item in
  try_except
    (observe (CallWebSearch i q) ;;; lift (web_search C i q))
    (fun _ => ret []).

(** [hasattr(pipeline, 'search_web') and pipeline.web_index is not None] *)
Definition web_capable : M bool :=
  observe CallWebCapability ;;;
  has <- lift (has_search_web C) ;;
  if has then lift (web_index_present C) else ret false.

(** Step 3 of [batch_generate_response]: a failing probe leaves
    [web_search_results] empty. *)
Definition run_web_search (search_queries : list string) : M (list (list dict)) :=
  try_except
    (capable <- web_capable ;;
     if capable then for_each try_web_search (enumerate search_queries)
     else ret [])
    (fun _ => ret []).

(** The body of the loop of [prepare_llm_prompts]. *)
Definition prepare_prompt (image_contexts web_contexts : option (list string))
    (item : nat * (string * (image * list dict))) : M prompt :=
  let '(idx, (q, (img, history))) := item in
  messages <- lift (build_messages idx q history image_contexts web_contexts) ;;
  observe (CallChatTemplate messages) ;;;
  formatted_prompt <- lift (apply_chat_template C messages) ;;
  ret {| prompt_text := formatted_prompt; multi_modal_image := img |}.

Definition prepare_llm_prompts (queries : list string) (images : list image)
    (message_histories : list (list dict))
    (image_contexts web_contexts : option (list string)) : M (list prompt) :=
  for_each (prepare_prompt image_contexts web_contexts)
           (enumerate (combine queries (combine images message_histories))).

(** The body of the loop of [_update_session_cache]. *)
Definition update_session (item : string * (string * list dict)) : M unit :=
  let '(q, (r, history)) := item in
  fun st =>
    match SessionStore.update (session_cache st) q r history with
    | Ok cache => (Ok tt, {| session_cache := cache; calls := calls st |})
    | Raise e => (Raise e, st)
    end.

Definition _update_session_cache (queries responses : list string)
    (message_histories : list (list dict)) : M unit :=
  for_each update_session (combine queries (combine responses message_histories)) ;;;
  ret tt.

(** [output.outputs[0].text] *)
Definition first_text (output : list string) : outcome string :=
  match output with
  | text :: _ => Ok text
  | [] => Raise IndexError
  end.

Definition no_image_answer : string := "I don't have an image to analyze.".

(** Step 2 of [batch_generate_response]. *)
Definition run_image_search (search_queries : list string) (images : list image)
  : M (list (list dict)) :=
  for_each try_image_search (enumerate (combine search_queries images)).

(** Steps 4 to 8 of [batch_generate_response]. *)
Definition answer_from_results (queries : list string) (images : list image)
    (message_histories : list (list dict))
    (image_search_results web_search_results : list (list dict)) : M (list string) :=
  image_contexts <- lift (process_image_search_results image_search_results) ;;
  let web_contexts :=
    match web_search_results with
    | [] => None
    | _ => Some (process_web_search_results web_search_results)
    end in
  prompts <-
    prepare_llm_prompts queries images message_histories
                        (Some image_contexts) web_contexts ;;
  observe (CallGenerate prompts) ;;;
  outputs <- lift (generate C prompts) ;;
  responses <- lift (rmap first_text outputs) ;;
  _update_session_cache queries responses message_histories ;;;
  ret responses.

Definition batch_generate_response (queries : list string) (images : list image)
    (message_histories : list (list dict)) : M (list string) :=
  match images with
  | [] => ret (repeat no_image_answer (List.length queries))
  | _ =>
      search_queries <- lift (prepare_search_queries queries images message_histories) ;;
      image_search_results <- run_image_search search_queries images ;;
      web_search_results <- run_web_search search_queries ;;
      answer_from_results queries images message_histories
                          image_search_results web_search_results
  end.

End WithImages.

Arguments CallImageSearch {image} i img.
Arguments CallWebCapability {image}.
Arguments CallWebSearch {image} i q.
Arguments CallChatTemplate {image} messages.
Arguments CallGenerate {image} prompts.
Arguments ret {image A} a.
Arguments bind {image A B} m k.
Arguments lift {image A} r.
Arguments try_except {image A} m handler.
Arguments for_each {image A B} body xs.

End Agent.

(** * Properties *)

(** ** Identifier resolution *)

Section Tables.

Variable table : list (Z * string).
Hypothesis table_keys : NoDup (map fst table).

Lemma table_find_In (z : Z) (tag : string) :
  table_find table z = Some tag <-> In (z, tag) table.
Proof.
  induction table as [|[k v] t IH]; simpl.
  - split; [discriminate | tauto].
  - inversion table_keys as [|? ? Hk Ht]; subst.
    destruct (Z.eqb_spec k z) as [->|Hne].
    + split.
      * intros [= ->]. now left.
      * intros [[= ->]|Hin]; [reflexivity|].
        exfalso. apply Hk. now apply (in_map fst) in Hin.
    + rewrite (IH Ht). split.
      * now right.
      * intros [[= -> ->]|Hin]; [congruence | assumption].
Qed.

Lemma table_find_None (z : Z) :
  table_find table z = None <-> (forall tag, ~ In (z, tag) table).
Proof.
  split.
  - intros Hnone tag Hin. apply table_find_In in Hin. congruence.
  - intros Hout. destruct (table_find table z) as [tag|] eqn:E; [|reflexivity].
    apply table_find_In in E. now apply Hout in E.
Qed.

(** What [table.get(key, default)] returns on a key that can be hashed. *)
Lemma table_get_hashable (key : pyval) (default : string) :
  Py.hashable key = true ->
  (forall z tag, Py.int_key key = Some z -> In (z, tag) table ->
                 table_get table key default = Ok tag) /\
  ((forall z tag, Py.int_key key = Some z -> ~ In (z, tag) table) ->
   table_get table key default = Ok default).
Proof.
  intros Hh. unfold table_get. rewrite Hh. split.
  - intros z tag -> Hin. apply table_find_In in Hin. now rewrite Hin.
  - intros Hout. destruct (Py.int_key key) as [z|]; [|reflexivity].
    destruct (table_find table z) as [tag|] eqn:E; [|reflexivity].
    apply table_find_In in E. now apply (Hout z tag) in E.
Qed.

End Tables.

Lemma table_get_unhashable (table : list (Z * string)) (key : pyval) (default : string) :
  Py.hashable key = false -> table_get table key default = Raise TypeError.
Proof. intros Hh. unfold table_get. now rewrite Hh. Qed.

Ltac nodup_keys := repeat (constructor; [simpl; intuition discriminate|]); constructor.

Lemma DOMAIN_MAP_keys : NoDup (map fst DOMAIN_MAP).
Proof. nodup_keys. Qed.

Lemma QUERY_CATEGORY_MAP_keys : NoDup (map fst QUERY_CATEGORY_MAP).
Proof. nodup_keys. Qed.

Lemma DYNAMISM_MAP_keys : NoDup (map fst DYNAMISM_MAP).
Proof. nodup_keys. Qed.

(** C6, as stated, at a list-valued id: the lookup raises instead of
    falling back to the default tag. *)
Lemma resolve_unhashable_raises :
  get_domain_name (PList []) = Raise TypeError /\
  get_query_category_name (PList []) = Raise TypeError /\
  get_dynamism_name (PDict []) = Raise TypeError /\
  ~ (forall id, exists tag, get_domain_name id = Ok tag).
Proof.
  split; [reflexivity|]. split; [reflexivity|]. split; [reflexivity|].
  intros H. destruct (H (PList [])) as [tag Htag]. discriminate.
Qed.

(** C6, amended: on every id that can be hashed (None, a boolean, an
    integer of any size or sign, a text) each of the three resolutions
    returns the tag the fixed table maps the id to when the id equals one
    of its keys, and the default ("other", "simple", "static") otherwise,
    without raising; an id that cannot be hashed (a list or a mapping)
    raises TypeError. *)
Theorem resolve_hashable_total (id : pyval) (Hid : Py.hashable id = true) :
  ((forall z tag, Py.int_key id = Some z -> In (z, tag) DOMAIN_MAP ->
                  get_domain_name id = Ok tag) /\
   ((forall z tag, Py.int_key id = Some z -> ~ In (z, tag) DOMAIN_MAP) ->
    get_domain_name id = Ok "other")) /\
  ((forall z tag, Py.int_key id = Some z -> In (z, tag) QUERY_CATEGORY_MAP ->
                  get_query_category_name id = Ok tag) /\
   ((forall z tag, Py.int_key id = Some z -> ~ In (z, tag) QUERY_CATEGORY_MAP) ->
    get_query_category_name id = Ok "simple")) /\
  ((forall z tag, Py.int_key id = Some z -> In (z, tag) DYNAMISM_MAP ->
                  get_dynamism_name id = Ok tag) /\
   ((forall z tag, Py.int_key id = Some z -> ~ In (z, tag) DYNAMISM_MAP) ->
    get_dynamism_name id = Ok "static")) /\
  (exists d c y, get_domain_name id = Ok d /\ get_query_category_name id = Ok c /\
                 get_dynamism_name id = Ok y).
Proof.
  repeat split.
  - apply (table_get_hashable _ DOMAIN_MAP_keys id "other" Hid).
  - apply (table_get_hashable _ DOMAIN_MAP_keys id "other" Hid).
  - apply (table_get_hashable _ QUERY_CATEGORY_MAP_keys id "simple" Hid).
  - apply (table_get_hashable _ QUERY_CATEGORY_MAP_keys id "simple" Hid).
  - apply (table_get_hashable _ DYNAMISM_MAP_keys id "static" Hid).
  - apply (table_get_hashable _ DYNAMISM_MAP_keys id "static" Hid).
  - unfold get_domain_name, get_query_category_name, get_dynamism_name, table_get.
    rewrite Hid. destruct (Py.int_key id) as [z|].
    + destruct (table_find DOMAIN_MAP z), (table_find QUERY_CATEGORY_MAP z),
        (table_find DYNAMISM_MAP z); do 3 eexists; repeat split; reflexivity.
    + do 3 eexists; repeat split; reflexivity.
Qed.

Lemma resolve_hashable_total_witness :
  Py.hashable (PInt 7) = true /\
  get_domain_name (PInt 7) = Ok "nature" /\
  get_query_category_name (PInt 7) = Ok "multi-hop" /\
  get_dynamism_name (PInt 7) = Ok "static".
Proof.
  split; [reflexivity|].
  destruct (resolve_hashable_total (PInt 7) eq_refl) as [[Hd _] [[Hc _] [[_ Hy] _]]].
  split; [|split].
  - apply (Hd 7%Z); [reflexivity | simpl; tauto].
  - apply (Hc 7%Z); [reflexivity | simpl; tauto].
  - apply Hy. intros z tag [= <-]. simpl. intuition congruence.
Defined.

(** ** Text-based domain inference *)

(** The keywords listed under a domain. *)
Fixpoint keywords_in (t : list (string * list string)) (A : string) : list string :=
  match t with
  | [] => []
  | (D, kws) :: t' => if String.eqb A D then kws else keywords_in t' A
  end.

(** The position of a domain in the priority list. *)
Fixpoint rank_in (t : list (string * list string)) (A : string) : option nat :=
  match t with
  | [] => None
  | (D, _) :: t' =>
      if String.eqb A D then Some 0
      else match rank_in t' A with Some n => Some (S n) | None => None end
  end.

Definition matches_in (t : list (string * list string)) (text A : string) : bool :=
  any_keyword_in text (keywords_in t A).

Lemma matches_in_listed (t : list (string * list string)) (text A : string) :
  matches_in t text A = true -> In A (map fst t).
Proof.
  unfold matches_in. induction t as [|[D kws] t IH]; simpl.
  - discriminate.
  - destruct (String.eqb_spec A D) as [->|Hne]; [now left|].
    intros H. right. now apply IH.
Qed.

Lemma rank_in_listed (t : list (string * list string)) (A : string) (n : nat) :
  rank_in t A = Some n -> In A (map fst t).
Proof.
  revert n. induction t as [|[D kws] t IH]; simpl; intros n.
  - discriminate.
  - destruct (String.eqb_spec A D) as [->|Hne]; [now left|].
    destruct (rank_in t A) as [m|] eqn:E; [|discriminate].
    intros _. right. now apply (IH m).
Qed.

(** The scan returns the earliest listed domain that matches, whatever
    else matches after it. *)
Lemma first_matching_earliest (t : list (string * list string)) (text A : string) (i : nat) :
  NoDup (map fst t) ->
  rank_in t A = Some i ->
  matches_in t text A = true ->
  (forall D j, rank_in t D = Some j -> j < i -> matches_in t text D = false) ->
  first_matching t text = A.
Proof.
  revert i. induction t as [|[D kws] t IH]; simpl; intros i Hnd Hr Hm Hearlier.
  - discriminate.
  - inversion Hnd as [|? ? HD Ht]; subst.
    unfold matches_in in Hm. simpl in Hm.
    destruct (String.eqb_spec A D) as [->|Hne].
    + now rewrite Hm.
    + destruct (rank_in t A) as [m|] eqn:Er; [|discriminate].
      injection Hr as <-.
      assert (HDno : any_keyword_in text kws = false).
      { specialize (Hearlier D 0). unfold matches_in in Hearlier. simpl in Hearlier.
        rewrite String.eqb_refl in Hearlier. apply Hearlier; [reflexivity | lia]. }
      rewrite HDno. apply (IH m Ht eq_refl Hm).
      intros E j HrE Hj.
      assert (HE : E <> D).
      { intros ->. apply HD. now apply (rank_in_listed t D j). }
      specialize (Hearlier E (S j)). unfold matches_in in Hearlier. simpl in Hearlier.
      apply String.eqb_neq in HE. rewrite HE, HrE in Hearlier.
      apply Hearlier; [reflexivity | lia].
Qed.

Lemma first_matching_none (t : list (string * list string)) (text : string) :
  NoDup (map fst t) ->
  (forall D, matches_in t text D = false) ->
  first_matching t text = "other".
Proof.
  induction t as [|[D kws] t IH]; simpl; intros Hnd Hno.
  - reflexivity.
  - inversion Hnd as [|? ? HD Ht]; subst.
    assert (HDno : any_keyword_in text kws = false).
    { specialize (Hno D). unfold matches_in in Hno. simpl in Hno.
      now rewrite String.eqb_refl in Hno. }
    rewrite HDno. apply (IH Ht). intros E.
    destruct (matches_in t text E) eqn:HE; [|reflexivity].
    assert (E <> D) as Hne.
    { intros ->. apply HD. now apply (matches_in_listed t text D). }
    specialize (Hno E). unfold matches_in in Hno. simpl in Hno.
    apply String.eqb_neq in Hne. rewrite Hne in Hno.
    unfold matches_in in HE. congruence.
Qed.

(** A query contains, case-insensitively, a keyword of domain [A]. *)
Definition query_matches (query A : string) : bool :=
  matches_in domain_keywords (PyStr.lower query) A.

(** The position of a domain in the priority list. *)
Definition domain_rank (A : string) : option nat := rank_in domain_keywords A.

(** [A] is listed before [B]. *)
Definition precedes (A B : string) : Prop :=
  exists i j, domain_rank A = Some i /\ domain_rank B = Some j /\ i < j.

Lemma domain_keywords_names : NoDup (map fst domain_keywords).
Proof.
  repeat (constructor; [simpl; intuition discriminate|]); constructor.
Qed.

(** C3: a query that contains keywords of the two domains A and B, A listed
    before B, resolves to A, wherever the keywords stand in the text; a
    query that contains no keyword of any domain resolves to "other"; a
    query of the single word "battery" resolves to "nature", which is
    listed before "technology". *)
Theorem infer_domain_priority :
  (forall query A B,
      query_matches query A = true ->
      query_matches query B = true ->
      precedes A B ->
      (forall D, query_matches query D = true -> D = A \/ D = B) ->
      infer_domain_from_query query = A) /\
  (forall query,
      (forall D, query_matches query D = false) ->
      infer_domain_from_query query = "other") /\
  (infer_domain_from_query "battery" = "nature" /\
   query_matches "battery" "nature" = true /\
   query_matches "battery" "technology" = true /\
   precedes "nature" "technology").
Proof.
  split; [|split].
  - intros query A B HA HB (i & j & Hi & Hj & Hij) Honly.
    unfold infer_domain_from_query.
    apply (first_matching_earliest domain_keywords _ A i domain_keywords_names Hi HA).
    intros D k Hk Hki.
    destruct (matches_in domain_keywords (PyStr.lower query) D) eqn:HD; [|reflexivity].
    exfalso. unfold domain_rank in *.
    destruct (Honly D HD) as [->| ->]; rewrite Hk in *.
    + injection Hi as ->. lia.
    + injection Hj as ->. lia.
  - intros query Hno. unfold infer_domain_from_query.
    now apply first_matching_none; [apply domain_keywords_names|].
  - split; [reflexivity|]. split; [reflexivity|]. split; [reflexivity|].
    exists 7, 10. split; [reflexivity|]. split; [reflexivity | lia].
Qed.

Lemma infer_domain_priority_witness :
  infer_domain_from_query "Which phone fits in this CAR?" = "technology".
Proof.
  apply (proj1 infer_domain_priority _ "technology" "transportation").
  - reflexivity.
  - reflexivity.
  - exists 10, 11. split; [reflexivity|]. split; [reflexivity | lia].
  - intros D HD.
    destruct (in_inv (matches_in_listed domain_keywords _ D HD)) as [<-|H];
      [discriminate|].
    repeat (destruct H as [<-|H]; [first [discriminate | now left | now right]|]).
    destruct H.
Defined.

(** ** The session store *)

Module StoreFacts.

Import SessionStore.

Lemma key_eqb_refl (k : pyval) : Py.hashable k = true -> Py.key_eqb k k = true.
Proof.
  destruct k as [|[]| | | |]; cbv [Py.key_eqb Py.int_key Py.hashable];
    try discriminate; intros _; auto using Z.eqb_refl, String.eqb_refl.
Qed.

Lemma key_eqb_sym (a b : pyval) : Py.key_eqb a b = Py.key_eqb b a.
Proof.
  destruct a as [|[]| | | |], b as [|[]| | | |]; cbv [Py.key_eqb Py.int_key];
    auto using Z.eqb_sym, String.eqb_sym.
Qed.

Lemma key_eqb_trans (a b c : pyval) :
  Py.key_eqb a b = true -> Py.key_eqb b c = true -> Py.key_eqb a c = true.
Proof.
  destruct a as [|[]| | | |], b as [|[]| | | |], c as [|[]| | | |];
    cbv [Py.key_eqb Py.int_key];
    intros H1 H2; try discriminate; try reflexivity;
    rewrite ?Z.eqb_eq, ?String.eqb_eq in *; congruence.
Qed.

(** Equal keys cannot be told apart by a third key. *)
Lemma key_eqb_compat (a b c : pyval) :
  Py.key_eqb a b = true -> Py.key_eqb a c = Py.key_eqb b c.
Proof.
  intros Hab. destruct (Py.key_eqb b c) eqn:Hbc.
  - now apply (key_eqb_trans a b c).
  - destruct (Py.key_eqb a c) eqn:Hac; [|reflexivity].
    rewrite key_eqb_sym in Hab. now rewrite (key_eqb_trans b a c Hab Hac) in Hbc.
Qed.

Lemma find_compat (cache : store) (a b : pyval) :
  Py.key_eqb a b = true -> find cache a = find cache b.
Proof.
  intros Hab. induction cache as [|[k l] cache IH]; simpl; [reflexivity|].
  now rewrite (key_eqb_compat a b k Hab), IH.
Qed.

(** No two entries of the store have equal keys. *)
Fixpoint distinct_keys (cache : store) : Prop :=
  match cache with
  | [] => True
  | (k, _) :: cache' => mem cache' k = false /\ distinct_keys cache'
  end.

(** Every list of the first store is a prefix of the list the second store
    has under the same key. *)
Definition extends (cache cache' : store) : Prop :=
  forall k l, find cache k = Some l -> exists l', find cache' k = Some (l ++ l')%list.

Lemma extends_refl (cache : store) : extends cache cache.
Proof. intros k l H. exists []. now rewrite app_nil_r. Qed.

Lemma extends_trans (c1 c2 c3 : store) : extends c1 c2 -> extends c2 c3 -> extends c1 c3.
Proof.
  intros H12 H23 k l H. destruct (H12 k l H) as [l' H'].
  destruct (H23 k _ H') as [l'' H'']. exists (l' ++ l'')%list.
  now rewrite app_assoc.
Qed.

Lemma find_append_same (cache : store) (S : pyval) (e : exchange) (l : list exchange) :
  find cache S = Some l -> find (append cache S e) S = Some (l ++ [e])%list.
Proof.
  induction cache as [|[k l0] cache IH]; simpl; [discriminate|].
  destruct (Py.key_eqb S k) eqn:E; simpl; rewrite E.
  - now intros [= ->].
  - exact IH.
Qed.

Lemma find_append_other (cache : store) (S S' : pyval) (e : exchange) :
  Py.key_eqb S' S = false -> find (append cache S e) S' = find cache S'.
Proof.
  intros Hne. induction cache as [|[k l0] cache IH]; simpl; [reflexivity|].
  destruct (Py.key_eqb S k) eqn:E; simpl.
  - rewrite key_eqb_sym in E.
    rewrite (key_eqb_sym S' k), (key_eqb_compat k S S' E), key_eqb_sym, Hne.
    reflexivity.
  - now rewrite IH.
Qed.

Lemma keys_append (cache : store) (S : pyval) (e : exchange) :
  keys (append cache S e) = keys cache.
Proof.
  induction cache as [|[k l0] cache IH]; simpl; [reflexivity|].
  destruct (Py.key_eqb S k); simpl; [reflexivity|]. now f_equal.
Qed.

Lemma mem_keys (c1 c2 : store) (k : pyval) : keys c1 = keys c2 -> mem c1 k = mem c2 k.
Proof.
  unfold mem. revert c2. induction c1 as [|[k1 l1] c1 IH]; intros [|[k2 l2] c2]; simpl;
    try discriminate; [reflexivity|].
  intros [= -> Hk]. destruct (Py.key_eqb k k2); [reflexivity|]. now apply IH.
Qed.

Lemma distinct_keys_keys (c1 c2 : store) :
  keys c1 = keys c2 -> distinct_keys c1 -> distinct_keys c2.
Proof.
  revert c2. induction c1 as [|[k1 l1] c1 IH]; intros [|[k2 l2] c2]; simpl;
    try discriminate; [tauto|].
  intros [= -> Hk] [Hm Hd]. split; [|now apply IH].
  now rewrite <- (mem_keys c1 c2 k2 Hk).
Qed.

Lemma find_new_key (cache : store) (S k : pyval) (l : list exchange) :
  find (cache ++ [(S, l)])%list k =
  match find cache k with
  | Some l' => Some l'
  | None => if Py.key_eqb k S then Some l else None
  end.
Proof.
  induction cache as [|[k0 l0] cache IH]; simpl; [reflexivity|].
  destruct (Py.key_eqb k k0); [reflexivity | exact IH].
Qed.

Lemma distinct_keys_new (cache : store) (S : pyval) (l : list exchange) :
  mem cache S = false -> distinct_keys cache -> distinct_keys (cache ++ [(S, l)])%list.
Proof.
  induction cache as [|[k0 l0] cache IH]; simpl.
  - intros _ _. split; [reflexivity | exact I].
  - unfold mem in *. simpl. destruct (Py.key_eqb S k0) eqn:E; [discriminate|].
    intros HS [Hk Hd]. split; [|now apply IH].
    rewrite find_new_key. destruct (find cache k0); [discriminate|].
    now rewrite key_eqb_sym, E.
Qed.

End StoreFacts.

(** ** Reasoning about runs of the agent *)

Module RunFacts.

Import Agent.

Section Preservation.

Variable image : Type.

(** A relation between the state before and after a computation, closed
    under doing nothing and under sequencing. *)
Variable R : agent image -> agent image -> Prop.
Hypothesis R_refl : forall st, R st st.
Hypothesis R_trans : forall st1 st2 st3, R st1 st2 -> R st2 st3 -> R st1 st3.

(** Every run of [m], raising or not, relates its start to its end. *)
Definition preserves {A : Type} (m : M image A) : Prop :=
  forall st, R st (snd (m st)).

Lemma preserves_ret {A : Type} (a : A) : preserves (ret a).
Proof. intros st. apply R_refl. Qed.

Lemma preserves_lift {A : Type} (r : outcome A) : preserves (lift r).
Proof. intros st. apply R_refl. Qed.

Lemma preserves_bind {A B : Type} (m : M image A) (k : A -> M image B) :
  preserves m -> (forall a, preserves (k a)) -> preserves (bind m k).
Proof.
  intros Hm Hk st. unfold bind. specialize (Hm st).
  destruct (m st) as [[a|e] st']; simpl in *.
  - apply (R_trans _ st'); [assumption | apply Hk].
  - assumption.
Qed.

Lemma preserves_try_except {A : Type} (m : M image A) (handler : exn -> M image A) :
  preserves m -> (forall e, preserves (handler e)) -> preserves (try_except m handler).
Proof.
  intros Hm Hh st. unfold try_except. specialize (Hm st).
  destruct (m st) as [[a|e] st']; simpl in *.
  - assumption.
  - apply (R_trans _ st'); [assumption | apply Hh].
Qed.

Lemma preserves_for_each {A B : Type} (body : A -> M image B) (xs : list A) :
  (forall x, In x xs -> preserves (body x)) -> preserves (for_each body xs).
Proof.
  induction xs as [|x xs IH]; intros Hbody; simpl.
  - apply preserves_ret.
  - apply preserves_bind; [apply Hbody; now left|]. intros y.
    apply preserves_bind; [apply IH; intros z Hz; apply Hbody; now right|].
    intros ys. apply preserves_ret.
Qed.

End Preservation.

End RunFacts.

Module UpdateFacts.

Import SessionStore StoreFacts.

Lemma update_without_id (cache : store) (q r : string) (history : list dict) :
  first_session_id history = None -> update cache q r history = Ok cache.
Proof.
  intros H. unfold update. rewrite H. now destruct history.
Qed.

Lemma update_falsy_id (cache : store) (q r : string) (history : list dict) (S : pyval) :
  first_session_id history = Some S -> Py.truthy S = false ->
  update cache q r history = Ok cache.
Proof.
  intros H Hf. unfold update. rewrite H, Hf. now destruct history.
Qed.

(** The store after a successful append under [S]. *)
Definition appended (cache : store) (S : pyval) (e : exchange) : store :=
  append (if mem cache S then cache else (cache ++ [(S, [])])%list) S e.

Lemma update_with_id (cache : store) (q r : string) (history : list dict) (S : pyval) :
  first_session_id history = Some S -> Py.truthy S = true -> Py.hashable S = true ->
  update cache q r history = Ok (appended cache S {| query := q; response := r |}).
Proof.
  intros H Ht Hh. unfold update. rewrite H, Ht, Hh.
  destruct history; [discriminate | reflexivity].
Qed.

Lemma find_appended_same (cache : store) (S : pyval) (e : exchange) :
  Py.hashable S = true ->
  find (appended cache S e) S =
  Some (match find cache S with Some l => l | None => [] end ++ [e])%list.
Proof.
  intros Hh. unfold appended, mem. destruct (find cache S) as [l|] eqn:E.
  - now apply find_append_same.
  - apply (find_append_same _ S e []). rewrite find_new_key, E.
    now rewrite key_eqb_refl.
Qed.

Lemma find_appended_other (cache : store) (S S' : pyval) (e : exchange) :
  Py.key_eqb S' S = false -> find (appended cache S e) S' = find cache S'.
Proof.
  intros Hne. unfold appended. rewrite (find_append_other _ S S' e Hne).
  destruct (mem cache S); [reflexivity|].
  rewrite find_new_key, Hne. now destruct (find cache S').
Qed.

Lemma keys_appended (cache : store) (S : pyval) (e : exchange) :
  keys (appended cache S e) =
  if mem cache S then keys cache else (keys cache ++ [S])%list.
Proof.
  unfold appended. rewrite keys_append. destruct (mem cache S); [reflexivity|].
  unfold keys. now rewrite map_app.
Qed.

Lemma distinct_keys_appended (cache : store) (S : pyval) (e : exchange) :
  distinct_keys cache -> distinct_keys (appended cache S e).
Proof.
  intros Hd. unfold appended.
  apply (distinct_keys_keys (if mem cache S then cache else (cache ++ [(S, [])])%list)).
  - now rewrite keys_append.
  - destruct (mem cache S) eqn:E; [assumption|]. now apply distinct_keys_new.
Qed.

Lemma extends_appended (cache : store) (S : pyval) (e : exchange) :
  Py.hashable S = true -> extends cache (appended cache S e).
Proof.
  intros Hh k l Hk. destruct (Py.key_eqb k S) eqn:E.
  - exists [e]. rewrite (find_compat _ k S E), find_appended_same by assumption.
    now rewrite <- (find_compat _ k S E), Hk.
  - exists []. rewrite find_appended_other by assumption. now rewrite app_nil_r.
Qed.

(** Whatever a single update does, it keeps the keys distinct and removes
    nothing. *)
Lemma update_invariants (cache cache' : store) (q r : string) (history : list dict) :
  update cache q r history = Ok cache' ->
  (distinct_keys cache -> distinct_keys cache') /\ extends cache cache'.
Proof.
  unfold update. destruct history as [|m history]; [intros [= <-]|].
  - split; [tauto | apply extends_refl].
  - set (S := match first_session_id (m :: history) with Some s => s | None => PNone end).
    destruct (Py.truthy S); simpl; [|intros [= <-]; split; [tauto | apply extends_refl]].
    destruct (Py.hashable S) eqn:Hh; simpl; [|discriminate].
    intros [= <-]. split.
    + apply (distinct_keys_appended cache S).
    + now apply (extends_appended cache S).
Qed.

Section Batches.

Variable image : Type.

(** The state after a computation calls no collaborator, keeps the keys of
    the store distinct and removes nothing from it. *)
Definition store_grows (st st' : Agent.agent image) : Prop :=
  Agent.calls image st' = Agent.calls image st /\
  (distinct_keys (Agent.session_cache image st) ->
   distinct_keys (Agent.session_cache image st')) /\
  extends (Agent.session_cache image st) (Agent.session_cache image st').

Lemma store_grows_refl (st : Agent.agent image) : store_grows st st.
Proof. split; [reflexivity|]. split; [tauto | apply extends_refl]. Qed.

Lemma store_grows_trans (st1 st2 st3 : Agent.agent image) :
  store_grows st1 st2 -> store_grows st2 st3 -> store_grows st1 st3.
Proof.
  intros (Hc & Hd & He) (Hc' & Hd' & He'). split; [congruence|].
  split; [tauto | now apply (extends_trans _ (Agent.session_cache image st2))].
Qed.

Lemma update_session_grows (item : string * (string * list dict)) :
  RunFacts.preserves image store_grows (Agent.update_session image item).
Proof.
  destruct item as [q [r h]]. intros st. unfold Agent.update_session.
  destruct (update (Agent.session_cache image st) q r h) as [cache|e] eqn:E; simpl.
  - destruct (update_invariants _ _ _ _ _ E) as [Hd He]. now split.
  - apply store_grows_refl.
Qed.

(** A batch of updates, possibly cut short by a raise, keeps the keys
    distinct, removes nothing and calls no collaborator. *)
Lemma update_session_cache_grows (queries responses : list string)
    (message_histories : list (list dict)) :
  RunFacts.preserves image store_grows
    (Agent._update_session_cache image queries responses message_histories).
Proof.
  unfold Agent._update_session_cache.
  apply (RunFacts.preserves_bind image store_grows store_grows_trans).
  - apply (RunFacts.preserves_for_each image store_grows store_grows_refl store_grows_trans).
    intros x _. apply update_session_grows.
  - intros _. apply (RunFacts.preserves_ret image store_grows store_grows_refl).
Qed.

End Batches.

End UpdateFacts.

(** C9, as stated, at a history whose session id is the integer 0: the
    history carries a session id, and no pair is recorded under it. *)
Lemma zero_session_id_not_recorded :
  let history := [[("role", PStr "user"); ("session_id", PInt 0)]] in
  SessionStore.first_session_id history = Some (PInt 0) /\
  SessionStore.update [] "q" "r" history = Ok [] /\
  ~ (exists cache,
        SessionStore.update [] "q" "r" history = Ok cache /\
        SessionStore.find cache (PInt 0)
        = Some [{| SessionStore.query := "q"; SessionStore.response := "r" |}]).
Proof.
  split; [reflexivity|]. split; [reflexivity|].
  intros [cache [Hu Hf]]. cbv in Hu. injection Hu as <-. discriminate.
Qed.

(** C9, amended: an update whose history has no session-id field, or whose
    first session-id field holds an empty value (None, 0, false, the empty
    text), leaves the store unchanged; an update whose first session-id
    field holds a non-empty id S that can be hashed appends exactly the
    pair (query, response) to the list under S, creating the list at the
    end of the store when S is new, and leaves the list of every other id
    as it was; every sequence of updates keeps the keys distinct and
    removes no entry. *)
Theorem session_store_updates :
  (forall cache q r history,
      SessionStore.first_session_id history = None ->
      SessionStore.update cache q r history = Ok cache) /\
  (forall cache q r history S,
      SessionStore.first_session_id history = Some S ->
      Py.truthy S = false ->
      SessionStore.update cache q r history = Ok cache) /\
  (forall cache q r history S,
      SessionStore.first_session_id history = Some S ->
      Py.truthy S = true ->
      Py.hashable S = true ->
      exists cache',
        SessionStore.update cache q r history = Ok cache' /\
        SessionStore.find cache' S
        = Some (match SessionStore.find cache S with Some l => l | None => [] end
                ++ [{| SessionStore.query := q; SessionStore.response := r |}])%list /\
        (forall S', Py.key_eqb S' S = false ->
                    SessionStore.find cache' S' = SessionStore.find cache S') /\
        SessionStore.keys cache'
        = (if SessionStore.mem cache S then SessionStore.keys cache
           else SessionStore.keys cache ++ [S])%list) /\
  (forall (image : Type) queries responses message_histories (st : Agent.agent image),
      let st' :=
        snd (Agent._update_session_cache image queries responses message_histories st) in
      (StoreFacts.distinct_keys (Agent.session_cache image st) ->
       StoreFacts.distinct_keys (Agent.session_cache image st')) /\
      StoreFacts.extends (Agent.session_cache image st) (Agent.session_cache image st')).
Proof.
  split; [|split; [|split]].
  - exact UpdateFacts.update_without_id.
  - exact UpdateFacts.update_falsy_id.
  - intros cache q r history S Hfirst Ht Hh.
    exists (UpdateFacts.appended cache S
              {| SessionStore.query := q; SessionStore.response := r |}).
    split; [now apply UpdateFacts.update_with_id|].
    split; [now apply UpdateFacts.find_appended_same|].
    split; [intros S' HS'; now apply UpdateFacts.find_appended_other|].
    apply UpdateFacts.keys_appended.
  - intros image queries responses message_histories st.
    apply (UpdateFacts.update_session_cache_grows image queries responses
             message_histories st).
Qed.

Lemma session_store_updates_witness :
  let h1 := [[("role", PStr "user"); ("session_id", PStr "S")]] in
  SessionStore.first_session_id h1 = Some (PStr "S") /\
  exists cache',
    SessionStore.update [] "q1" "r1" h1 = Ok cache' /\
    SessionStore.find cache' (PStr "S")
    = Some [{| SessionStore.query := "q1"; SessionStore.response := "r1" |}] /\
    SessionStore.keys cache' = [PStr "S"].
Proof.
  split; [reflexivity|].
  destruct (proj1 (proj2 (proj2 session_store_updates)) [] "q1" "r1"
              [[("role", PStr "user"); ("session_id", PStr "S")]] (PStr "S")
              eq_refl eq_refl eq_refl) as (cache' & Hu & Hf & _ & Hk).
  exists cache'. split; [exact Hu|]. split; [exact Hf | exact Hk].
Defined.

(** The scenario of the specification: an update under "S" followed by an
    update without session id. *)
Example session_store_scenario :
  let h1 := [[("role", PStr "user"); ("session_id", PStr "S")]] in
  let h2 := [[("role", PStr "user"); ("content", PStr "hello")]] in
  rbind (SessionStore.update [] "q1" "r1" h1)
        (fun cache => SessionStore.update cache "q2" "r2" h2)
  = Ok [(PStr "S", [{| SessionStore.query := "q1"; SessionStore.response := "r1" |}])].
Proof. reflexivity. Qed.

(** ** Prompt-history sanitization *)

Module HistoryFacts.

Import PyStr RAGMMAgent.

(** A message that has both fields. *)
Definition complete (message : dict) : bool :=
  Py.has message "role" && Py.has message "content".

Definition text_of (v : pyval) : string :=
  match v with
  | PStr s => s
  | _ => ""
  end.

Definition is_text (v : pyval) : Prop := exists s, v = PStr s.

(** The content a complete message is sanitized to. *)
Definition flattened (content : pyval) : pyval :=
  match content with
  | PList parts => PStr (join " " (map text_of (text_parts parts)))
  | PDict _ => PStr (Py.repr content)
  | _ => content
  end.

Definition sanitized (message : dict) : dict :=
  [("role", Py.get_default message "role" PNone);
   ("content", flattened (Py.get_default message "content" PNone))].

(** The [text] of every text part of a list-valued content is text. *)
Definition text_parts_are_text (message : dict) : Prop :=
  forall parts, Py.get message "content" = Some (PList parts) ->
                Forall is_text (text_parts parts).

(** Follows the specification's words: a structured payload, list or
    mapping, is re-rendered as its text parts joined by single spaces; a
    mapping is a payload of one part. *)
Definition spec_flattened (content : pyval) : pyval :=
  match content with
  | PList parts => PStr (join " " (map text_of (text_parts parts)))
  | PDict _ => PStr (join " " (map text_of (text_parts [content])))
  | _ => content
  end.

Lemma texts_of_text (values : list pyval) :
  Forall is_text values -> StructuredDataParser.texts values = Ok (map text_of values).
Proof.
  induction 1 as [|v values [s ->] _ IH]; simpl; [reflexivity|].
  now rewrite IH.
Qed.

Lemma flatten_content_text (message : dict) (content : pyval) :
  text_parts_are_text message -> Py.get message "content" = Some content ->
  flatten_content content = Ok (flattened content).
Proof.
  intros Hparts Hget. destruct content as [| | | |parts|d]; try reflexivity.
  unfold flatten_content. rewrite (texts_of_text _ (Hparts parts Hget)).
  reflexivity.
Qed.

Lemma process_message_sanitized (acc : list dict) (message : dict) :
  text_parts_are_text message ->
  process_message acc message
  = Ok (acc ++ (if complete message then [sanitized message] else []))%list.
Proof.
  intros Hparts. unfold process_message, complete, sanitized, Py.has, Py.get_default.
  destruct (Py.get message "role") as [role|]; simpl.
  - destruct (Py.get message "content") as [content|] eqn:Hc; simpl.
    + now rewrite (flatten_content_text message content Hparts Hc).
    + now rewrite app_nil_r.
  - destruct (Py.get message "content"); now rewrite app_nil_r.
Qed.

Lemma process_history_from (history acc : list dict) :
  (forall message, In message history -> text_parts_are_text message) ->
  rfold process_message history acc
  = Ok (acc ++ map sanitized (filter complete history))%list.
Proof.
  revert acc. induction history as [|m history IH]; intros acc Hparts; simpl.
  - now rewrite app_nil_r.
  - rewrite (process_message_sanitized acc m) by (apply Hparts; now left).
    simpl. rewrite IH by (intros m' Hm'; apply Hparts; now right).
    destruct (complete m); simpl.
    + now rewrite <- app_assoc.
    + now rewrite app_nil_r.
Qed.

End HistoryFacts.

(** C8, as stated, at a mapping payload: the payload is re-rendered as the
    printed form of the mapping, annotations included, not as its text
    parts; and at a text part that holds no text the sanitization raises. *)
Lemma mapping_payload_printed :
  let history := [[("role", PStr "user"); ("content", PDict [("domain", PInt 0)])]] in
  RAGMMAgent._process_message_history history
  = Ok [[("role", PStr "user"); ("content", PStr "{'domain': 0}")]] /\
  HistoryFacts.spec_flattened (PDict [("domain", PInt 0)]) = PStr "" /\
  RAGMMAgent._process_message_history history
  <> Ok [[("role", PStr "user");
          ("content", HistoryFacts.spec_flattened (PDict [("domain", PInt 0)]))]] /\
  RAGMMAgent._process_message_history
    [[("role", PStr "user");
      ("content", PList [PDict [("type", PStr "text"); ("text", PNone)]])]]
  = Raise TypeError.
Proof.
  split; [reflexivity|]. split; [reflexivity|]. split; [discriminate | reflexivity].
Qed.

(** C8, amended: sanitization drops each turn that lacks a role or a
    content field and keeps the other turns in their order with their
    roles; a list payload is re-rendered as the texts of its parts of type
    "text" joined by single spaces (an absent text counting as empty), a
    mapping payload as the printed form of the mapping, and any other
    content is kept as it is; this holds, without raising, for every
    history whose text parts hold text. *)
Theorem process_message_history_sanitizes (message_history : list dict)
    (Htext : forall message, In message message_history ->
                             HistoryFacts.text_parts_are_text message) :
  RAGMMAgent._process_message_history message_history
  = Ok (map HistoryFacts.sanitized (filter HistoryFacts.complete message_history)).
Proof.
  unfold RAGMMAgent._process_message_history.
  now rewrite (HistoryFacts.process_history_from message_history [] Htext).
Qed.

Lemma process_message_history_sanitizes_witness :
  RAGMMAgent._process_message_history
    [ [("role", PStr "user");
       ("content", PList [PDict [("type", PStr "image")];
                          PDict [("type", PStr "text"); ("text", PStr "what")];
                          PDict [("type", PStr "text")];
                          PDict [("type", PStr "text"); ("text", PStr "is it")]])];
      [("content", PStr "lost")];
      [("role", PStr "assistant"); ("content", PStr "a cat")] ]
  = Ok [ [("role", PStr "user"); ("content", PStr "what  is it")];
         [("role", PStr "assistant"); ("content", PStr "a cat")] ].
Proof.
  apply (process_message_history_sanitizes
           [ [("role", PStr "user");
              ("content", PList [PDict [("type", PStr "image")];
                                 PDict [("type", PStr "text"); ("text", PStr "what")];
                                 PDict [("type", PStr "text")];
                                 PDict [("type", PStr "text"); ("text", PStr "is it")]])];
             [("content", PStr "lost")];
             [("role", PStr "assistant"); ("content", PStr "a cat")] ]).
  intros message [<-|[<-|[<-|[]]]] parts; simpl; intros [= <-]; simpl.
  repeat constructor; eexists; reflexivity.
Defined.

(** ** Markup scrubbing in the formatters *)

Module TextFacts.

Import PyStr.

Lemma append_nil_r (s : string) : s ++ "" = s.
Proof. induction s as [|c s IH]; simpl; [reflexivity | now rewrite IH]. Qed.

Lemma append_assoc (s t u : string) : (s ++ t) ++ u = s ++ t ++ u.
Proof. induction s as [|c s IH]; simpl; [reflexivity | now rewrite IH]. Qed.

(** The characters of the markup dialect. *)
Definition is_marker (c : ascii) : bool := mem_char c "[]{}".

(** A text with every marker character removed. *)
Fixpoint keep_plain (s : string) : string :=
  match s with
  | EmptyString => EmptyString
  | String c s' => if is_marker c then keep_plain s' else String c (keep_plain s')
  end.

(** A text made of marker characters only. *)
Fixpoint all_markers (s : string) : bool :=
  match s with
  | EmptyString => true
  | String c s' => is_marker c && all_markers s'
  end.

(** A text without marker characters. *)
Fixpoint plain (s : string) : bool :=
  match s with
  | EmptyString => true
  | String c s' => negb (is_marker c) && plain s'
  end.

Lemma startswith_nil (s : string) : startswith s "" = true.
Proof. now destruct s. Qed.

(** Removing a marker-only pattern removes marker characters only. *)
Lemma replace_from_keep_plain (old : string) (a : ascii) (old' : string) :
  old = String a old' -> all_markers old = true ->
  forall s p, all_markers p = true -> startswith s p = true ->
              keep_plain (replace_from old "" (String.length p) s) = keep_plain s.
Proof.
  intros -> Hmark. simpl in Hmark. apply andb_prop in Hmark as [Ha Hold'].
  induction s as [|c s IH]; intros p Hp Hs; [reflexivity|].
  destruct p as [|b p].
  - cbn [String.length replace_from startswith].
    destruct (Ascii.eqb_spec a c) as [->|Hne]; cbn [andb].
    + destruct (startswith s old') eqn:Hrest.
      * simpl. rewrite Ha, Nat.sub_0_r. now apply IH.
      * simpl. rewrite Ha. apply (IH ""); [reflexivity | apply startswith_nil].
    + simpl. destruct (is_marker c); [|f_equal];
        (apply (IH ""); [reflexivity | apply startswith_nil]).
  - simpl in Hs, Hp. apply andb_prop in Hs as [Hbc Hrest]. apply andb_prop in Hp as [Hb Hp].
    apply Ascii.eqb_eq in Hbc. subst c. simpl. rewrite Hb. now apply IH.
Qed.

Lemma replace_keep_plain (s old : string) :
  old <> "" -> all_markers old = true ->
  keep_plain (replace s old "") = keep_plain s.
Proof.
  intros Hne Hmark. destruct old as [|a old']; [contradiction|].
  apply (replace_from_keep_plain _ a old' eq_refl Hmark s "");
    [reflexivity | apply startswith_nil].
Qed.

(** A pattern that begins with a marker matches nowhere inside a plain
    text: the text is copied and the scan goes on behind it. *)
Lemma replace_from_plain_prefix (old new t rest : string) (a : ascii) (old' : string) :
  old = String a old' -> is_marker a = true -> plain t = true ->
  replace_from old new 0 (t ++ rest) = t ++ replace_from old new 0 rest.
Proof.
  intros Hold Ha. induction t as [|c t IH]; intros Ht; [reflexivity|].
  simpl in Ht. apply andb_prop in Ht as [Hc Ht].
  simpl. rewrite Hold at 1. simpl.
  destruct (Ascii.eqb_spec a c) as [->|Hne].
  - rewrite Ha in Hc. discriminate.
  - simpl. now rewrite IH.
Qed.

Lemma replace_plain (t old new : string) (a : ascii) (old' : string) :
  old = String a old' -> is_marker a = true -> plain t = true ->
  replace t old new = t.
Proof.
  intros Hold Ha Ht. unfold replace.
  rewrite <- (append_nil_r t) at 1.
  rewrite (replace_from_plain_prefix old new t "" a old' Hold Ha Ht).
  simpl. apply append_nil_r.
Qed.

End TextFacts.

Module ScrubFacts.

Import PyStr StructuredDataParser TextFacts.

(** The cleaning the generic formatter applies to a text value. *)
Definition scrub (value : string) : string := strip_templates (strip_links value).

(** Only marker characters are removed: all other text stays, in order. *)
Lemma scrub_keep_plain (value : string) : keep_plain (scrub value) = keep_plain value.
Proof.
  unfold scrub, strip_templates, strip_links.
  rewrite !replace_keep_plain by (discriminate || reflexivity).
  reflexivity.
Qed.

Lemma strip_links_plain (t : string) : plain t = true -> strip_links t = t.
Proof.
  intros Ht. unfold strip_links.
  rewrite (replace_plain t "[[" "" "["%char "[" eq_refl eq_refl Ht).
  apply (replace_plain t "]]" "" "]"%char "]" eq_refl eq_refl Ht).
Qed.

Lemma strip_templates_plain (t : string) : plain t = true -> strip_templates t = t.
Proof.
  intros Ht. unfold strip_templates.
  rewrite (replace_plain t "{{" "" "{"%char "{" eq_refl eq_refl Ht).
  apply (replace_plain t "}}" "" "}"%char "}" eq_refl eq_refl Ht).
Qed.

Lemma scrub_plain (t : string) : plain t = true -> scrub t = t.
Proof.
  intros Ht. unfold scrub. now rewrite strip_links_plain, strip_templates_plain.
Qed.

(** A link marker around a plain text is stripped. *)
Lemma strip_links_link (t : string) :
  plain t = true -> strip_links ("[[" ++ t ++ "]]") = t.
Proof.
  intros Ht. unfold strip_links, replace.
  change (replace_from "[[" "" 0 ("[[" ++ t ++ "]]"))
    with (replace_from "[[" "" 0 (t ++ "]]")).
  rewrite (replace_from_plain_prefix "[[" "" t "]]" "["%char "[" eq_refl eq_refl Ht).
  change (replace_from "[[" "" 0 "]]") with "]]".
  rewrite (replace_from_plain_prefix "]]" "" t "]]" "]"%char "]" eq_refl eq_refl Ht).
  simpl. apply append_nil_r.
Qed.

(** A template marker around a plain text is stripped. *)
Lemma strip_templates_template (t : string) :
  plain t = true -> strip_templates ("{{" ++ t ++ "}}") = t.
Proof.
  intros Ht. unfold strip_templates, replace.
  change (replace_from "{{" "" 0 ("{{" ++ t ++ "}}"))
    with (replace_from "{{" "" 0 (t ++ "}}")).
  rewrite (replace_from_plain_prefix "{{" "" t "}}" "{"%char "{" eq_refl eq_refl Ht).
  change (replace_from "{{" "" 0 "}}") with "}}".
  rewrite (replace_from_plain_prefix "}}" "" t "}}" "}"%char "}" eq_refl eq_refl Ht).
  simpl. apply append_nil_r.
Qed.

End ScrubFacts.

Module FormatterFacts.

Import PyStr StructuredDataParser TextFacts ScrubFacts.

(** *** The generic formatter, line by line *)

Lemma generic_nested_from (result : string) (kv : string * pyval) :
  generic_nested result kv = result ++ generic_nested "" kv.
Proof.
  destruct kv as [k v]. unfold generic_nested.
  destruct v; try reflexivity.
  destruct (String.eqb s "" || startswith s "http");
    [now rewrite append_nil_r | reflexivity].
Qed.

Lemma fold_nested_from (d : dict) (result : string) :
  fold_left generic_nested d result = result ++ fold_left generic_nested d "".
Proof.
  revert result. induction d as [|kv d IH]; intros result; simpl.
  - now rewrite append_nil_r.
  - rewrite IH, (IH (generic_nested "" kv)), generic_nested_from.
    apply append_assoc.
Qed.

Lemma generic_field_from (result : string) (kv : string * pyval) :
  generic_field result kv = result ++ generic_field "" kv.
Proof.
  destruct kv as [key value]. unfold generic_field.
  destruct (existsb (String.eqb key) skipped_keys); [now rewrite append_nil_r|].
  destruct value; try reflexivity.
  - destruct (suppressed (strip_templates (strip_links s)));
      [now rewrite append_nil_r | reflexivity].
  - rewrite fold_nested_from, (fold_nested_from d ("" ++ key ++ ":" ++ nl)).
    simpl. now rewrite !append_assoc.
Qed.

(** The lines the generic formatter prints for a mapping. *)
Definition generic_lines (data : dict) : string := fold_left generic_field data "".

Lemma fold_generic_from (data : dict) (result : string) :
  fold_left generic_field data result = result ++ generic_lines data.
Proof.
  unfold generic_lines. revert result. induction data as [|kv data IH]; intros result; simpl.
  - now rewrite append_nil_r.
  - rewrite IH, (IH (generic_field "" kv)), generic_field_from.
    apply append_assoc.
Qed.

Lemma generic_lines_app (d1 d2 : dict) :
  generic_lines (d1 ++ d2)%list = generic_lines d1 ++ generic_lines d2.
Proof.
  unfold generic_lines at 1. rewrite fold_left_app. apply fold_generic_from.
Qed.

Lemma parse_generic_lines (data : dict) :
  parse_generic data = "<Info>" ++ nl ++ generic_lines data ++ "</Info>".
Proof.
  unfold parse_generic. rewrite fold_generic_from. now rewrite !append_assoc.
Qed.

(** The line of a text value: nothing when the scrubbed value is empty,
    starts with "http" or contains "URL|". *)
Definition text_line (key value : string) : string :=
  if suppressed (scrub value) then "" else key ++ ": " ++ scrub value ++ nl.

Lemma generic_lines_text (key value : string) (data : dict) :
  existsb (String.eqb key) skipped_keys = false ->
  generic_lines ((key, PStr value) :: data) = text_line key value ++ generic_lines data.
Proof.
  intros Hkey. unfold generic_lines at 1. cbn [fold_left]. rewrite fold_generic_from.
  f_equal. unfold text_line, scrub, generic_field. rewrite Hkey.
  now destruct (suppressed (strip_templates (strip_links value))).
Qed.

(** *** The landmark formatter, line by line *)

(** The field is absent or holds a text. *)
Definition text_field (data : dict) (key : string) : bool :=
  match Py.get data key with
  | None | Some (PStr _) => true
  | Some _ => false
  end.

(** The line of a text field that the formatter cleans with [clean]. *)
Definition cleaned_line (data : dict) (key label : string) (clean : string -> string)
  : string :=
  match Py.get data key with
  | Some (PStr s) => if String.eqb s "" then "" else label ++ ": " ++ clean s ++ nl
  | _ => ""
  end.

(** The line of a field printed as it is. *)
Definition printed_line (data : dict) (key label : string) : string :=
  let value := Py.get_default data key (PStr "") in
  if Py.truthy value then label ++ ": " ++ Py.str value ++ nl else "".

(** The name the landmark formatter prints. *)
Definition landmark_name_text (data : dict) : string :=
  match Py.get data "name" with
  | Some (PStr s) => if contains s "{{" then split_head s "<br" else s
  | _ => "Unknown landmark"
  end.

Definition landmark_text_fields (data : dict) : Prop :=
  text_field data "name" = true /\ text_field data "address" = true /\
  text_field data "building_type" = true /\
  text_field data "architectural_style" = true /\
  text_field data "architect" = true.

Lemma add_cleaned_line (result label : string) (data : dict) (key : string)
    (clean : string -> string) :
  text_field data key = true ->
  add_cleaned result label (Py.get_default data key (PStr "")) clean
  = Ok (result ++ cleaned_line data key label clean).
Proof.
  unfold text_field, add_cleaned, cleaned_line, Py.get_default.
  destruct (Py.get data key) as [[| | |s| |]|]; try discriminate; intros _; simpl.
  - destruct (String.eqb s ""); simpl; [now rewrite append_nil_r | reflexivity].
  - now rewrite append_nil_r.
Qed.

Lemma add_if_line (result label : string) (data : dict) (key : string) :
  add_if result label (Py.get_default data key (PStr ""))
  = result ++ printed_line data key label.
Proof.
  unfold add_if, printed_line.
  destruct (Py.truthy (Py.get_default data key (PStr "")));
    [reflexivity | now rewrite append_nil_r].
Qed.

Lemma landmark_name_of_text (data : dict) :
  text_field data "name" = true ->
  landmark_name (Py.get_default data "name" (PStr "Unknown landmark"))
  = Ok (PStr (landmark_name_text data)).
Proof.
  unfold text_field, landmark_name_text, Py.get_default.
  destruct (Py.get data "name") as [[| | |s| |]|]; try discriminate; reflexivity.
Qed.

(** The closed form of the landmark block on text fields. *)
Lemma parse_landmark_lines (data : dict) :
  landmark_text_fields data ->
  parse_landmark data
  = Ok ("<Landmark>" ++ nl ++
        "Name: " ++ landmark_name_text data ++ nl ++
        cleaned_line data "address" "Address" clean_address ++
        cleaned_line data "building_type" "Type" strip_links ++
        cleaned_line data "architectural_style" "Style" strip_links ++
        printed_line data "floor_count" "Floors" ++
        cleaned_line data "architect" "Architect" strip_links ++
        printed_line data "completion_date" "Completed" ++
        "</Landmark>").
Proof.
  intros (Hname & Haddr & Htype & Hstyle & Harch). unfold parse_landmark.
  rewrite (landmark_name_of_text data Hname). cbn [rbind].
  rewrite (add_cleaned_line _ "Address" data "address" clean_address Haddr). cbn [rbind].
  rewrite (add_cleaned_line _ "Type" data "building_type" strip_links Htype). cbn [rbind].
  rewrite (add_cleaned_line _ "Style" data "architectural_style" strip_links Hstyle).
  cbn [rbind].
  rewrite (add_if_line _ "Floors" data "floor_count").
  rewrite (add_cleaned_line _ "Architect" data "architect" strip_links Harch). cbn [rbind].
  rewrite (add_if_line _ "Completed" data "completion_date").
  cbn [Py.str]. now rewrite !append_assoc.
Qed.

(** Follows the specification's words: markers stripped, the value cut at
    the first line-break marker, and the field suppressed when the value is
    empty, a bare URL or contains "URL|". *)
Definition spec_scrubbed (value : string) : option string :=
  let value := split_head (scrub value) "<br" in
  if suppressed value then None else Some value.

Definition spec_line (label value : string) : string :=
  match spec_scrubbed value with
  | Some value => label ++ ": " ++ value ++ nl
  | None => ""
  end.

End FormatterFacts.

Lemma split_head_absent (s sep : string) :
  PyStr.contains s sep = false -> PyStr.split_head s sep = s.
Proof.
  induction s as [|c s IH]; simpl; [reflexivity|].
  intros H. apply orb_false_elim in H as [Hstart Hrest].
  rewrite Hstart. now rewrite IH.
Qed.

Lemma clean_address_cut (address : string) :
  StructuredDataParser.clean_address address
  = PyStr.split_head (StructuredDataParser.strip_links address) "<br".
Proof.
  unfold StructuredDataParser.clean_address.
  destruct (PyStr.contains (StructuredDataParser.strip_links address) "<br") eqn:E;
    [reflexivity | now rewrite split_head_absent].
Qed.

(** C2, as stated, at a value with a line break given to the generic
    formatter, and at a template and a bare URL given to the Landmark
    formatter: the value is printed whole, the template braces stay and
    the URL is printed. *)
Lemma formatters_scrub_differently :
  StructuredDataParser.parse_generic [("note", PStr "a<br>b")]
  = "<Info>" ++ PyStr.nl ++ "note: a<br>b" ++ PyStr.nl ++ "</Info>" /\
  FormatterFacts.spec_line "note" "a<br>b" = "note: a" ++ PyStr.nl /\
  StructuredDataParser.parse_landmark
    [("name", PStr "Tower"); ("building_type", PStr "{{office}}");
     ("architect", PStr "http://x")]
  = Ok ("<Landmark>" ++ PyStr.nl ++ "Name: Tower" ++ PyStr.nl ++
        "Type: {{office}}" ++ PyStr.nl ++ "Architect: http://x" ++ PyStr.nl ++
        "</Landmark>") /\
  FormatterFacts.spec_line "Type" "{{office}}" = "Type: office" ++ PyStr.nl /\
  FormatterFacts.spec_line "Architect" "http://x" = "" /\
  ~ (forall key value,
        existsb (String.eqb key) StructuredDataParser.skipped_keys = false ->
        StructuredDataParser.parse_generic [(key, PStr value)]
        = "<Info>" ++ PyStr.nl ++ FormatterFacts.spec_line key value ++ "</Info>").
Proof.
  split; [reflexivity|]. split; [reflexivity|]. split; [reflexivity|].
  split; [reflexivity|]. split; [reflexivity|].
  intros H. specialize (H "note" "a<br>b" eq_refl). discriminate.
Qed.

(** C2, amended: the generic formatter strips the double-bracket and
    double-brace markers from every text value (removing marker characters
    only, so that a marked plain text is printed bare), prints the value
    whole, line-break markers included, and suppresses the field when the
    stripped value is empty, starts with "http" or contains "URL|"; the
    Landmark formatter strips double-bracket markers only, from the
    address, type, style and architect, cuts only the address at the first
    line-break marker (and the name when it contains a double brace), and
    suppresses only empty fields: it prints URLs and keeps double-brace
    markers. *)
Theorem formatter_scrubbing :
  (forall d1 key value d2,
      existsb (String.eqb key) StructuredDataParser.skipped_keys = false ->
      StructuredDataParser.parse_generic (d1 ++ (key, PStr value) :: d2)%list
      = "<Info>" ++ PyStr.nl ++ FormatterFacts.generic_lines d1 ++
        FormatterFacts.text_line key value ++
        FormatterFacts.generic_lines d2 ++ "</Info>") /\
  (forall value,
      TextFacts.keep_plain (ScrubFacts.scrub value) = TextFacts.keep_plain value) /\
  (forall t, TextFacts.plain t = true ->
             ScrubFacts.scrub t = t /\
             ScrubFacts.scrub ("[[" ++ t ++ "]]") = t /\
             ScrubFacts.scrub ("{{" ++ t ++ "}}") = t) /\
  (forall data,
      FormatterFacts.landmark_text_fields data ->
      StructuredDataParser.parse_landmark data
      = Ok ("<Landmark>" ++ PyStr.nl ++
            "Name: " ++ FormatterFacts.landmark_name_text data ++ PyStr.nl ++
            FormatterFacts.cleaned_line data "address" "Address"
              (fun s => PyStr.split_head (StructuredDataParser.strip_links s) "<br") ++
            FormatterFacts.cleaned_line data "building_type" "Type"
              StructuredDataParser.strip_links ++
            FormatterFacts.cleaned_line data "architectural_style" "Style"
              StructuredDataParser.strip_links ++
            FormatterFacts.printed_line data "floor_count" "Floors" ++
            FormatterFacts.cleaned_line data "architect" "Architect"
              StructuredDataParser.strip_links ++
            FormatterFacts.printed_line data "completion_date" "Completed" ++
            "</Landmark>")) /\
  StructuredDataParser.parse_generic
    [("capital", PStr "[[Paris]]"); ("site", PStr "http://x")]
  = "<Info>" ++ PyStr.nl ++ "capital: Paris" ++ PyStr.nl ++ "</Info>".
Proof.
  split; [|split; [|split; [|split]]].
  - intros d1 key value d2 Hkey.
    rewrite FormatterFacts.parse_generic_lines, FormatterFacts.generic_lines_app.
    rewrite (FormatterFacts.generic_lines_text key value d2 Hkey).
    now rewrite !TextFacts.append_assoc.
  - exact ScrubFacts.scrub_keep_plain.
  - intros t Ht. split; [now apply ScrubFacts.scrub_plain|]. split.
    + unfold ScrubFacts.scrub. rewrite (ScrubFacts.strip_links_link t Ht).
      now apply ScrubFacts.strip_templates_plain.
    + unfold ScrubFacts.scrub.
      assert (Hl : StructuredDataParser.strip_links ("{{" ++ t ++ "}}")
                   = "{{" ++ t ++ "}}").
      { unfold StructuredDataParser.strip_links, PyStr.replace.
        change ("{{" ++ t ++ "}}") with ("{{" ++ (t ++ "}}")).
        assert (Hb : forall old a old', old = String a old' ->
                       TextFacts.is_marker a = true -> a <> "{"%char -> a <> "}"%char ->
                       PyStr.replace_from old "" 0 ("{{" ++ t ++ "}}")
                       = "{{" ++ t ++ "}}").
        { intros old a old' -> Ha Hne1 Hne2. simpl.
          destruct (Ascii.eqb_spec a "{"%char) as [->|_]; [contradiction|]. simpl.
          rewrite (TextFacts.replace_from_plain_prefix _ "" t "}}" a old' eq_refl Ha Ht).
          simpl. destruct (Ascii.eqb_spec a "}"%char) as [->|_]; [contradiction|].
          reflexivity. }
        rewrite (Hb "[[" "["%char "[" eq_refl eq_refl) by discriminate.
        apply (Hb "]]" "]"%char "]" eq_refl eq_refl); discriminate. }
      rewrite Hl. now apply ScrubFacts.strip_templates_template.
  - intros data Hdata. rewrite (FormatterFacts.parse_landmark_lines data Hdata).
    do 2 f_equal. unfold FormatterFacts.cleaned_line.
    destruct (Py.get data "address") as [[| | |s| |]|]; try reflexivity.
    now rewrite clean_address_cut.
  - reflexivity.
Qed.

Lemma formatter_scrubbing_witness :
  let data := [("name", PStr "{{Tower}}<br>x"); ("address", PStr "[[1 Main St]]<br/>City");
               ("floor_count", PInt 12); ("architect", PStr "http://x")] in
  FormatterFacts.landmark_text_fields data /\
  StructuredDataParser.parse_landmark data
  = Ok ("<Landmark>" ++ PyStr.nl ++ "Name: {{Tower}}" ++ PyStr.nl ++
        "Address: 1 Main St" ++ PyStr.nl ++ "Floors: 12" ++ PyStr.nl ++
        "Architect: http://x" ++ PyStr.nl ++ "</Landmark>").
Proof.
  assert (Hdata : FormatterFacts.landmark_text_fields
                    [("name", PStr "{{Tower}}<br>x");
                     ("address", PStr "[[1 Main St]]<br/>City");
                     ("floor_count", PInt 12); ("architect", PStr "http://x")]).
  { repeat split. }
  split; [exact Hdata|].
  rewrite (proj1 (proj2 (proj2 (proj2 formatter_scrubbing))) _ Hdata).
  reflexivity.
Defined.

(** ** Runs of the batch pipeline *)

Module BatchFacts.

Import Agent RAGMMAgent.

Lemma in_combine_seq {A : Type} (xs : list A) (s n i : nat) (x : A) :
  In (i, x) (combine (seq s n) xs) -> s <= i /\ nth_error xs (i - s) = Some x.
Proof.
  revert s n. induction xs as [|y xs IH]; intros s n; destruct n; simpl; try tauto.
  intros [[= <- <-]|Hin].
  - split; [lia|]. now rewrite Nat.sub_diag.
  - apply IH in Hin as [Hle Hnth]. split; [lia|].
    replace (i - s) with (S (i - S s)) by lia. exact Hnth.
Qed.

Lemma in_enumerate {A : Type} (xs : list A) (i : nat) (x : A) :
  In (i, x) (enumerate xs) -> nth_error xs i = Some x.
Proof.
  intros Hin. apply in_combine_seq in Hin as [_ Hnth].
  now rewrite Nat.sub_0_r in Hnth.
Qed.

Lemma nth_error_combine {A B : Type} (xs : list A) (ys : list B) (i : nat) (x : A) (y : B) :
  nth_error (combine xs ys) i = Some (x, y) ->
  nth_error xs i = Some x /\ nth_error ys i = Some y.
Proof.
  revert ys i. induction xs as [|a xs IH]; intros [|b ys] [|i]; simpl; try discriminate.
  - now intros [= -> ->].
  - apply IH.
Qed.

Section Runs.

Variable image : Type.

(** The state after one more observed call. *)
Definition observed (st : agent image) (c : call image) : agent image :=
  {| session_cache := session_cache image st; calls := (calls image st ++ [c])%list |}.

(** The state after a list of observed calls. *)
Definition observed_all (st : agent image) (cs : list (call image)) : agent image :=
  {| session_cache := session_cache image st; calls := (calls image st ++ cs)%list |}.

Lemma observed_all_nil (st : agent image) : observed_all st [] = st.
Proof. destruct st. unfold observed_all. simpl. now rewrite app_nil_r. Qed.

Lemma observed_all_cons (st : agent image) (c : call image) (cs : list (call image)) :
  observed_all (observed st c) cs = observed_all st (c :: cs).
Proof. unfold observed_all, observed. simpl. now rewrite <- app_assoc. Qed.

(** The hit list the pipeline goes on with after a guarded search. *)
Definition recovered (r : outcome (list dict)) : list dict :=
  match r with
  | Ok hits => hits
  | Raise _ => []
  end.

Variable C : collaborators image.

Lemma try_image_search_run (i : nat) (q : string) (img : image) (st : agent image) :
  try_image_search image C (i, (q, img)) st
  = (Ok (recovered (image_search image C i img)), observed st (CallImageSearch i img)).
Proof.
  unfold try_image_search, try_except, bind, observe, lift. simpl.
  now destruct (image_search image C i img).
Qed.

Lemma try_web_search_run (i : nat) (q : string) (st : agent image) :
  try_web_search image C (i, q) st
  = (Ok (recovered (web_search image C i q)), observed st (CallWebSearch i q)).
Proof.
  unfold try_web_search, try_except, bind, observe, lift. simpl.
  now destruct (web_search image C i q).
Qed.

Definition image_hits (item : nat * (string * image)) : list dict :=
  recovered (image_search image C (fst item) (snd (snd item))).

Definition image_call (item : nat * (string * image)) : call image :=
  CallImageSearch (fst item) (snd (snd item)).

Definition web_hits (item : nat * string) : list dict :=
  recovered (web_search image C (fst item) (snd item)).

Definition web_call (item : nat * string) : call image :=
  CallWebSearch (fst item) (snd item).

(** The image-search loop never raises: it yields one hit list per item,
    empty where the search of that item raised. *)
Lemma for_each_image_search (items : list (nat * (string * image))) (st : agent image) :
  for_each (try_image_search image C) items st
  = (Ok (map image_hits items), observed_all st (map image_call items)).
Proof.
  revert st. induction items as [|[i [q img]] items IH]; intros st.
  - simpl. unfold ret. now rewrite observed_all_nil.
  - cbn [for_each map]. unfold bind at 1. rewrite try_image_search_run.
    unfold bind at 1. rewrite IH. unfold ret. now rewrite observed_all_cons.
Qed.

Lemma for_each_web_search (items : list (nat * string)) (st : agent image) :
  for_each (try_web_search image C) items st
  = (Ok (map web_hits items), observed_all st (map web_call items)).
Proof.
  revert st. induction items as [|[i q] items IH]; intros st.
  - simpl. unfold ret. now rewrite observed_all_nil.
  - cbn [for_each map]. unfold bind at 1. rewrite try_web_search_run.
    unfold bind at 1. rewrite IH. unfold ret. now rewrite observed_all_cons.
Qed.

(** The web capability probe, as a value: present, absent or failed. *)
Definition probe : outcome bool :=
  match has_search_web image C with
  | Ok true => web_index_present image C
  | Ok false => Ok false
  | Raise e => Raise e
  end.

Lemma web_capable_run (st : agent image) :
  web_capable image C st = (probe, observed st CallWebCapability).
Proof.
  unfold web_capable, probe, bind, observe, lift, ret. simpl.
  destruct (has_search_web image C) as [[|]|e]; reflexivity.
Qed.

(** Step 3 never raises; without a present capability it yields no list. *)
Lemma run_web_search_run (search_queries : list string) (st : agent image) :
  run_web_search image C search_queries st
  = match probe with
    | Ok true =>
        (Ok (map web_hits (enumerate search_queries)),
         observed_all st (CallWebCapability :: map web_call (enumerate search_queries)))
    | _ => (Ok [], observed st CallWebCapability)
    end.
Proof.
  unfold run_web_search, try_except, bind. rewrite web_capable_run.
  destruct probe as [[|]|e]; try reflexivity.
  rewrite for_each_web_search. now rewrite observed_all_cons.
Qed.

(** A batch with images, stage by stage. *)
Definition staged_batch (queries : list string) (images : list image)
    (message_histories : list (list dict)) (st : agent image)
  : outcome (list string) * agent image :=
  match prepare_search_queries queries images message_histories with
  | Raise e => (Raise e, st)
  | Ok search_queries =>
      let items := enumerate (combine search_queries images) in
      let st1 := observed_all st (map image_call items) in
      match probe with
      | Ok true =>
          answer_from_results image C queries images message_histories
            (map image_hits items) (map web_hits (enumerate search_queries))
            (observed_all st1
               (CallWebCapability :: map web_call (enumerate search_queries)))
      | _ =>
          answer_from_results image C queries images message_histories
            (map image_hits items) [] (observed st1 CallWebCapability)
      end
  end.

Lemma batch_generate_response_run (queries : list string) (images : list image)
    (message_histories : list (list dict)) (st : agent image) :
  images <> [] ->
  batch_generate_response image C queries images message_histories st
  = staged_batch queries images message_histories st.
Proof.
  intros Himages. unfold batch_generate_response, staged_batch.
  destruct images as [|img0 imgs]; [contradiction|].
  unfold bind, lift.
  destruct (prepare_search_queries queries (img0 :: imgs) message_histories)
    as [search_queries|e]; [|reflexivity].
  unfold run_image_search. rewrite for_each_image_search, run_web_search_run.
  destruct probe as [[|]|e]; reflexivity.
Qed.

End Runs.

End BatchFacts.

Module CallFacts.

Import Agent RAGMMAgent BatchFacts.

Section Calls.

Variable image : Type.
Variable C : collaborators image.

(** What is allowed to be called. *)
Variable P : call image -> Prop.

(** The run made only calls that satisfy [P]. *)
Definition only_calls (st st' : agent image) : Prop :=
  exists new, calls image st' = (calls image st ++ new)%list /\ Forall P new.

Lemma only_calls_refl (st : agent image) : only_calls st st.
Proof. exists []. split; [now rewrite app_nil_r | constructor]. Qed.

Lemma only_calls_trans (st1 st2 st3 : agent image) :
  only_calls st1 st2 -> only_calls st2 st3 -> only_calls st1 st3.
Proof.
  intros (n1 & H1 & F1) (n2 & H2 & F2). exists (n1 ++ n2)%list. split.
  - now rewrite H2, H1, app_assoc.
  - now apply Forall_app.
Qed.

Lemma only_calls_observed_all (st : agent image) (cs : list (call image)) :
  Forall P cs -> only_calls st (observed_all image st cs).
Proof. intros H. now exists cs. Qed.

Local Notation "'safe' m" := (RunFacts.preserves image only_calls m)
  (at level 10, m at level 9).

Lemma safe_ret {A : Type} (a : A) : safe (ret a).
Proof. apply RunFacts.preserves_ret, only_calls_refl. Qed.

Lemma safe_lift {A : Type} (r : outcome A) : safe (lift r).
Proof. apply RunFacts.preserves_lift, only_calls_refl. Qed.

Lemma safe_bind {A B : Type} (m : M image A) (k : A -> M image B) :
  safe m -> (forall a, safe (k a)) -> safe (bind m k).
Proof. apply RunFacts.preserves_bind, only_calls_trans. Qed.

(** Binding the value of a pure step: the continuation runs on that value
    only. *)
Lemma safe_bind_lift {A B : Type} (r : outcome A) (k : A -> M image B) :
  (forall a, r = Ok a -> safe (k a)) -> safe (bind (lift r) k).
Proof.
  intros Hk st. unfold bind, lift. destruct r as [a|e]; simpl.
  - now apply Hk.
  - apply only_calls_refl.
Qed.

Lemma safe_for_each {A B : Type} (body : A -> M image B) (xs : list A) :
  (forall x, In x xs -> safe (body x)) -> safe (for_each body xs).
Proof. apply RunFacts.preserves_for_each; [apply only_calls_refl | apply only_calls_trans]. Qed.

Lemma safe_observe (c : call image) : P c -> safe (observe image c).
Proof.
  intros Hc st. exists [c]. split; [reflexivity | now constructor].
Qed.

Lemma safe_update_session_cache (queries responses : list string)
    (message_histories : list (list dict)) :
  safe (_update_session_cache image queries responses message_histories).
Proof.
  intros st.
  destruct (UpdateFacts.update_session_cache_grows image queries responses
              message_histories st) as (Hcalls & _).
  exists []. split; [now rewrite app_nil_r | constructor].
Qed.

(** The web contexts steps 4 and 5 work with. *)
Definition web_contexts_of (web_search_results : list (list dict))
  : option (list string) :=
  match web_search_results with
  | [] => None
  | _ => Some (process_web_search_results web_search_results)
  end.

Hypothesis P_generate : forall prompts, P (CallGenerate prompts).

Lemma safe_answer_from_results (queries : list string) (images : list image)
    (message_histories : list (list dict))
    (image_search_results web_search_results : list (list dict)) :
  (forall idx q h ictx messages,
      nth_error queries idx = Some q ->
      build_messages idx q h ictx (web_contexts_of web_search_results) = Ok messages ->
      P (CallChatTemplate messages)) ->
  safe (answer_from_results image C queries images message_histories
          image_search_results web_search_results).
Proof.
  intros Htemplate. unfold answer_from_results.
  apply safe_bind; [apply safe_lift|]. intros image_contexts.
  fold (web_contexts_of web_search_results).
  apply safe_bind.
  - unfold prepare_llm_prompts. apply safe_for_each.
    intros [idx [q [img h]]] Hin. apply in_enumerate in Hin.
    apply nth_error_combine in Hin as [Hq _].
    unfold prepare_prompt. apply safe_bind_lift. intros messages Hm.
    apply safe_bind; [apply safe_observe; now apply (Htemplate idx q h _ _ Hq Hm)|].
    intros _. apply safe_bind; [apply safe_lift|]. intros formatted. apply safe_ret.
  - intros prompts. apply safe_bind; [now apply safe_observe|]. intros _.
    apply safe_bind; [apply safe_lift|]. intros outputs.
    apply safe_bind; [apply safe_lift|]. intros responses.
    apply safe_bind; [apply safe_update_session_cache|]. intros _. apply safe_ret.
Qed.

Hypothesis P_image : forall i img, P (CallImageSearch i img).
Hypothesis P_capability : P CallWebCapability.

(** The calls of a whole batch: web searches happen only with a present
    capability, on the prepared search queries; without it the prompts are
    built without web contexts. *)
Lemma safe_batch_generate_response (queries : list string) (images : list image)
    (message_histories : list (list dict)) :
  (forall search_queries i s,
      prepare_search_queries queries images message_histories = Ok search_queries ->
      probe image C = Ok true ->
      nth_error search_queries i = Some s ->
      P (CallWebSearch i s)) ->
  (forall idx q h ictx wctx messages,
      nth_error queries idx = Some q ->
      (probe image C <> Ok true -> wctx = None) ->
      build_messages idx q h ictx wctx = Ok messages ->
      P (CallChatTemplate messages)) ->
  safe (batch_generate_response image C queries images message_histories).
Proof.
  unfold batch_generate_response.
  destruct images as [|img0 imgs]; [intros _ _; apply safe_ret|].
  intros Hweb Htemplate.
  apply safe_bind_lift. intros search_queries Hsq st.
  unfold bind, run_image_search. rewrite for_each_image_search, run_web_search_run.
  set (st1 := observed_all image st _).
  assert (H1 : only_calls st st1).
  { apply only_calls_observed_all, Forall_forall. intros c Hc.
    apply in_map_iff in Hc as [item [<- _]]. apply P_image. }
  assert (Hcap : only_calls st1 (observed image st1 CallWebCapability)).
  { exists [CallWebCapability]. split; [reflexivity | now constructor]. }
  destruct (probe image C) as [[|]|e] eqn:Hprobe.
  - apply (only_calls_trans _ st1); [exact H1|].
    apply (only_calls_trans _ (observed_all image st1
             (CallWebCapability :: map (web_call image) (enumerate search_queries)))).
    + apply only_calls_observed_all. constructor; [exact P_capability|].
      apply Forall_forall. intros c Hc.
      apply in_map_iff in Hc as [[i s] [<- Hin]]. apply in_enumerate in Hin.
      unfold web_call. simpl. now apply (Hweb search_queries).
    + apply safe_answer_from_results. intros idx q h ictx messages Hq Hm.
      refine (Htemplate idx q h ictx _ messages Hq _ Hm).
      intros Hne. now contradiction Hne.
  - apply (only_calls_trans _ st1); [exact H1|].
    apply (only_calls_trans _ (observed image st1 CallWebCapability)); [exact Hcap|].
    apply safe_answer_from_results. intros idx q h ictx messages Hq Hm.
    now apply (Htemplate idx q h ictx None messages Hq).
  - apply (only_calls_trans _ st1); [exact H1|].
    apply (only_calls_trans _ (observed image st1 CallWebCapability)); [exact Hcap|].
    apply safe_answer_from_results. intros idx q h ictx messages Hq Hm.
    now apply (Htemplate idx q h ictx None messages Hq).
Qed.

End Calls.

End CallFacts.

(** ** The batch without images *)

(** C5: on a batch without images the agent returns, as a normal value, one
    copy of the fixed fallback answer per query, and leaves its state as it
    was: no collaborator is called and the session store is untouched. *)
Theorem no_images_short_circuit :
  forall (image : Type) (C : Agent.collaborators image) (queries : list string)
         (message_histories : list (list dict)) (st : Agent.agent image),
    Agent.batch_generate_response image C queries [] message_histories st
    = (Ok (repeat "I don't have an image to analyze." (List.length queries)), st) /\
    Agent.calls image
      (snd (Agent.batch_generate_response image C queries [] message_histories st))
    = Agent.calls image st /\
    (forall i q, nth_error queries i = Some q ->
                 nth_error (repeat Agent.no_image_answer (List.length queries)) i
                 = Some "I don't have an image to analyze.").
Proof.
  intros image C queries message_histories st.
  split; [reflexivity|]. split; [reflexivity|].
  intros i q Hq. apply nth_error_repeat.
  apply nth_error_Some. congruence.
Qed.

(** ** Failures of the retrieval collaborator *)

Module IsolationFacts.

Import Agent RAGMMAgent BatchFacts.

(** The search that answers item [j] with what the pipeline goes on with
    there, an empty hit list where the given search raises, and every other
    item as the given search does. *)
Definition forgive {A : Type} (j : nat) (search : nat -> A -> outcome (list dict))
  : nat -> A -> outcome (list dict) :=
  fun i x => if (i =? j)%nat then Ok (recovered (search i x)) else search i x.

Lemma forgive_raise {A : Type} (j : nat) (search : nat -> A -> outcome (list dict))
    (x : A) (e : exn) :
  search j x = Raise e -> forgive j search j x = Ok [].
Proof. intros H. unfold forgive. now rewrite Nat.eqb_refl, H. Qed.

Lemma forgive_other {A : Type} (j i : nat) (search : nat -> A -> outcome (list dict))
    (x : A) :
  i <> j -> forgive j search i x = search i x.
Proof. intros H. unfold forgive. apply Nat.eqb_neq in H. now rewrite H. Qed.

Lemma recovered_forgive {A : Type} (j i : nat) (search : nat -> A -> outcome (list dict))
    (x : A) :
  recovered (forgive j search i x) = recovered (search i x).
Proof. unfold forgive. now destruct (i =? j)%nat. Qed.

Section Isolation.

Variable image : Type.
Variable C : collaborators image.

(** The collaborators whose image search of item [j] succeeds with no
    result where that of [C] raises. *)
Definition forgiving_image (j : nat) : collaborators image :=
  {| image_search := forgive j (image_search image C);
     has_search_web := has_search_web image C;
     web_index_present := web_index_present image C;
     web_search := web_search image C;
     apply_chat_template := apply_chat_template image C;
     generate := generate image C |}.

(** The same for the web search of item [j]. *)
Definition forgiving_web (j : nat) : collaborators image :=
  {| image_search := image_search image C;
     has_search_web := has_search_web image C;
     web_index_present := web_index_present image C;
     web_search := forgive j (web_search image C);
     apply_chat_template := apply_chat_template image C;
     generate := generate image C |}.

Lemma batch_forgiving_image (j : nat) (queries : list string) (images : list image)
    (message_histories : list (list dict)) (st : agent image) :
  batch_generate_response image (forgiving_image j) queries images message_histories st
  = batch_generate_response image C queries images message_histories st.
Proof.
  destruct images as [|img0 imgs]; [reflexivity|].
  rewrite !batch_generate_response_run by discriminate. unfold staged_batch.
  destruct (prepare_search_queries queries (img0 :: imgs) message_histories)
    as [search_queries|e]; [|reflexivity].
  replace (map (image_hits image (forgiving_image j))
               (enumerate (combine search_queries (img0 :: imgs))))
    with (map (image_hits image C) (enumerate (combine search_queries (img0 :: imgs)))).
  - reflexivity.
  - apply map_ext. intros [i [q img]]. unfold image_hits. simpl.
    now rewrite recovered_forgive.
Qed.

Lemma batch_forgiving_web (j : nat) (queries : list string) (images : list image)
    (message_histories : list (list dict)) (st : agent image) :
  batch_generate_response image (forgiving_web j) queries images message_histories st
  = batch_generate_response image C queries images message_histories st.
Proof.
  destruct images as [|img0 imgs]; [reflexivity|].
  rewrite !batch_generate_response_run by discriminate. unfold staged_batch.
  destruct (prepare_search_queries queries (img0 :: imgs) message_histories)
    as [search_queries|e]; [|reflexivity].
  replace (map (web_hits image (forgiving_web j)) (enumerate search_queries))
    with (map (web_hits image C) (enumerate search_queries)).
  - reflexivity.
  - apply map_ext. intros [i q]. unfold web_hits. simpl.
    now rewrite recovered_forgive.
Qed.

End Isolation.

End IsolationFacts.

(** C4: the image-search loop and the web-search loop never raise and yield
    one hit list per item, the empty list exactly where the search of that
    item raised; a batch in which the image search, or the web search, of
    item j raises runs exactly as the batch in which that search succeeds
    with no result: same answers, same prompts and calls, same session
    store. *)
Theorem retrieval_failure_isolated :
  forall (image : Type) (C : Agent.collaborators image) (j : nat),
    (forall search_queries images st,
        Agent.run_image_search image C search_queries images st
        = (Ok (map (BatchFacts.image_hits image C)
                   (RAGMMAgent.enumerate (combine search_queries images))),
           BatchFacts.observed_all image st
             (map (BatchFacts.image_call image)
                  (RAGMMAgent.enumerate (combine search_queries images))))) /\
    (forall items st,
        Agent.for_each (Agent.try_web_search image C) items st
        = (Ok (map (BatchFacts.web_hits image C) items),
           BatchFacts.observed_all image st (map (BatchFacts.web_call image) items))) /\
    (forall img e, Agent.image_search image C j img = Raise e ->
                   Agent.image_search image (IsolationFacts.forgiving_image image C j) j img
                   = Ok [] /\
                   BatchFacts.image_hits image C (j, ("", img)) = []) /\
    (forall q e, Agent.web_search image C j q = Raise e ->
                 Agent.web_search image (IsolationFacts.forgiving_web image C j) j q
                 = Ok [] /\
                 BatchFacts.web_hits image C (j, q) = []) /\
    (forall i img, i <> j ->
                   Agent.image_search image (IsolationFacts.forgiving_image image C j) i img
                   = Agent.image_search image C i img) /\
    (forall i q, i <> j ->
                 Agent.web_search image (IsolationFacts.forgiving_web image C j) i q
                 = Agent.web_search image C i q) /\
    (forall queries images message_histories st,
        Agent.batch_generate_response image C queries images message_histories st
        = Agent.batch_generate_response image (IsolationFacts.forgiving_image image C j)
            queries images message_histories st /\
        Agent.batch_generate_response image C queries images message_histories st
        = Agent.batch_generate_response image (IsolationFacts.forgiving_web image C j)
            queries images message_histories st).
Proof.
  intros image C j.
  split; [|split; [|split; [|split; [|split; [|split]]]]].
  - intros search_queries images st. apply BatchFacts.for_each_image_search.
  - intros items st. apply BatchFacts.for_each_web_search.
  - intros img e H. split.
    + now apply (IsolationFacts.forgive_raise j _ img e).
    + unfold BatchFacts.image_hits. simpl. now rewrite H.
  - intros q e H. split.
    + now apply (IsolationFacts.forgive_raise j _ q e).
    + unfold BatchFacts.web_hits. simpl. now rewrite H.
  - intros i img H. now apply IsolationFacts.forgive_other.
  - intros i q H. now apply IsolationFacts.forgive_other.
  - intros queries images message_histories st. split; symmetry.
    + apply IsolationFacts.batch_forgiving_image.
    + apply IsolationFacts.batch_forgiving_web.
Qed.

(** ** A failing web capability probe *)

Module ProbeFacts.

Import Agent RAGMMAgent BatchFacts.

Section Probe.

Variable image : Type.
Variable C : collaborators image.

(** The collaborators that report the web capability absent. *)
Definition without_web : collaborators image :=
  {| image_search := image_search image C;
     has_search_web := Ok false;
     web_index_present := web_index_present image C;
     web_search := web_search image C;
     apply_chat_template := apply_chat_template image C;
     generate := generate image C |}.

(** The calls of a run without web channel: no web search, and every
    prompt built without web contexts. *)
Definition web_free (queries : list string) (c : call image) : Prop :=
  match c with
  | CallWebSearch _ _ => False
  | CallChatTemplate messages =>
      exists idx q h ictx,
        nth_error queries idx = Some q /\
        build_messages idx q h ictx None = Ok messages
  | _ => True
  end.

Lemma batch_without_web (e : exn) (queries : list string) (images : list image)
    (message_histories : list (list dict)) (st : agent image) :
  probe image C = Raise e ->
  batch_generate_response image C queries images message_histories st
  = batch_generate_response image without_web queries images message_histories st.
Proof.
  intros Hprobe. destruct images as [|img0 imgs]; [reflexivity|].
  rewrite !batch_generate_response_run by discriminate. unfold staged_batch.
  rewrite Hprobe. reflexivity.
Qed.

Lemma batch_web_free (e : exn) (queries : list string) (images : list image)
    (message_histories : list (list dict)) (st : agent image) :
  probe image C = Raise e ->
  CallFacts.only_calls image (web_free queries) st
    (snd (batch_generate_response image C queries images message_histories st)).
Proof.
  intros Hprobe.
  apply (CallFacts.safe_batch_generate_response image C (web_free queries));
    try (intros; exact I).
  - intros search_queries i s _ Htrue. congruence.
  - intros idx q h ictx wctx messages Hq Hw Hm. simpl.
    exists idx, q, h, ictx. split; [exact Hq|].
    rewrite <- Hw; [exact Hm | congruence].
Qed.

End Probe.

End ProbeFacts.

(** C10: when the capability probe raises, at [hasattr] or at the read of
    [web_index], the exception is caught: step 3 yields no web result, the
    batch runs exactly as the batch of collaborators that report the
    capability absent (same image evidence, prompts, generation, answers
    and session store), no web search is called and every prompt is built
    without web contexts. *)
Theorem probe_failure_degrades :
  forall (image : Type) (C : Agent.collaborators image) (e : exn)
         (Hprobe : BatchFacts.probe image C = Raise e)
         (queries : list string) (images : list image)
         (message_histories : list (list dict)) (st : Agent.agent image),
    (forall search_queries st0,
        Agent.run_web_search image C search_queries st0
        = (Ok [], BatchFacts.observed image st0 Agent.CallWebCapability)) /\
    Agent.batch_generate_response image C queries images message_histories st
    = Agent.batch_generate_response image (ProbeFacts.without_web image C)
        queries images message_histories st /\
    CallFacts.only_calls image (ProbeFacts.web_free image queries) st
      (snd (Agent.batch_generate_response image C queries images message_histories st)).
Proof.
  intros image C e Hprobe queries images message_histories st.
  split; [|split].
  - intros search_queries st0. rewrite BatchFacts.run_web_search_run.
    now rewrite Hprobe.
  - now apply (ProbeFacts.batch_without_web image C e).
  - now apply (ProbeFacts.batch_web_free image C e).
Qed.

(** Collaborators for closed examples: one image kind, a search that finds
    nothing, a tokenizer that prints the number of messages, an engine that
    answers "ok" to every prompt, and a capability probe that raises. *)
Definition broken_probe : Agent.collaborators unit :=
  {| Agent.image_search := fun _ _ => Ok [];
     Agent.has_search_web := Raise (CollaboratorError "probe");
     Agent.web_index_present := Ok true;
     Agent.web_search := fun _ _ => Ok [];
     Agent.apply_chat_template := fun messages => Ok (PyStr.of_Z (Z.of_nat (List.length messages)));
     Agent.generate := fun prompts => Ok (map (fun _ => ["ok"]) prompts) |}.

Definition fresh_agent : Agent.agent unit :=
  {| Agent.session_cache := []; Agent.calls := [] |}.

Lemma probe_failure_degrades_witness :
  BatchFacts.probe unit broken_probe = Raise (CollaboratorError "probe") /\
  Agent.batch_generate_response unit broken_probe ["what is this"] [tt] [[]] fresh_agent
  = Agent.batch_generate_response unit (ProbeFacts.without_web unit broken_probe)
      ["what is this"] [tt] [[]] fresh_agent.
Proof.
  split; [reflexivity|].
  exact (proj1 (proj2 (probe_failure_degrades unit broken_probe
                         (CollaboratorError "probe") eq_refl
                         ["what is this"] [tt] [[]] fresh_agent))).
Defined.

Example broken_probe_run :
  Agent.batch_generate_response unit broken_probe ["what is this"] [tt] [[]] fresh_agent
  = (Ok ["ok"],
     {| Agent.session_cache := [];
        Agent.calls :=
          [ Agent.CallImageSearch 0 tt; Agent.CallWebCapability;
            Agent.CallChatTemplate
              [RAGMMAgent.system_message RAGMMAgent.system_prompt;
               RAGMMAgent.user_message "what is this"];
            Agent.CallGenerate
              [{| Agent.prompt_text := "2"; Agent.multi_modal_image := tt |}] ] |}).
Proof. reflexivity. Qed.

(** ** The query in the prompt and the query sent to retrieval *)

Module QueryFacts.

Import Agent RAGMMAgent BatchFacts.

Lemma append_length (s t : string) :
  String.length (s ++ t) = String.length s + String.length t.
Proof. induction s as [|c s IH]; simpl; [reflexivity | now rewrite IH]. Qed.

(** With a non-empty prefix the enhanced query is not the query. *)
Lemma enhanced_differs (q d : string) :
  prefix_of domain_prefixes d <> "" ->
  _enhance_query q d <> q /\ user_message (_enhance_query q d) <> user_message q.
Proof.
  intros Hprefix.
  assert (Hne : _enhance_query q d <> q).
  { unfold _enhance_query. intros Heq. apply (f_equal String.length) in Heq.
    rewrite append_length in Heq.
    destruct (prefix_of domain_prefixes d); [contradiction | simpl in Heq; lia]. }
  split; [exact Hne|]. unfold user_message. intros Heq. apply Hne.
  now injection Heq.
Qed.

(** Every search query is the query of the same item behind the prefix of
    some domain. *)
Lemma search_query_enhanced {image : Type} (queries : list string) (images : list image)
    (message_histories : list (list dict)) (search_queries : list string)
    (i : nat) (s : string) :
  prepare_search_queries queries images message_histories = Ok search_queries ->
  nth_error search_queries i = Some s ->
  exists q d, nth_error queries i = Some q /\ s = _enhance_query q d.
Proof.
  unfold prepare_search_queries. intros H Hs.
  destruct (extract_session_info message_histories) as [infos|e]; [|discriminate].
  simpl in H. injection H as <-. rewrite nth_error_map in Hs.
  destruct (nth_error (combine queries (combine images infos)) i)
    as [[q [img info]]|] eqn:Hitem; [|discriminate].
  apply nth_error_combine in Hitem as [Hq _].
  simpl in Hs. injection Hs as <-.
  exists q. eexists. split; [exact Hq | reflexivity].
Qed.

End QueryFacts.

(** Collaborators with a web index, for closed examples. *)
Definition web_pipeline : Agent.collaborators unit :=
  {| Agent.image_search := fun _ _ => Ok [];
     Agent.has_search_web := Ok true;
     Agent.web_index_present := Ok true;
     Agent.web_search := fun _ _ => Ok [];
     Agent.apply_chat_template := fun messages => Ok (PyStr.of_Z (Z.of_nat (List.length messages)));
     Agent.generate := fun prompts => Ok (map (fun _ => ["ok"]) prompts) |}.

Example enhanced_query_goes_to_retrieval_only :
  Agent.calls unit
    (snd (Agent.batch_generate_response unit web_pipeline ["red car"] [tt] [[]] fresh_agent))
  = [ Agent.CallImageSearch 0 tt; Agent.CallWebCapability;
      Agent.CallWebSearch 0 "vehicle transportation red car";
      Agent.CallChatTemplate
        [RAGMMAgent.system_message RAGMMAgent.system_prompt;
         RAGMMAgent.user_message "red car"];
      Agent.CallGenerate [{| Agent.prompt_text := "2"; Agent.multi_modal_image := tt |}] ].
Proof. reflexivity. Qed.

(** ** History-based domain extraction *)

Module DomainFacts.

Import RAGMMAgent.

(** The standalone helper returns the tag of the first message that
    yields a domain id. *)
Lemma extract_domain_first (before : list dict) (message : dict) (rest : list dict)
    (domain_id : pyval) :
  Forall (fun m => message_domain_id m = None) before ->
  message_domain_id message = Some domain_id ->
  extract_domain_from_message_history (before ++ message :: rest)
  = rbind (get_domain_name domain_id) (fun name => Ok (Some name)).
Proof.
  intros Hbefore Hm. induction Hbefore as [|m before Hnone _ IH]; simpl.
  - now rewrite Hm.
  - now rewrite Hnone.
Qed.

Lemma rfold_app {A B : Type} (body : A -> B -> outcome A) (xs ys : list B) (acc : A) :
  rfold body (xs ++ ys) acc = rbind (rfold body xs acc) (rfold body ys).
Proof.
  revert acc. induction xs as [|x xs IH]; intros acc; simpl; [reflexivity|].
  destruct (body acc x); simpl; [apply IH | reflexivity].
Qed.

Lemma combine_seq_snoc {A : Type} (xs : list A) (x : A) (s : nat) :
  combine (seq s (List.length (xs ++ [x]))) (xs ++ [x])
  = (combine (seq s (List.length xs)) xs ++ [(s + List.length xs, x)])%list.
Proof.
  revert s. induction xs as [|y xs IH]; intros s; simpl.
  - now rewrite Nat.add_0_r.
  - rewrite IH. now rewrite Nat.add_succ_r.
Qed.

Lemma enumerate_snoc {A : Type} (xs : list A) (x : A) :
  enumerate (xs ++ [x]) = (enumerate xs ++ [(List.length xs, x)])%list.
Proof. unfold enumerate. now rewrite combine_seq_snoc. Qed.

Definition with_multi_turn (b : bool) (info : session_info) : session_info :=
  {| domain := domain info; is_multi_turn := b |}.

Lemma session_info_step_multi_turn (b : bool) (info : session_info) (im : nat * dict) :
  session_info_step (with_multi_turn b info) im
  = rbind (session_info_step info im) (fun info' => Ok (with_multi_turn b info')).
Proof.
  destruct im as [i m]. unfold session_info_step.
  destruct ((i mod 2 =? 0)%nat && is_user m); [|reflexivity].
  destruct (Py.get_default m "content" (PStr "")); try reflexivity.
  destruct (Py.get d "domain"); [|reflexivity].
  now destruct (get_domain_name p).
Qed.

Lemma rfold_multi_turn (b : bool) (items : list (nat * dict)) (info : session_info) :
  rfold session_info_step items (with_multi_turn b info)
  = rbind (rfold session_info_step items info)
          (fun info' => Ok (with_multi_turn b info')).
Proof.
  revert info. induction items as [|im items IH]; intros info; simpl; [reflexivity|].
  rewrite session_info_step_multi_turn.
  destruct (session_info_step info im); simpl; [apply IH | reflexivity].
Qed.

(** The scan of the pipeline goes through every turn: a later user turn at
    an even position that carries a domain id overrides what the turns
    before it gave. *)
Lemma session_info_last (history : list dict) (message : dict) (content : dict)
    (domain_id : pyval) (name : string) (info : session_info) :
  Nat.even (List.length history) = true ->
  is_user message = true ->
  Py.get message "content" = Some (PDict content) ->
  Py.get content "domain" = Some domain_id ->
  get_domain_name domain_id = Ok name ->
  history_session_info history = Ok info ->
  exists info',
    history_session_info (history ++ [message]) = Ok info' /\ domain info' = name.
Proof.
  intros Heven Huser Hcontent Hdomain Hname Hinfo.
  unfold history_session_info in *. rewrite enumerate_snoc, rfold_app.
  change {| domain := "other";
            is_multi_turn := (0 <? List.length (history ++ [message]))%nat |}
    with (with_multi_turn (0 <? List.length (history ++ [message]))%nat
            {| domain := "other";
               is_multi_turn := (0 <? List.length history)%nat |}).
  rewrite rfold_multi_turn, Hinfo. cbn [rbind rfold]. unfold session_info_step.
  assert (Hmod : (List.length history mod 2 =? 0)%nat = true).
  { apply Nat.eqb_eq. apply Nat.even_spec in Heven. destruct Heven as [k ->].
    rewrite Nat.mul_comm. apply Nat.Div0.mod_mul. }
  rewrite Hmod, Huser. unfold Py.get_default. rewrite Hcontent, Hdomain, Hname.
  cbn [andb rbind]. eexists. split; reflexivity.
Qed.

End DomainFacts.

(** The history of C1: a first user turn of domain 0 (food), an answer, and
    a second user turn of domain 1 (shopping). *)
Definition two_domain_history : list dict :=
  [ [("role", PStr "user"); ("content", PDict [("domain", PInt 0)])];
    [("role", PStr "assistant"); ("content", PStr "a pizza")];
    [("role", PStr "user"); ("content", PDict [("domain", PInt 1)])] ].

(** C1, at a history whose first and third turns carry the domain ids 0 and
    1: the pipeline enhances the query with the prefix of the later turn's
    domain (shopping), where the standalone helper of [domain_utils]
    returns the first turn's domain (food). *)
Theorem later_turn_domain_used :
  RAGMMAgent.prepare_search_queries ["how much is it"] [tt] [two_domain_history]
  = Ok ["product item how much is it"] /\
  RAGMMAgent.history_session_info two_domain_history
  = Ok {| RAGMMAgent.domain := "shopping"; RAGMMAgent.is_multi_turn := true |} /\
  extract_domain_from_message_history two_domain_history = Ok (Some "food") /\
  RAGMMAgent._enhance_query "how much is it" "food" = "food dish how much is it".
Proof.
  split; [reflexivity|]. split; [reflexivity|]. split; reflexivity.
Qed.

(** * Further properties of the code *)

(** ** domain_utils.py: multi-turn conversations *)

Module MultiTurn.

(** The dict [process_multi_turn_conversation] returns. *)
Record conversation_info : Type := {
  is_multi_turn : bool;
  domains : list string;
  query_categories : list string;
  dynamism : list string
}.

(** [resolve(x) if x is not None else default], for [x = turn.get(key)]. *)
Definition resolve_field (resolve : pyval -> outcome string) (default : string)
    (turn : dict) (key : string) : outcome string :=
  match Py.get turn key with
  | Some PNone | None => Ok default
  | Some id => resolve id
  end.

(** The body of the loop over the turns. *)
Definition add_turn (result : conversation_info) (turn : dict) : outcome conversation_info :=
  let* domain := resolve_field get_domain_name "other" turn "domain" in
  let* category := resolve_field get_query_category_name "simple" turn "query_category" in
  let* dynamism_name := resolve_field get_dynamism_name "static" turn "dynamism" in
  Ok {| is_multi_turn := is_multi_turn result;
        domains := (domains result ++ [domain])%list;
        query_categories := (query_categories result ++ [category])%list;
        dynamism := (dynamism result ++ [dynamism_name])%list |}.

Definition process_multi_turn_conversation (turn_data : list dict)
  : outcome conversation_info :=
  let result :=
    {| is_multi_turn := (1 <? List.length turn_data)%nat;
       domains := []; query_categories := []; dynamism := [] |} in
  rfold add_turn turn_data result.

End MultiTurn.

Example multi_turn_ex :
  MultiTurn.process_multi_turn_conversation
    [ [("domain", PInt 0); ("query_category", PInt 2)];
      [("domain", PNone); ("dynamism", PInt 3)] ]
  = Ok {| MultiTurn.is_multi_turn := true;
          MultiTurn.domains := ["food"; "other"];
          MultiTurn.query_categories := ["comparison"; "simple"];
          MultiTurn.dynamism := ["static"; "real-time"] |}.
Proof. reflexivity. Qed.

Module DomainUtilsFacts.

Import MultiTurn.

(** The tag a table gives to a field of a turn, the default when the field
    is absent, [None] or no key of the table. *)
Definition tag_of (table : list (Z * string)) (default : string) (turn : dict)
    (key : string) : string :=
  match Py.get turn key with
  | Some id =>
      match Py.int_key id with
      | Some z => match table_find table z with Some tag => tag | None => default end
      | None => default
      end
  | None => default
  end.

(** The field is absent or holds a value that can be hashed. *)
Definition hashable_field (turn : dict) (key : string) : bool :=
  match Py.get turn key with
  | Some id => Py.hashable id
  | None => true
  end.

Definition hashable_turn (turn : dict) : Prop :=
  hashable_field turn "domain" = true /\
  hashable_field turn "query_category" = true /\
  hashable_field turn "dynamism" = true.

Lemma resolve_field_tag (table : list (Z * string)) (default : string) (turn : dict)
    (key : string) :
  hashable_field turn key = true ->
  resolve_field (fun id => table_get table id default) default turn key
  = Ok (tag_of table default turn key).
Proof.
  unfold hashable_field, resolve_field, tag_of, table_get.
  destruct (Py.get turn key) as [id|]; [|reflexivity].
  intros Hh. destruct id; try discriminate; try reflexivity; simpl.
  - destruct b; destruct (table_find table _); reflexivity.
  - destruct (table_find table z); reflexivity.
Qed.

Lemma resolve_field_unhashable (table : list (Z * string)) (default : string)
    (turn : dict) (key : string) :
  hashable_field turn key = false ->
  resolve_field (fun id => table_get table id default) default turn key
  = Raise TypeError.
Proof.
  unfold hashable_field, resolve_field, table_get.
  destruct (Py.get turn key) as [id|]; [|discriminate].
  intros Hh. destruct id; try discriminate; reflexivity.
Qed.

Lemma add_turns_from (turn_data : list dict) (result : conversation_info) :
  Forall hashable_turn turn_data ->
  rfold add_turn turn_data result
  = Ok {| is_multi_turn := is_multi_turn result;
          domains := (domains result
                      ++ map (fun t => tag_of DOMAIN_MAP "other" t "domain") turn_data)%list;
          query_categories :=
            (query_categories result
             ++ map (fun t => tag_of QUERY_CATEGORY_MAP "simple" t "query_category")
                    turn_data)%list;
          dynamism :=
            (dynamism result
             ++ map (fun t => tag_of DYNAMISM_MAP "static" t "dynamism") turn_data)%list |}.
Proof.
  intros Hall. revert result.
  induction Hall as [|turn turn_data (Hd & Hc & Hy) _ IH]; intros result; simpl.
  - rewrite !app_nil_r. now destruct result.
  - unfold add_turn at 1. unfold get_domain_name, get_query_category_name, get_dynamism_name.
    rewrite (resolve_field_tag DOMAIN_MAP "other" turn "domain" Hd).
    rewrite (resolve_field_tag QUERY_CATEGORY_MAP "simple" turn "query_category" Hc).
    rewrite (resolve_field_tag DYNAMISM_MAP "static" turn "dynamism" Hy).
    cbn [rbind]. rewrite IH. cbn [is_multi_turn domains query_categories dynamism].
    now rewrite <- !app_assoc.
Qed.

End DomainUtilsFacts.

(** X2: on turns whose annotation ids can be hashed, the multi-turn summary
    never raises and holds, for each of the three annotations, one tag per
    turn in the order of the turns: the tag the table gives to the id, the
    default where the id is absent, [None] or unknown; the conversation is
    multi-turn exactly when it has more than one turn. *)
Theorem multi_turn_summary_aligned (turn_data : list dict)
    (Hturns : Forall DomainUtilsFacts.hashable_turn turn_data) :
  exists info,
    MultiTurn.process_multi_turn_conversation turn_data = Ok info /\
    MultiTurn.domains info
    = map (fun t => DomainUtilsFacts.tag_of DOMAIN_MAP "other" t "domain") turn_data /\
    MultiTurn.query_categories info
    = map (fun t => DomainUtilsFacts.tag_of QUERY_CATEGORY_MAP "simple" t "query_category")
          turn_data /\
    MultiTurn.dynamism info
    = map (fun t => DomainUtilsFacts.tag_of DYNAMISM_MAP "static" t "dynamism") turn_data /\
    List.length (MultiTurn.domains info) = List.length turn_data /\
    List.length (MultiTurn.query_categories info) = List.length turn_data /\
    List.length (MultiTurn.dynamism info) = List.length turn_data /\
    (MultiTurn.is_multi_turn info = true <-> 1 < List.length turn_data).
Proof.
  unfold MultiTurn.process_multi_turn_conversation.
  rewrite (DomainUtilsFacts.add_turns_from turn_data _ Hturns).
  eexists. split; [reflexivity|].
  cbn [MultiTurn.domains MultiTurn.query_categories MultiTurn.dynamism
       MultiTurn.is_multi_turn app].
  rewrite !length_map. repeat (split; [reflexivity|]).
  apply Nat.ltb_lt.
Qed.

Lemma multi_turn_summary_aligned_witness :
  exists info,
    MultiTurn.process_multi_turn_conversation
      [ [("domain", PInt 0); ("query_category", PInt 2)];
        [("domain", PStr "x"); ("dynamism", PInt 3)] ] = Ok info /\
    MultiTurn.domains info = ["food"; "other"] /\
    MultiTurn.is_multi_turn info = true.
Proof.
  destruct (multi_turn_summary_aligned
              [ [("domain", PInt 0); ("query_category", PInt 2)];
                [("domain", PStr "x"); ("dynamism", PInt 3)] ])
    as (info & Hrun & Hd & _ & _ & _ & _ & _ & Hm).
  - repeat constructor.
  - exists info. split; [exact Hrun|]. split; [exact Hd|].
    apply Hm. simpl. lia.
Defined.

(** X3: a turn whose domain, category or dynamism id cannot be hashed (a
    list or a mapping) makes the whole summary raise TypeError, whatever
    the other turns hold. *)
Theorem multi_turn_summary_unhashable (before : list dict) (turn : dict)
    (after : list dict)
    (Hbefore : Forall DomainUtilsFacts.hashable_turn before)
    (Hturn : DomainUtilsFacts.hashable_field turn "domain" = false \/
             DomainUtilsFacts.hashable_field turn "query_category" = false \/
             DomainUtilsFacts.hashable_field turn "dynamism" = false) :
  MultiTurn.process_multi_turn_conversation (before ++ turn :: after) = Raise TypeError.
Proof.
  unfold MultiTurn.process_multi_turn_conversation.
  rewrite DomainFacts.rfold_app, (DomainUtilsFacts.add_turns_from before _ Hbefore).
  cbn [rbind rfold]. unfold MultiTurn.add_turn at 1.
  unfold get_domain_name, get_query_category_name, get_dynamism_name.
  destruct (DomainUtilsFacts.hashable_field turn "domain") eqn:Hd.
  - rewrite (DomainUtilsFacts.resolve_field_tag DOMAIN_MAP "other" turn "domain" Hd).
    cbn [rbind].
    destruct (DomainUtilsFacts.hashable_field turn "query_category") eqn:Hc.
    + rewrite (DomainUtilsFacts.resolve_field_tag QUERY_CATEGORY_MAP "simple" turn
                 "query_category" Hc). cbn [rbind].
      destruct Hturn as [Ht|[Ht|Ht]]; try discriminate.
      now rewrite (DomainUtilsFacts.resolve_field_unhashable DYNAMISM_MAP "static" turn
                     "dynamism" Ht).
    + now rewrite (DomainUtilsFacts.resolve_field_unhashable QUERY_CATEGORY_MAP "simple"
                     turn "query_category" Hc).
  - now rewrite (DomainUtilsFacts.resolve_field_unhashable DOMAIN_MAP "other" turn
                   "domain" Hd).
Qed.

Lemma multi_turn_summary_unhashable_witness :
  MultiTurn.process_multi_turn_conversation
    ([[("domain", PInt 0)]] ++ [("domain", PInt 1); ("dynamism", PList [PInt 1])]
       :: [[("domain", PInt 2)]])
  = Raise TypeError.
Proof.
  apply (multi_turn_summary_unhashable
           [[("domain", PInt 0)]] [("domain", PInt 1); ("dynamism", PList [PInt 1])]
           [[("domain", PInt 2)]]).
  - repeat constructor.
  - right. right. reflexivity.
Defined.

(** ** domain_utils.py: the domain of a history, of a text and of an id *)

Module InferFacts.

Lemma lower_char_idempotent (c : ascii) :
  PyStr.lower_char (PyStr.lower_char c) = PyStr.lower_char c.
Proof. destruct c as [[] [] [] [] [] [] [] []]; reflexivity. Qed.

Lemma lower_idempotent (s : string) : PyStr.lower (PyStr.lower s) = PyStr.lower s.
Proof.
  induction s as [|c s IH]; simpl; [reflexivity|].
  now rewrite lower_char_idempotent, IH.
Qed.

Lemma first_matching_listed (t : list (string * list string)) (text : string) :
  first_matching t text = "other" \/ In (first_matching t text) (map fst t).
Proof.
  induction t as [|[D kws] t IH]; simpl; [now left|].
  destruct (any_keyword_in text kws); [right; now left|].
  destruct IH as [IH|IH]; [now left | right; now right].
Qed.

Lemma first_matching_hit (t : list (string * list string)) (text D : string) :
  matches_in t text D = true -> In (first_matching t text) (map fst t).
Proof.
  unfold matches_in. induction t as [|[D0 kws] t IH]; simpl; [discriminate|].
  destruct (any_keyword_in text kws) eqn:Hk; [intros _; now left|].
  destruct (String.eqb D D0); [congruence|]. intros H. right. now apply IH.
Qed.

(** A match on the literal "user" is a test of equality with it. *)
Lemma match_user {A : Type} (role : string) (X Y : A) :
  match role with "user" => X | _ => Y end = if String.eqb role "user" then X else Y.
Proof.
  destruct role as [|c0 role]; [reflexivity|].
  destruct c0 as [[] [] [] [] [] [] [] []]; try reflexivity.
  destruct role as [|c1 role]; [reflexivity|].
  destruct c1 as [[] [] [] [] [] [] [] []]; try reflexivity.
  destruct role as [|c2 role]; [reflexivity|].
  destruct c2 as [[] [] [] [] [] [] [] []]; try reflexivity.
  destruct role as [|c3 role]; [reflexivity|].
  destruct c3 as [[] [] [] [] [] [] [] []]; try reflexivity.
  destruct role; reflexivity.
Qed.

Lemma extract_none (history : list dict) :
  Forall (fun m => message_domain_id m = None) history ->
  extract_domain_from_message_history history = Ok None.
Proof.
  induction 1 as [|m history Hm _ IH]; simpl; [reflexivity|]. now rewrite Hm.
Qed.

Lemma extract_not_none (history : list dict) :
  extract_domain_from_message_history history = Ok None ->
  Forall (fun m => message_domain_id m = None) history.
Proof.
  induction history as [|m history IH]; simpl; [constructor|].
  destruct (message_domain_id m) as [id|] eqn:Hm.
  - destruct (get_domain_name id); discriminate.
  - intros H. constructor; [exact Hm | now apply IH].
Qed.

End InferFacts.

(** X1: the standalone history helper answers with the first message that
    yields a domain id, resolved through the domain table, whatever the
    messages after it hold; it answers None exactly when no message yields
    a domain id. A user turn yields the id of its mapping content, or of
    the first part of its list content that has one, before the id of the
    message itself. *)
Theorem history_domain_first_message :
  (forall before message rest domain_id,
      Forall (fun m => message_domain_id m = None) before ->
      message_domain_id message = Some domain_id ->
      extract_domain_from_message_history (before ++ message :: rest)
      = rbind (get_domain_name domain_id) (fun name => Ok (Some name))) /\
  (forall history,
      extract_domain_from_message_history history = Ok None <->
      Forall (fun m => message_domain_id m = None) history) /\
  (forall message content domain_id,
      RAGMMAgent.is_user message = true ->
      Py.get message "content" = Some (PDict content) ->
      Py.get content "domain" = Some domain_id ->
      domain_id <> PNone ->
      message_domain_id message = Some domain_id) /\
  (forall message,
      RAGMMAgent.is_user message = false ->
      message_domain_id message = Py.get message "domain").
Proof.
  split; [|split; [|split]].
  - intros before message rest domain_id Hbefore Hm.
    induction Hbefore as [|m before Hnone _ IH]; simpl.
    + now rewrite Hm.
    + now rewrite Hnone.
  - intros history. split; [apply InferFacts.extract_not_none | apply InferFacts.extract_none].
  - intros message content domain_id Huser Hcontent Hdomain Hne.
    unfold message_domain_id, RAGMMAgent.is_user, Py.get_default in *.
    destruct (Py.get message "role") as [[| | |role| |]|]; try discriminate.
    apply String.eqb_eq in Huser. subst role. rewrite Hcontent, Hdomain.
    destruct domain_id; try reflexivity. contradiction.
  - intros message Huser.
    unfold message_domain_id, RAGMMAgent.is_user in *.
    destruct (Py.get message "role") as [[| | |role| |]|]; try reflexivity.
    now rewrite InferFacts.match_user, Huser.
Qed.

Lemma history_domain_first_message_witness :
  extract_domain_from_message_history
    ([[("role", PStr "system"); ("content", PStr "be brief")]]
       ++ [("role", PStr "user");
           ("content", PList [PDict [("type", PStr "text"); ("text", PStr "hi")];
                              PDict [("domain", PInt 9)]])]
       :: [[("role", PStr "user"); ("content", PDict [("domain", PInt 1)])]])
  = Ok (Some "sports").
Proof.
  apply (proj1 history_domain_first_message
           [[("role", PStr "system"); ("content", PStr "be brief")]]
           [("role", PStr "user");
            ("content", PList [PDict [("type", PStr "text"); ("text", PStr "hi")];
                               PDict [("domain", PInt 9)]])]
           [[("role", PStr "user"); ("content", PDict [("domain", PInt 1)])]]
           (PInt 9)).
  - repeat constructor.
  - reflexivity.
Defined.

(** X4: text-based inference only ever answers with a tag of the domain
    table; it answers "other" exactly when the lower-cased query contains no
    keyword of any domain; and it does not tell a query from its lower-cased
    form. *)
Theorem infer_domain_answers :
  forall query,
    In (infer_domain_from_query query) (map snd DOMAIN_MAP) /\
    (infer_domain_from_query query = "other" <->
     forall D, query_matches query D = false) /\
    infer_domain_from_query (PyStr.lower query) = infer_domain_from_query query.
Proof.
  intros query. split; [|split].
  - unfold infer_domain_from_query.
    destruct (InferFacts.first_matching_listed domain_keywords (PyStr.lower query))
      as [->|Hin]; [simpl; tauto|].
    revert Hin. generalize (first_matching domain_keywords (PyStr.lower query)).
    intros tag Hin. simpl in Hin. simpl.
    repeat (destruct Hin as [<-|Hin]; [tauto|]). destruct Hin.
  - split.
    + intros Hother D. destruct (query_matches query D) eqn:HD; [|reflexivity].
      apply InferFacts.first_matching_hit in HD.
      unfold infer_domain_from_query in Hother. rewrite Hother in HD.
      simpl in HD. repeat (destruct HD as [HD|HD]; [discriminate|]). destruct HD.
    + intros Hno. unfold infer_domain_from_query.
      now apply first_matching_none; [apply domain_keywords_names|].
  - unfold infer_domain_from_query. now rewrite InferFacts.lower_idempotent.
Qed.

(** X5: an id resolves to "other" exactly when it can be hashed and is not
    one of the integers 0 to 11 (True and False counting as 1 and 0): these
    are the ids for which the pipeline falls back to text inference. *)
Theorem domain_other_iff :
  forall id,
    get_domain_name id = Ok "other" <->
    (Py.hashable id = true /\
     forall z, Py.int_key id = Some z -> (z < 0 \/ 11 < z)%Z).
Proof.
  intros id. unfold get_domain_name, table_get.
  destruct (Py.hashable id); [|split; [discriminate | intros [H _]; discriminate]].
  destruct (Py.int_key id) as [z|].
  - split.
    + intros H. split; [reflexivity|]. intros z' [= <-].
      destruct (Z_lt_dec z 0) as [|Hlo]; [now left|].
      destruct (Z_lt_dec 11 z) as [|Hhi]; [now right|]. exfalso.
      assert (Hz : (z = 0 \/ z = 1 \/ z = 2 \/ z = 3 \/ z = 4 \/ z = 5 \/ z = 6 \/
                    z = 7 \/ z = 8 \/ z = 9 \/ z = 10 \/ z = 11)%Z) by lia.
      repeat (destruct Hz as [->|Hz]; [discriminate|]). subst z. discriminate.
    + intros [_ Hz]. specialize (Hz z eq_refl).
      assert (Hfind : table_find DOMAIN_MAP z = None \/ z = 12%Z).
      { unfold DOMAIN_MAP. cbn [table_find].
        repeat (match goal with
                | |- context [(?k =? z)%Z] =>
                    destruct (Z.eqb_spec k z); [subst z; try lia; now right|]
                end).
        now left. }
      destruct Hfind as [->| ->]; reflexivity.
  - split; [intros _; split; [reflexivity | discriminate] | reflexivity].
Qed.

(** ** rag_mm_agent.py: search queries *)

Module SearchQueryFacts.

Import RAGMMAgent.

Lemma prefix_of_cases (t : list (string * string)) (d : string) :
  In (d, prefix_of t d) t \/ (prefix_of t d = "" /\ ~ In d (map fst t)).
Proof.
  induction t as [|[d0 p0] t IH]; simpl; [right; tauto|].
  destruct (String.eqb_spec d d0) as [->|Hne]; [left; now left|].
  destruct IH as [IH|[IH Hout]]; [left; now right|].
  right. split; [exact IH|]. intros [Heq|Hin]; [congruence | contradiction].
Qed.

Lemma domain_prefixes_nonempty :
  Forall (fun entry => snd entry <> "") domain_prefixes.
Proof. repeat constructor; discriminate. Qed.

Lemma rmap_length {A B : Type} (f : A -> outcome B) (xs : list A) (ys : list B) :
  rmap f xs = Ok ys -> List.length ys = List.length xs.
Proof.
  revert ys. induction xs as [|x xs IH]; simpl; intros ys.
  - now intros [= <-].
  - destruct (f x) as [y|e]; [|discriminate]. simpl.
    destruct (rmap f xs) as [ys'|e]; [|discriminate]. simpl.
    intros [= <-]. simpl. now rewrite (IH ys').
Qed.

Lemma rmap_nth {A B : Type} (f : A -> outcome B) (xs : list A) (ys : list B)
    (i : nat) (x : A) :
  rmap f xs = Ok ys -> nth_error xs i = Some x ->
  exists y, nth_error ys i = Some y /\ f x = Ok y.
Proof.
  revert ys i. induction xs as [|x0 xs IH]; simpl; intros ys i.
  - intros _ H. now destruct i.
  - destruct (f x0) as [y0|e] eqn:Hy0; [|discriminate]. simpl.
    destruct (rmap f xs) as [ys'|e]; [|discriminate]. simpl.
    intros [= <-]. destruct i as [|i]; simpl.
    + intros [= <-]. now exists y0.
    + now apply IH.
Qed.

(** A failing element makes the whole [rmap] fail with its exception, when
    the elements before it succeed. *)
Lemma rmap_raise {A B : Type} (f : A -> outcome B) (before : list A) (x : A)
    (after : list A) (ys : list B) (e : exn) :
  rmap f before = Ok ys -> f x = Raise e ->
  rmap f (before ++ x :: after) = Raise e.
Proof.
  revert ys. induction before as [|x0 before IH]; simpl; intros ys.
  - intros _ Hx. now rewrite Hx.
  - destruct (f x0) as [y0|e0]; [|discriminate]. simpl.
    destruct (rmap f before) as [ys'|e0] eqn:Hb; [|discriminate]. simpl.
    intros _ Hx. now rewrite (IH ys' eq_refl Hx).
Qed.

Lemma nth_error_combine_some {A B : Type} (xs : list A) (ys : list B) (i : nat)
    (x : A) (y : B) :
  nth_error xs i = Some x -> nth_error ys i = Some y ->
  nth_error (combine xs ys) i = Some (x, y).
Proof.
  revert ys i. induction xs as [|a xs IH]; intros [|b ys] [|i]; simpl; try discriminate.
  - now intros [= ->] [= ->].
  - apply IH.
Qed.

End SearchQueryFacts.

(** X6: the enhanced query is the query behind the prefix the table lists
    for the domain; it is the query itself exactly for the domains the
    table does not list ("other", unknown tags and the five domains
    without prefix), and strictly longer otherwise. *)
Theorem enhance_query_prefix :
  forall query d,
    RAGMMAgent._enhance_query query d
    = RAGMMAgent.prefix_of RAGMMAgent.domain_prefixes d ++ query /\
    (RAGMMAgent._enhance_query query d = query <->
     ~ In d (map fst RAGMMAgent.domain_prefixes)) /\
    (In d (map fst RAGMMAgent.domain_prefixes) ->
     String.length query < String.length (RAGMMAgent._enhance_query query d)) /\
    (In d ["other"; "math_science"; "art"; "entertainment"; "events"] ->
     RAGMMAgent._enhance_query query d = query).
Proof.
  intros query d.
  assert (Hlisted : In d (map fst RAGMMAgent.domain_prefixes) ->
                    RAGMMAgent.prefix_of RAGMMAgent.domain_prefixes d <> "").
  { intros Hin.
    destruct (SearchQueryFacts.prefix_of_cases RAGMMAgent.domain_prefixes d)
      as [Hp|[_ Hout]]; [|contradiction].
    pose proof SearchQueryFacts.domain_prefixes_nonempty as Hall.
    rewrite Forall_forall in Hall. exact (Hall _ Hp). }
  assert (Hunlisted : ~ In d (map fst RAGMMAgent.domain_prefixes) ->
                      RAGMMAgent.prefix_of RAGMMAgent.domain_prefixes d = "").
  { intros Hout.
    destruct (SearchQueryFacts.prefix_of_cases RAGMMAgent.domain_prefixes d)
      as [Hp|[Hp _]]; [|exact Hp].
    exfalso. apply Hout. now apply (in_map fst) in Hp. }
  split; [reflexivity|]. split; [|split].
  - split.
    + intros Heq Hin.
      exact (proj1 (QueryFacts.enhanced_differs query d (Hlisted Hin)) Heq).
    + intros Hout. unfold RAGMMAgent._enhance_query. now rewrite (Hunlisted Hout).
  - intros Hin. unfold RAGMMAgent._enhance_query.
    rewrite QueryFacts.append_length.
    specialize (Hlisted Hin).
    destruct (RAGMMAgent.prefix_of RAGMMAgent.domain_prefixes d);
      [contradiction | simpl; lia].
  - intros Hin. unfold RAGMMAgent._enhance_query. rewrite Hunlisted; [reflexivity|].
    simpl in Hin. intros Hd. simpl in Hd.
    repeat (destruct Hin as [<-|Hin];
            [repeat (destruct Hd as [Hd|Hd]; [discriminate|]); exact Hd|]).
    destruct Hin.
Qed.

(** X7: when the search queries can be prepared there is one per item of
    the shortest of the three input lists, in order; the query of an item
    is enhanced with the domain its history gives or, where the history
    gives "other" (in particular where it is empty), with the domain
    inferred from the query text. *)
Theorem search_queries_aligned (image : Type) (queries : list string)
    (images : list image) (message_histories : list (list dict))
    (search_queries : list string)
    (Hprepared : RAGMMAgent.prepare_search_queries queries images message_histories
                 = Ok search_queries) :
  List.length search_queries
  = Nat.min (List.length queries)
            (Nat.min (List.length images) (List.length message_histories)) /\
  (forall i q img history,
      nth_error queries i = Some q ->
      nth_error images i = Some img ->
      nth_error message_histories i = Some history ->
      exists info,
        RAGMMAgent.history_session_info history = Ok info /\
        nth_error search_queries i
        = Some (RAGMMAgent._enhance_query q
                  (if String.eqb (RAGMMAgent.domain info) "other"
                   then infer_domain_from_query q
                   else RAGMMAgent.domain info))) /\
  (forall i q img,
      nth_error queries i = Some q ->
      nth_error images i = Some img ->
      nth_error message_histories i = Some [] ->
      nth_error search_queries i
      = Some (RAGMMAgent._enhance_query q (infer_domain_from_query q))).
Proof.
  unfold RAGMMAgent.prepare_search_queries, RAGMMAgent.extract_session_info in Hprepared.
  destruct (rmap RAGMMAgent.history_session_info message_histories) as [infos|e] eqn:Hinfos;
    [|discriminate].
  simpl in Hprepared. injection Hprepared as <-.
  assert (Hitem : forall i q img history,
             nth_error queries i = Some q ->
             nth_error images i = Some img ->
             nth_error message_histories i = Some history ->
             exists info,
               RAGMMAgent.history_session_info history = Ok info /\
               nth_error (map (RAGMMAgent.search_query_of image)
                              (combine queries (combine images infos))) i
               = Some (RAGMMAgent._enhance_query q
                         (if String.eqb (RAGMMAgent.domain info) "other"
                          then infer_domain_from_query q
                          else RAGMMAgent.domain info))).
  { intros i q img history Hq Himg Hh.
    destruct (SearchQueryFacts.rmap_nth _ _ _ i history Hinfos Hh) as (info & Hinfo & Hrun).
    exists info. split; [exact Hrun|].
    rewrite nth_error_map.
    rewrite (SearchQueryFacts.nth_error_combine_some queries (combine images infos) i
               q (img, info) Hq
               (SearchQueryFacts.nth_error_combine_some images infos i img info Himg Hinfo)).
    reflexivity. }
  split; [|split].
  - rewrite length_map, !length_combine.
    now rewrite (SearchQueryFacts.rmap_length _ _ _ Hinfos).
  - exact Hitem.
  - intros i q img Hq Himg Hh.
    destruct (Hitem i q img [] Hq Himg Hh) as (info & Hinfo & Hnth).
    cbv in Hinfo. injection Hinfo as <-. exact Hnth.
Qed.

Lemma search_queries_aligned_witness :
  nth_error ["which phone is this"; "how much"] 0 = Some "which phone is this" /\
  exists search_queries,
    RAGMMAgent.prepare_search_queries ["which phone is this"; "how much"] [tt; tt; tt]
      [[]; two_domain_history] = Ok search_queries /\
    List.length search_queries = 2 /\
    nth_error search_queries 0
    = Some (RAGMMAgent._enhance_query "which phone is this"
              (infer_domain_from_query "which phone is this")).
Proof.
  split; [reflexivity|].
  exists ["technology device battery which phone is this"; "product item how much"].
  assert (Hrun : RAGMMAgent.prepare_search_queries
                   ["which phone is this"; "how much"] [tt; tt; tt]
                   [[]; two_domain_history]
                 = Ok ["technology device battery which phone is this";
                       "product item how much"]) by reflexivity.
  split; [exact Hrun|].
  destruct (search_queries_aligned unit _ _ _ _ Hrun) as (Hlen & _ & Hempty).
  split; [exact Hlen|].
  exact (Hempty 0 "which phone is this" tt eq_refl eq_refl eq_refl).
Defined.

Module AbortFacts.

Import RAGMMAgent.

Lemma combine_seq_app {A : Type} (xs ys : list A) (s : nat) :
  combine (seq s (List.length (xs ++ ys))) (xs ++ ys)
  = (combine (seq s (List.length xs)) xs
     ++ combine (seq (s + List.length xs) (List.length ys)) ys)%list.
Proof.
  revert s. induction xs as [|x xs IH]; intros s; simpl.
  - now rewrite Nat.add_0_r.
  - rewrite IH. now rewrite Nat.add_succ_r.
Qed.

(** A user turn at an even position whose mapping content carries a domain
    id that cannot be hashed. *)
Definition unhashable_domain_turn (position : nat) (message : dict) : Prop :=
  Nat.even position = true /\
  is_user message = true /\
  exists content domain_id,
    Py.get message "content" = Some (PDict content) /\
    Py.get content "domain" = Some domain_id /\
    Py.hashable domain_id = false.

Lemma session_info_step_unhashable (info : session_info) (position : nat)
    (message : dict) :
  unhashable_domain_turn position message ->
  session_info_step info (position, message) = Raise TypeError.
Proof.
  intros (Heven & Huser & content & domain_id & Hcontent & Hdomain & Hh).
  unfold session_info_step.
  assert (Hmod : (position mod 2 =? 0)%nat = true).
  { apply Nat.eqb_eq. apply Nat.even_spec in Heven. destruct Heven as [k ->].
    rewrite Nat.mul_comm. apply Nat.Div0.mod_mul. }
  rewrite Hmod, Huser. unfold Py.get_default. rewrite Hcontent, Hdomain.
  cbn [andb]. unfold get_domain_name. now rewrite table_get_unhashable.
Qed.

Lemma history_session_info_unhashable (before : list dict) (message : dict)
    (rest : list dict) (info : session_info) :
  history_session_info before = Ok info ->
  unhashable_domain_turn (List.length before) message ->
  history_session_info (before ++ message :: rest) = Raise TypeError.
Proof.
  intros Hinfo Hturn. unfold history_session_info in *. unfold enumerate.
  rewrite combine_seq_app, DomainFacts.rfold_app.
  change {| domain := "other";
            is_multi_turn := (0 <? List.length (before ++ message :: rest))%nat |}
    with (DomainFacts.with_multi_turn (0 <? List.length (before ++ message :: rest))%nat
            {| domain := "other"; is_multi_turn := (0 <? List.length before)%nat |}).
  fold (enumerate before). rewrite DomainFacts.rfold_multi_turn, Hinfo.
  cbn [rbind List.length seq combine rfold Nat.add].
  now rewrite session_info_step_unhashable.
Qed.

End AbortFacts.

(** X8: a domain id that cannot be hashed, carried by the mapping content of
    a user turn at an even position of any history of the batch, makes the
    whole batch raise TypeError before any collaborator is called: no
    answer is returned for any item and the agent's state is untouched. *)
Theorem batch_aborts_on_unhashable_domain (image : Type)
    (C : Agent.collaborators image) (queries : list string) (images : list image)
    (histories_before : list (list dict)) (infos : list RAGMMAgent.session_info)
    (before : list dict) (info : RAGMMAgent.session_info) (message : dict)
    (rest : list dict) (histories_after : list (list dict)) (st : Agent.agent image)
    (Himages : images <> [])
    (Hbefore : RAGMMAgent.extract_session_info histories_before = Ok infos)
    (Hinfo : RAGMMAgent.history_session_info before = Ok info)
    (Hturn : AbortFacts.unhashable_domain_turn (List.length before) message) :
  Agent.batch_generate_response image C queries images
    (histories_before ++ (before ++ message :: rest) :: histories_after)%list st
  = (Raise TypeError, st).
Proof.
  rewrite BatchFacts.batch_generate_response_run by exact Himages.
  unfold BatchFacts.staged_batch, RAGMMAgent.prepare_search_queries.
  unfold RAGMMAgent.extract_session_info in *.
  rewrite (SearchQueryFacts.rmap_raise _ histories_before
             (before ++ message :: rest)%list histories_after infos TypeError Hbefore
             (AbortFacts.history_session_info_unhashable before message rest info
                Hinfo Hturn)).
  reflexivity.
Qed.

Lemma batch_aborts_on_unhashable_domain_witness :
  Agent.batch_generate_response unit web_pipeline ["q0"] [tt]
    ([[]] ++ ([[("role", PStr "user"); ("content", PStr "hi")];
               [("role", PStr "assistant"); ("content", PStr "ok")]]
              ++ [("role", PStr "user"); ("content", PDict [("domain", PList [])])]
              :: []) :: [])%list fresh_agent
  = (Raise TypeError, fresh_agent).
Proof.
  apply (batch_aborts_on_unhashable_domain unit web_pipeline ["q0"] [tt] [[]]
           [{| RAGMMAgent.domain := "other"; RAGMMAgent.is_multi_turn := false |}]
           [[("role", PStr "user"); ("content", PStr "hi")];
            [("role", PStr "assistant"); ("content", PStr "ok")]]
           {| RAGMMAgent.domain := "other"; RAGMMAgent.is_multi_turn := true |}).
  - discriminate.
  - reflexivity.
  - reflexivity.
  - split; [reflexivity|]. split; [reflexivity|].
    exists [("domain", PList [])], (PList []). repeat split.
Defined.

(** ** Formatter dispatch *)

(** X9: the attribute-driven classifier of entities only ever answers
    "food", "shopping", "landmark", "people", "nature" or "other", and it
    reads the printed attributes without regard to case. *)
Theorem entity_domain_answers :
  forall entity_attrs,
    In (RAGMMAgent._infer_entity_domain entity_attrs)
       ["food"; "shopping"; "landmark"; "people"; "nature"; "other"] /\
    (RAGMMAgent._infer_entity_domain entity_attrs = "other" <->
     forall D, matches_in RAGMMAgent.entity_keywords
                 (PyStr.lower (Py.str entity_attrs)) D = false) /\
    RAGMMAgent._infer_entity_domain (PStr (PyStr.lower (Py.str entity_attrs)))
    = RAGMMAgent._infer_entity_domain entity_attrs.
Proof.
  intros entity_attrs. unfold RAGMMAgent._infer_entity_domain.
  split; [|split].
  - destruct (InferFacts.first_matching_listed RAGMMAgent.entity_keywords
                (PyStr.lower (Py.str entity_attrs))) as [->|Hin]; [simpl; tauto|].
    revert Hin.
    generalize (first_matching RAGMMAgent.entity_keywords
                  (PyStr.lower (Py.str entity_attrs))).
    intros tag Hin. simpl in Hin. simpl.
    repeat (destruct Hin as [<-|Hin]; [tauto|]). destruct Hin.
  - split.
    + intros Hother D.
      destruct (matches_in RAGMMAgent.entity_keywords
                  (PyStr.lower (Py.str entity_attrs)) D) eqn:HD; [|reflexivity].
      apply InferFacts.first_matching_hit in HD. rewrite Hother in HD.
      simpl in HD. repeat (destruct HD as [HD|HD]; [discriminate|]). destruct HD.
    + intros Hno. apply first_matching_none; [|exact Hno].
      repeat (constructor; [simpl; intuition discriminate|]); constructor.
  - cbn [Py.str]. now rewrite InferFacts.lower_idempotent.
Qed.

(** X10: the dispatch routes "food", "shopping", "landmark", "nature",
    "people" and "technology" to their own formatter and every other
    domain, listed in the table or not, to the generic formatter. *)
Theorem parse_dispatch :
  forall domain data,
    (~ In domain ["food"; "shopping"; "landmark"; "nature"; "people"; "technology"] ->
     StructuredDataParser.parse domain data
     = Ok (StructuredDataParser.parse_generic data)) /\
    StructuredDataParser.parse "food" data = StructuredDataParser.parse_food data /\
    StructuredDataParser.parse "shopping" data = StructuredDataParser.parse_shopping data /\
    StructuredDataParser.parse "landmark" data = StructuredDataParser.parse_landmark data /\
    StructuredDataParser.parse "nature" data = StructuredDataParser.parse_nature data /\
    StructuredDataParser.parse "people" data = StructuredDataParser.parse_people data /\
    StructuredDataParser.parse "technology" data
    = StructuredDataParser.parse_technology data.
Proof.
  intros domain data. split; [|repeat split].
  intros Hout. unfold StructuredDataParser.parse, StructuredDataParser.parsers.
  cbn [StructuredDataParser.find_parser].
  repeat (match goal with
          | |- context [String.eqb domain ?d] =>
              destruct (String.eqb_spec domain d) as [Heq|_];
              [first [reflexivity | exfalso; apply Hout; rewrite Heq; simpl; tauto]|]
          end).
  reflexivity.
Qed.

(** ** The shape and the failures of the formatters *)

Module BlockFacts.

Import PyStr StructuredDataParser TextFacts.

(** A text that begins with [p]. *)
Definition begins (p s : string) : Prop := exists body, s = p ++ body.

Lemma begins_refl (p : string) : begins p p.
Proof. exists "". now rewrite append_nil_r. Qed.

Lemma begins_app (p s x : string) : begins p s -> begins p (s ++ x).
Proof. intros [body ->]. exists (body ++ x). apply append_assoc. Qed.

Lemma begins_fold {A : Type} (p : string) (f : string -> A -> string) (l : list A)
    (s : string) :
  (forall r x, begins p r -> begins p (f r x)) ->
  begins p s -> begins p (fold_left f l s).
Proof.
  intros Hf. revert s. induction l as [|x l IH]; intros s Hs; simpl; [exact Hs|].
  apply IH. now apply Hf.
Qed.

Lemma begins_add_if (p result label : string) (value : pyval) :
  begins p result -> begins p (add_if result label value).
Proof.
  intros H. unfold add_if. destruct (Py.truthy value); [|exact H].
  rewrite <- !append_assoc. now repeat apply begins_app.
Qed.

Lemma begins_add_specifications (p result : string) (specifications : pyval) :
  begins p result -> begins p (add_specifications result specifications).
Proof.
  intros H. unfold add_specifications.
  destruct (Py.truthy specifications); [|exact H].
  destruct specifications;
    try (rewrite <- !append_assoc; now repeat apply begins_app).
  apply begins_fold.
  - intros r x Hr. rewrite <- !append_assoc. now repeat apply begins_app.
  - rewrite <- !append_assoc. now repeat apply begins_app.
Qed.

Lemma begins_add_joined (p result label : string) (value : pyval) (s : string) :
  begins p result -> add_joined result label value = Ok s -> begins p s.
Proof.
  intros H. unfold add_joined. destruct (Py.truthy value); [|now intros [= <-]].
  destruct value; try (intros [= <-]; rewrite <- !append_assoc; now repeat apply begins_app).
  destruct (texts l) as [ss|e]; [|discriminate]. simpl. intros [= <-].
  rewrite <- !append_assoc. now repeat apply begins_app.
Qed.

Lemma begins_add_cleaned (p result label : string) (value : pyval)
    (clean : string -> string) (s : string) :
  begins p result -> add_cleaned result label value clean = Ok s -> begins p s.
Proof.
  intros H. unfold add_cleaned. destruct (Py.truthy value); [|now intros [= <-]].
  destruct value; try discriminate. intros [= <-].
  rewrite <- !append_assoc. now repeat apply begins_app.
Qed.

(** [rstrip] stops at a character it does not strip. *)
Lemma rstrip_stops (p : string) (c : ascii) (s chars : string) :
  mem_char c chars = false ->
  rstrip (p ++ String c s) chars = p ++ String c (rstrip s chars).
Proof.
  intros Hc. induction p as [|a p IH]; simpl.
  - rewrite Hc. now destruct (rstrip s chars).
  - rewrite IH. now destruct p.
Qed.

Lemma begins_rstrip (p : string) (c : ascii) (s : string) :
  mem_char c ", " = false ->
  begins (p ++ String c "") s -> begins (p ++ String c "") (rstrip s ", ").
Proof.
  intros Hc [body ->]. rewrite append_assoc. simpl.
  rewrite (rstrip_stops p c body ", " Hc).
  exists (rstrip body ", "). now rewrite append_assoc.
Qed.

(** A block: the opening tag, the name line, more lines and the closing
    tag. *)
Definition block (tag name s : string) : Prop :=
  exists lines,
    s = "<" ++ tag ++ ">" ++ nl ++ "Name: " ++ name ++ nl ++ lines ++ "</" ++ tag ++ ">".

Lemma block_of_begins (tag name result : string) :
  begins (("<" ++ tag ++ ">" ++ nl ++ "Name: " ++ name) ++ nl) result ->
  block tag name (result ++ "</" ++ tag ++ ">").
Proof.
  intros [lines ->]. exists lines. now rewrite !append_assoc.
Qed.

Lemma texts_outcome (values : list pyval) :
  (Forall HistoryFacts.is_text values /\
   texts values = Ok (map HistoryFacts.text_of values)) \/
  (~ Forall HistoryFacts.is_text values /\ texts values = Raise TypeError).
Proof.
  induction values as [|v values IH]; [left; split; [constructor | reflexivity]|].
  assert (Hbad : ~ HistoryFacts.is_text v -> ~ Forall HistoryFacts.is_text (v :: values)).
  { intros Hv H. inversion H. contradiction. }
  destruct v; try (right; split; [apply Hbad; intros [s' Hs']; discriminate | reflexivity]).
  destruct IH as [[Hall Hok]|[Hnot Hraise]].
  - left. split; [constructor; [now exists s | exact Hall]|]. simpl. now rewrite Hok.
  - right. split; [intros H; inversion H; contradiction|]. simpl. now rewrite Hraise.
Qed.

(** The one way a comma-joined field fails. *)
Lemma add_joined_raises (result label : string) (value : pyval) (e : exn) :
  add_joined result label value = Raise e <->
  (e = TypeError /\ exists l, value = PList l /\ ~ Forall HistoryFacts.is_text l).
Proof.
  unfold add_joined. split.
  - destruct (Py.truthy value); [|discriminate].
    destruct value; try discriminate.
    destruct (texts_outcome l) as [[_ Hok]|[Hnot Hraise]].
    + rewrite Hok. discriminate.
    + rewrite Hraise. simpl. intros [= <-]. split; [reflexivity|]. now exists l.
  - intros [-> (l & -> & Hnot)].
    assert (Htruthy : Py.truthy (PList l) = true).
    { destruct l; [exfalso; apply Hnot; constructor | reflexivity]. }
    rewrite Htruthy. destruct (texts_outcome l) as [[Hall _]|[_ Hraise]];
      [contradiction | now rewrite Hraise].
Qed.

(** The line of a field that is printed when its value is truthy. *)
Definition field_line (label : string) (value : pyval) : string :=
  if Py.truthy value then label ++ ": " ++ Py.str value ++ nl else "".

Lemma add_if_field_line (result label : string) (value : pyval) :
  add_if result label value = result ++ field_line label value.
Proof.
  unfold add_if, field_line.
  destruct (Py.truthy value); [reflexivity | now rewrite append_nil_r].
Qed.

(** The line of a comma-joined field is appended to what is there. *)
Lemma add_joined_line (result label : string) (value : pyval) (r : string) :
  add_joined result label value = Ok r ->
  exists line, add_joined "" label value = Ok line /\ r = result ++ line.
Proof.
  unfold add_joined. destruct (Py.truthy value).
  - destruct value; try (intros [= <-]; eexists; split; reflexivity).
    destruct (texts l) as [ss|e]; [|discriminate]. cbn [rbind].
    intros [= <-]. eexists. split; reflexivity.
  - intros [= <-]. exists "". split; [reflexivity | now rewrite append_nil_r].
Qed.

(** The pairs of the nutrition mapping, each followed by a comma and a
    space. *)
Definition nutrition_pairs (d : dict) : string :=
  fold_left (fun result kv => result ++ fst kv ++ ": " ++ Py.str (snd kv) ++ ", ") d "".

(** The nutrition line: the trailing-comma cleanup acts on the pairs. *)
Definition nutrition_line (nutrition : pyval) : string :=
  if Py.truthy nutrition then
    match nutrition with
    | PDict d => "Nutrition: " ++ rstrip (nutrition_pairs d) ", " ++ nl
    | _ => "Nutrition: " ++ Py.str nutrition ++ nl
    end
  else "".

Lemma fold_pairs_from (d : dict) (result : string) :
  fold_left (fun result kv => result ++ fst kv ++ ": " ++ Py.str (snd kv) ++ ", ") d result
  = result ++ nutrition_pairs d.
Proof.
  unfold nutrition_pairs. revert result.
  induction d as [|kv d IH]; intros result; cbn [fold_left].
  - now rewrite append_nil_r.
  - rewrite IH, (IH ("" ++ _)). cbn [append]. now rewrite append_assoc.
Qed.

(** [rstrip] leaves what comes before a text it does not strip whole. *)
Lemma rstrip_keeps (p s chars : string) :
  rstrip s chars <> "" -> rstrip (p ++ s) chars = p ++ rstrip s chars.
Proof.
  intros Hs. induction p as [|a p IH]; [reflexivity|].
  cbn [append rstrip]. rewrite IH.
  destruct (p ++ rstrip s chars) eqn:E; [|reflexivity].
  destruct p; [contradiction | discriminate].
Qed.

(** The cleanup never strips the pairs of a non-empty mapping whole: it
    stops at the colon of the last pair at the latest. *)
Lemma nutrition_pairs_kept (d : dict) :
  d <> [] -> rstrip (nutrition_pairs d) ", " <> "".
Proof.
  intros Hd. destruct (exists_last Hd) as (d' & [k v] & ->).
  unfold nutrition_pairs. rewrite fold_left_app. cbn [fold_left fst snd].
  change (k ++ ": " ++ Py.str v ++ ", ")
    with (k ++ String ":" (" " ++ Py.str v ++ ", ")).
  rewrite <- append_assoc.
  rewrite (rstrip_stops _ ":" _ ", " eq_refl).
  destruct (fold_left _ d' "" ++ k); discriminate.
Qed.

(** The nutrition step of the food formatter appends the nutrition line:
    what was there before is left whole. *)
Lemma nutrition_step (result : string) (nutrition : pyval) :
  (if Py.truthy nutrition then
     match nutrition with
     | PDict d =>
         rstrip
           (fold_left
              (fun result kv => result ++ fst kv ++ ": " ++ Py.str (snd kv) ++ ", ")
              d (result ++ "Nutrition: ")) ", " ++ nl
     | _ => (result ++ "Nutrition: ") ++ Py.str nutrition ++ nl
     end
   else result)
  = result ++ nutrition_line nutrition.
Proof.
  unfold nutrition_line.
  destruct (Py.truthy nutrition) eqn:Ht; [|now rewrite append_nil_r].
  destruct nutrition; try (now rewrite !append_assoc).
  rewrite fold_pairs_from, !append_assoc.
  rewrite (rstrip_keeps result), (rstrip_keeps "Nutrition: ");
    try (apply nutrition_pairs_kept; intros ->; discriminate).
  - now rewrite !append_assoc.
  - rewrite (rstrip_keeps "Nutrition: ");
      [destruct (rstrip (nutrition_pairs d) ", "); discriminate|].
    apply nutrition_pairs_kept. intros ->. discriminate.
Qed.

End BlockFacts.

Module BlockProofs.

Import PyStr StructuredDataParser TextFacts BlockFacts.

(** The text every block starts with. *)
Definition opening (tag name : string) : string :=
  ("<" ++ tag ++ ">" ++ nl ++ "Name: " ++ name) ++ nl.

Lemma begins_opening (tag name : string) :
  begins (opening tag name) (("<" ++ tag ++ ">" ++ nl) ++ "Name: " ++ name ++ nl).
Proof. exists "". unfold opening. now rewrite !append_assoc, append_nil_r. Qed.

Ltac step :=
  first [ apply begins_add_if | apply begins_add_specifications ].

Ltac peel := rewrite <- !append_assoc; repeat apply begins_app.

Lemma parse_food_block (data : dict) (s : string) :
  parse_food data = Ok s ->
  block "Food" (Py.str (get2 data "name" "dish_name" (PStr "Unknown dish"))) s.
Proof.
  cbv beta zeta delta [parse_food]. intros H.
  match type of H with
  | context [add_joined ?a ?b ?c] => destruct (add_joined a b c) as [r|e] eqn:E
  end; [|discriminate].
  cbn [rbind] in H. injection H as <-.
  apply (block_of_begins "Food"). fold (opening "Food"
    (Py.str (get2 data "name" "dish_name" (PStr "Unknown dish")))).
  assert (Hr : begins (opening "Food"
                 (Py.str (get2 data "name" "dish_name" (PStr "Unknown dish")))) r).
  { apply (begins_add_joined _ _ _ _ _
             (begins_add_if _ _ _ _ (begins_opening "Food" _)) E). }
  do 2 step.
  destruct (Py.truthy (Py.get_default data "nutrition" (PDict []))); [|exact Hr].
  destruct (Py.get_default data "nutrition" (PDict []));
    try (peel; exact Hr).
  apply begins_app. apply (begins_rstrip _ (ascii_of_nat 10)); [reflexivity|].
  apply begins_fold; [|now apply begins_app].
  intros r0 x Hr0. peel. exact Hr0.
Qed.

Lemma parse_shopping_block (data : dict) (s : string) :
  parse_shopping data = Ok s ->
  block "Product" (Py.str (get2 data "name" "product_name" (PStr "Unknown product"))) s.
Proof.
  cbv beta zeta delta [parse_shopping]. intros [= <-].
  apply (block_of_begins "Product"). repeat step. apply (begins_opening "Product").
Qed.

Lemma parse_people_block (data : dict) (s : string) :
  parse_people data = Ok s ->
  block "Person" (Py.str (Py.get_default data "name" (PStr "Unknown person"))) s.
Proof.
  cbv beta zeta delta [parse_people]. intros [= <-].
  apply (block_of_begins "Person"). repeat step. apply (begins_opening "Person").
Qed.

Lemma parse_technology_block (data : dict) (s : string) :
  parse_technology data = Ok s ->
  block "Technology" (Py.str (Py.get_default data "name" (PStr "Unknown device"))) s.
Proof.
  cbv beta zeta delta [parse_technology]. intros [= <-].
  apply (block_of_begins "Technology"). repeat step. apply (begins_opening "Technology").
Qed.

Lemma parse_nature_block (data : dict) (s : string) :
  parse_nature data = Ok s ->
  block "Nature" (Py.str (Py.get_default data "name" (PStr "Unknown"))) s.
Proof.
  cbv beta zeta delta [parse_nature]. intros H.
  match type of H with
  | context [add_joined ?a ?b ?c] => destruct (add_joined a b c) as [r|e] eqn:E
  end; [|discriminate].
  cbn [rbind] in H. injection H as <-.
  apply (block_of_begins "Nature").
  refine (begins_add_joined _ _ _ _ _ _ E).
  repeat step. apply (begins_opening "Nature").
Qed.

Lemma parse_landmark_block (data : dict) (s : string) :
  parse_landmark data = Ok s ->
  exists name,
    landmark_name (Py.get_default data "name" (PStr "Unknown landmark")) = Ok name /\
    block "Landmark" (Py.str name) s.
Proof.
  cbv beta zeta delta [parse_landmark]. intros H.
  destruct (landmark_name (Py.get_default data "name" (PStr "Unknown landmark")))
    as [name|e]; [|discriminate].
  cbn [rbind] in H. exists name. split; [reflexivity|].
  repeat match type of H with
         | context [add_cleaned ?a ?b ?c ?d] =>
             let E := fresh "E" in
             destruct (add_cleaned a b c d) as [?r|?e] eqn:E; [|discriminate];
             cbn [rbind] in H
         end.
  injection H as <-. apply (block_of_begins "Landmark").
  repeat first [ step
               | match goal with
                 | E : add_cleaned _ _ _ _ = Ok ?r |- begins _ ?r =>
                     refine (begins_add_cleaned _ _ _ _ _ _ _ E)
                 end ].
  apply (begins_opening "Landmark").
Qed.

(** The food block, line by line. *)
Lemma parse_food_lines (data : dict) (s : string) :
  parse_food data = Ok s ->
  exists ingredients,
    add_joined "" "Ingredients" (Py.get_default data "ingredients" (PList []))
    = Ok ingredients /\
    s = "<Food>" ++ nl ++
        "Name: " ++ Py.str (get2 data "name" "dish_name" (PStr "Unknown dish")) ++ nl ++
        field_line "Type" (get2 data "food_type" "type" (PStr "")) ++
        ingredients ++
        nutrition_line (Py.get_default data "nutrition" (PDict [])) ++
        field_line "Cooking Method" (get2 data "cooking_method" "preparation" (PStr "")) ++
        field_line "Cuisine" (get2 data "cuisine" "origin" (PStr "")) ++
        "</Food>".
Proof.
  cbv beta zeta delta [parse_food]. intros H.
  match type of H with
  | context [add_joined ?a ?b ?c] => destruct (add_joined a b c) as [r|e] eqn:E
  end; [|discriminate].
  cbn [rbind] in H. injection H as <-.
  apply add_joined_line in E as (ingredients & Hline & ->).
  exists ingredients. split; [exact Hline|].
  rewrite nutrition_step, !add_if_field_line.
  now rewrite !append_assoc.
Qed.

End BlockProofs.

(** X11: whenever a domain formatter returns, its block is the opening tag
    on a line, the name line, further lines, and the closing tag. The name
    is the record's (for a landmark cut at the first line-break marker when
    it holds a template marker), or the formatter's own default when the
    record has none. The food block is given line by line: the
    trailing-comma cleanup of the nutrition line removes characters of the
    nutrition pairs only, so the Name, Type and Ingredients lines before it
    are left whole. *)
Theorem formatter_blocks :
  forall data s,
    (StructuredDataParser.parse_food data = Ok s ->
     exists ingredients,
       StructuredDataParser.add_joined "" "Ingredients"
         (Py.get_default data "ingredients" (PList [])) = Ok ingredients /\
       s = "<Food>" ++ PyStr.nl ++
           "Name: " ++
           Py.str (StructuredDataParser.get2 data "name" "dish_name" (PStr "Unknown dish")) ++
           PyStr.nl ++
           BlockFacts.field_line "Type"
             (StructuredDataParser.get2 data "food_type" "type" (PStr "")) ++
           ingredients ++
           BlockFacts.nutrition_line (Py.get_default data "nutrition" (PDict [])) ++
           BlockFacts.field_line "Cooking Method"
             (StructuredDataParser.get2 data "cooking_method" "preparation" (PStr "")) ++
           BlockFacts.field_line "Cuisine"
             (StructuredDataParser.get2 data "cuisine" "origin" (PStr "")) ++
           "</Food>") /\
    (StructuredDataParser.parse_food data = Ok s ->
     BlockFacts.block "Food"
       (Py.str (StructuredDataParser.get2 data "name" "dish_name" (PStr "Unknown dish"))) s) /\
    (StructuredDataParser.parse_shopping data = Ok s ->
     BlockFacts.block "Product"
       (Py.str (StructuredDataParser.get2 data "name" "product_name"
                  (PStr "Unknown product"))) s) /\
    (StructuredDataParser.parse_landmark data = Ok s ->
     exists name,
       BlockFacts.block "Landmark" name s /\
       (Py.get data "name" = None -> name = "Unknown landmark") /\
       (forall n, Py.get data "name" = Some (PStr n) ->
                  name = if PyStr.contains n "{{" then PyStr.split_head n "<br" else n) /\
       (forall l, Py.get data "name" = Some (PList l) -> name = Py.str (PList l)) /\
       (forall d, Py.get data "name" = Some (PDict d) -> name = Py.str (PDict d))) /\
    (StructuredDataParser.parse_nature data = Ok s ->
     BlockFacts.block "Nature" (Py.str (Py.get_default data "name" (PStr "Unknown"))) s) /\
    (StructuredDataParser.parse_people data = Ok s ->
     BlockFacts.block "Person"
       (Py.str (Py.get_default data "name" (PStr "Unknown person"))) s) /\
    (StructuredDataParser.parse_technology data = Ok s ->
     BlockFacts.block "Technology"
       (Py.str (Py.get_default data "name" (PStr "Unknown device"))) s).
Proof.
  intros data s.
  split; [apply BlockProofs.parse_food_lines|].
  split; [apply BlockProofs.parse_food_block|].
  split; [apply BlockProofs.parse_shopping_block|].
  split.
  { intros H. destruct (BlockProofs.parse_landmark_block data s H) as (name & Hname & Hblock).
    exists (Py.str name). split; [exact Hblock|].
    unfold Py.get_default in Hname. unfold StructuredDataParser.landmark_name in Hname.
    split; [|split; [|split]].
    - intros Hget. rewrite Hget in Hname. now injection Hname as <-.
    - intros n Hget. rewrite Hget in Hname. now injection Hname as <-.
    - intros l Hget. rewrite Hget in Hname.
      destruct (existsb _ l); [discriminate | now injection Hname as <-].
    - intros d Hget. rewrite Hget in Hname.
      destruct (Py.has d "{{"); [discriminate | now injection Hname as <-]. }
  split; [apply BlockProofs.parse_nature_block|].
  split; [apply BlockProofs.parse_people_block | apply BlockProofs.parse_technology_block].
Qed.

Module FailureFacts.

Import PyStr StructuredDataParser FormatterFacts.

(** The field holds a non-empty value that is not text. *)
Definition bad_field (data : dict) (key : string) : bool :=
  match Py.get data key with
  | Some (PStr _) | None => false
  | Some value => Py.truthy value
  end.

Lemma add_cleaned_outcome (result label : string) (data : dict) (key : string)
    (clean : string -> string) :
  add_cleaned result label (Py.get_default data key (PStr "")) clean
  = if bad_field data key then Raise AttributeError
    else Ok (result ++ cleaned_line data key label clean).
Proof.
  unfold add_cleaned, bad_field, cleaned_line, Py.get_default.
  destruct (Py.get data key) as [value|];
    [|cbn [Py.truthy String.eqb negb]; now rewrite TextFacts.append_nil_r].
  destruct value; cbn [Py.truthy].
  - now rewrite TextFacts.append_nil_r.
  - destruct b; [reflexivity | now rewrite TextFacts.append_nil_r].
  - destruct (negb (z =? 0)%Z); [reflexivity | now rewrite TextFacts.append_nil_r].
  - destruct (String.eqb s ""); cbn [negb];
      [now rewrite TextFacts.append_nil_r | reflexivity].
  - destruct l; [now rewrite TextFacts.append_nil_r | reflexivity].
  - destruct d; [now rewrite TextFacts.append_nil_r | reflexivity].
Qed.

End FailureFacts.

(** X12: the food formatter fails in one way only, with TypeError, exactly
    when the ingredients are a list that holds something else than text;
    the nature formatter likewise on its materials. *)
Theorem joined_field_failures :
  forall data e,
    (StructuredDataParser.parse_food data = Raise e <->
     (e = TypeError /\
      exists l, Py.get data "ingredients" = Some (PList l) /\
                ~ Forall HistoryFacts.is_text l)) /\
    (StructuredDataParser.parse_nature data = Raise e <->
     (e = TypeError /\
      exists l, Py.get data "materials" = Some (PList l) /\
                ~ Forall HistoryFacts.is_text l)).
Proof.
  intros data e.
  assert (Hget : forall key default l,
             (forall d, default = PList d -> Forall HistoryFacts.is_text d) ->
             ~ Forall HistoryFacts.is_text l ->
             (Py.get_default data key default = PList l <->
              Py.get data key = Some (PList l))).
  { intros key default l Hdefault Hnot. unfold Py.get_default.
    destruct (Py.get data key) as [v|].
    - split; [now intros -> | now intros [= ->]].
    - split; [|discriminate]. intros Hd. exfalso. apply Hnot. now apply Hdefault. }
  split.
  - cbv beta zeta delta [StructuredDataParser.parse_food].
    match goal with
    | |- context [StructuredDataParser.add_joined ?a ?b ?c] =>
        pose proof (BlockFacts.add_joined_raises a b c e) as Hj;
        destruct (StructuredDataParser.add_joined a b c) as [r|e0]
    end; cbn [rbind].
    + split; [discriminate|]. intros (He & l & Hl & Hnot). exfalso.
      assert (Hraise : Ok r = Raise e); [|discriminate].
      apply Hj. split; [exact He|]. exists l. split; [|exact Hnot].
      apply (Hget "ingredients" (PList []) l); try assumption.
      intros d [= <-]. constructor.
    + split.
      * intros [= ->]. destruct (proj1 Hj eq_refl) as (He & l & Hl & Hnot).
        split; [exact He|]. exists l. split; [|exact Hnot].
        apply (Hget "ingredients" (PList []) l); try assumption.
        intros d [= <-]. constructor.
      * intros (He & l & Hl & Hnot). apply Hj. split; [exact He|]. exists l.
        split; [|exact Hnot].
        apply (Hget "ingredients" (PList []) l); try assumption.
        intros d [= <-]. constructor.
  - cbv beta zeta delta [StructuredDataParser.parse_nature].
    match goal with
    | |- context [StructuredDataParser.add_joined ?a ?b ?c] =>
        pose proof (BlockFacts.add_joined_raises a b c e) as Hj;
        destruct (StructuredDataParser.add_joined a b c) as [r|e0]
    end; cbn [rbind].
    + split; [discriminate|]. intros (He & l & Hl & Hnot). exfalso.
      assert (Hraise : Ok r = Raise e); [|discriminate].
      apply Hj. split; [exact He|]. exists l. split; [|exact Hnot].
      apply (Hget "materials" (PStr "") l); try assumption.
      intros d Hd. discriminate.
    + split.
      * intros [= ->]. destruct (proj1 Hj eq_refl) as (He & l & Hl & Hnot).
        split; [exact He|]. exists l. split; [|exact Hnot].
        apply (Hget "materials" (PStr "") l); try assumption.
        intros d Hd. discriminate.
      * intros (He & l & Hl & Hnot). apply Hj. split; [exact He|]. exists l.
        split; [|exact Hnot].
        apply (Hget "materials" (PStr "") l); try assumption.
        intros d Hd. discriminate.
Qed.

(** X13: on a record whose name is text or absent the Landmark formatter
    fails in one way only, with AttributeError, exactly when its address,
    type, style or architect holds a non-empty value that is not text;
    otherwise it returns a block. *)
Theorem landmark_failures (data : dict)
    (Hname : FormatterFacts.text_field data "name" = true) :
  (forall e,
      StructuredDataParser.parse_landmark data = Raise e <->
      (e = AttributeError /\
       existsb (FailureFacts.bad_field data)
               ["address"; "building_type"; "architectural_style"; "architect"]
       = true)) /\
  (existsb (FailureFacts.bad_field data)
           ["address"; "building_type"; "architectural_style"; "architect"] = false ->
   exists s, StructuredDataParser.parse_landmark data = Ok s).
Proof.
  cbv beta zeta delta [StructuredDataParser.parse_landmark].
  rewrite (FormatterFacts.landmark_name_of_text data Hname). cbn [rbind existsb].
  rewrite FailureFacts.add_cleaned_outcome.
  destruct (FailureFacts.bad_field data "address"); cbn [rbind orb];
    [split; [intros e; split; [now intros [= <-] | now intros [-> _]] | discriminate]|].
  rewrite FailureFacts.add_cleaned_outcome.
  destruct (FailureFacts.bad_field data "building_type"); cbn [rbind orb];
    [split; [intros e; split; [now intros [= <-] | now intros [-> _]] | discriminate]|].
  rewrite FailureFacts.add_cleaned_outcome.
  destruct (FailureFacts.bad_field data "architectural_style"); cbn [rbind orb];
    [split; [intros e; split; [now intros [= <-] | now intros [-> _]] | discriminate]|].
  rewrite FailureFacts.add_cleaned_outcome.
  destruct (FailureFacts.bad_field data "architect"); cbn [rbind orb];
    [split; [intros e; split; [now intros [= <-] | now intros [-> _]] | discriminate]|].
  split.
  - intros e. split; [discriminate | intros [_ H]; discriminate].
  - intros _. eexists. reflexivity.
Qed.

Lemma landmark_failures_witness :
  FormatterFacts.text_field
    [("name", PStr "Tower"); ("architect", PList [PStr "A"; PStr "B"])] "name" = true /\
  StructuredDataParser.parse_landmark
    [("name", PStr "Tower"); ("architect", PList [PStr "A"; PStr "B"])]
  = Raise AttributeError.
Proof.
  split; [reflexivity|].
  apply (proj1 (landmark_failures
                  [("name", PStr "Tower"); ("architect", PList [PStr "A"; PStr "B"])]
                  eq_refl) AttributeError).
  split; reflexivity.
Defined.

(** ** Evidence blocks *)

Module EvidenceFacts.

Import PyStr RAGMMAgent TextFacts.

(** A web hit the context uses: it has a non-empty snippet. *)
Definition usable (result : dict) : bool :=
  Py.has result "page_snippet" &&
  Py.truthy (Py.get_default result "page_snippet" (PStr "")).

(** The text one usable web hit contributes. *)
Definition snippet_block (result : dict) : string :=
  "From " ++ Py.str (Py.get_default result "page_name" (PStr "Unknown Source")) ++ ":" ++
  nl ++ Py.str (Py.get_default result "page_snippet" (PStr "")) ++ nl ++ nl.

(** Texts put one behind the other. *)
Definition cat (parts : list string) : string := fold_right String.append "" parts.

Lemma fold_add_snippet (hits : list dict) (context : string) :
  fold_left add_snippet hits context
  = context ++ cat (map snippet_block (filter usable hits)).
Proof.
  revert context. induction hits as [|hit hits IH]; intros context; simpl.
  - now rewrite append_nil_r.
  - rewrite IH. unfold add_snippet at 1. unfold usable at 2.
    destruct (Py.has hit "page_snippet"); cbn [andb]; [|reflexivity].
    destruct (Py.truthy (Py.get_default hit "page_snippet" (PStr ""))); [|reflexivity].
    cbn [map cat fold_right]. fold (cat (map snippet_block (filter usable hits))).
    unfold snippet_block. now rewrite !append_assoc.
Qed.

(** A hit without entities: the field is absent or an empty list. *)
Definition no_entities (result : dict) : bool :=
  match Py.get result "entities" with
  | None | Some (PList []) => true
  | Some _ => false
  end.

Lemma add_result_no_entities (parsed_result : string) (result : dict) :
  no_entities result = true -> add_result parsed_result result = Ok parsed_result.
Proof.
  unfold no_entities, add_result, Py.get_default.
  destruct (Py.get result "entities") as [[| | | |[|]|]|]; try discriminate; reflexivity.
Qed.

Lemma fold_no_entities (hits : list dict) (parsed_result : string) :
  Forall (fun r => no_entities r = true) hits ->
  rfold add_result hits parsed_result = Ok parsed_result.
Proof.
  induction 1 as [|hit hits Hhit _ IH]; simpl; [reflexivity|].
  now rewrite (add_result_no_entities _ _ Hhit).
Qed.

End EvidenceFacts.

(** X14: the web context of an item is the stripped concatenation of one
    block "From <page name>:" / snippet / blank line per hit that has a
    non-empty snippet, in the order of the hits; the other hits leave no
    trace, an item without usable hit has the empty context, and the
    contexts are index-aligned with the items. *)
Theorem web_context_blocks :
  forall search_results hits,
    RAGMMAgent.web_context hits
    = PyStr.strip (EvidenceFacts.cat (map EvidenceFacts.snippet_block
                                         (filter EvidenceFacts.usable hits))) /\
    RAGMMAgent.web_context hits
    = RAGMMAgent.web_context (filter EvidenceFacts.usable hits) /\
    (filter EvidenceFacts.usable hits = [] -> RAGMMAgent.web_context hits = "") /\
    List.length (RAGMMAgent.process_web_search_results search_results)
    = List.length search_results /\
    (forall i, nth_error (RAGMMAgent.process_web_search_results search_results) i
               = option_map RAGMMAgent.web_context (nth_error search_results i)).
Proof.
  intros search_results hits.
  assert (Hblocks : forall l,
             RAGMMAgent.web_context l
             = PyStr.strip (EvidenceFacts.cat (map EvidenceFacts.snippet_block
                                                  (filter EvidenceFacts.usable l)))).
  { intros l. unfold RAGMMAgent.web_context. destruct l as [|hit l]; [reflexivity|].
    now rewrite EvidenceFacts.fold_add_snippet. }
  assert (Hfilter : forall l : list dict,
             filter EvidenceFacts.usable (filter EvidenceFacts.usable l)
             = filter EvidenceFacts.usable l).
  { induction l as [|hit l IH]; simpl; [reflexivity|].
    destruct (EvidenceFacts.usable hit) eqn:Hu; simpl; [|exact IH].
    now rewrite Hu, IH. }
  split; [apply Hblocks|]. split; [|split; [|split]].
  - now rewrite (Hblocks hits), (Hblocks (filter EvidenceFacts.usable hits)), Hfilter.
  - intros Hnone. now rewrite (Hblocks hits), Hnone.
  - unfold RAGMMAgent.process_web_search_results. apply length_map.
  - intros i. unfold RAGMMAgent.process_web_search_results. apply nth_error_map.
Qed.

(** X15: the image evidence of an item whose hits carry no entity (no
    "entities" field, or an empty list) is the empty block; when the
    evidence can be built there is one block per item, index-aligned, each
    computed from the hits of its own item only. *)
Theorem image_context_blocks :
  (forall hits,
      Forall (fun r => EvidenceFacts.no_entities r = true) hits ->
      RAGMMAgent.image_context hits = Ok "") /\
  (forall search_results contexts,
      RAGMMAgent.process_image_search_results search_results = Ok contexts ->
      List.length contexts = List.length search_results /\
      forall i hits,
        nth_error search_results i = Some hits ->
        exists c, nth_error contexts i = Some c /\ RAGMMAgent.image_context hits = Ok c).
Proof.
  split.
  - intros hits Hall. unfold RAGMMAgent.image_context.
    destruct hits as [|hit hits]; [reflexivity|].
    now rewrite (EvidenceFacts.fold_no_entities _ "" Hall).
  - intros search_results contexts Hrun.
    unfold RAGMMAgent.process_image_search_results in Hrun. split.
    + exact (SearchQueryFacts.rmap_length _ _ _ Hrun).
    + intros i hits Hi. exact (SearchQueryFacts.rmap_nth _ _ _ i hits Hrun Hi).
Qed.

Lemma image_context_blocks_witness :
  RAGMMAgent.image_context [[("index", PInt 3)]; [("entities", PList [])]] = Ok "".
Proof.
  apply (proj1 image_context_blocks). repeat constructor.
Defined.

(** ** Prompt-history sanitization, again *)

Module SanitizedFacts.

Import RAGMMAgent.

(** A message as sanitization writes it: a role and a content that is
    neither a list nor a mapping. *)
Definition flat (message : dict) : Prop :=
  exists role content,
    message = [("role", role); ("content", content)] /\
    match content with
    | PList _ | PDict _ => False
    | _ => True
    end.

Lemma flatten_content_flat (content content' : pyval) :
  flatten_content content = Ok content' ->
  match content' with PList _ | PDict _ => False | _ => True end.
Proof.
  unfold flatten_content. destruct content; try (intros [= <-]; exact I).
  destruct (StructuredDataParser.texts (text_parts l)); [|discriminate].
  simpl. intros [= <-]. exact I.
Qed.

Lemma process_message_flat (acc : list dict) (message : dict) (out : list dict) :
  process_message acc message = Ok out ->
  exists l, out = (acc ++ l)%list /\ Forall flat l /\ List.length l <= 1.
Proof.
  unfold process_message.
  destruct (Py.get message "role") as [role|];
    [|intros [= <-]; exists []; rewrite app_nil_r;
      split; [reflexivity | split; [apply Forall_nil | simpl; lia]]].
  destruct (Py.get message "content") as [content|];
    [|intros [= <-]; exists []; rewrite app_nil_r;
      split; [reflexivity | split; [apply Forall_nil | simpl; lia]]].
  destruct (flatten_content content) as [content'|e] eqn:Hflat; [|discriminate].
  simpl. intros [= <-]. eexists. split; [reflexivity|]. split; [|simpl; lia].
  constructor; [|constructor]. exists role, content'. split; [reflexivity|].
  exact (flatten_content_flat content content' Hflat).
Qed.

Lemma process_history_flat (history acc out : list dict) :
  rfold process_message history acc = Ok out ->
  exists l, out = (acc ++ l)%list /\ Forall flat l /\ List.length l <= List.length history.
Proof.
  revert acc. induction history as [|m history IH]; intros acc; simpl.
  - intros [= <-]. exists []. rewrite app_nil_r.
    split; [reflexivity | split; [apply Forall_nil | simpl; lia]].
  - destruct (process_message acc m) as [acc'|e] eqn:Hm; [|discriminate]. simpl.
    intros Hrest.
    destruct (process_message_flat acc m acc' Hm) as (l1 & -> & Hl1 & Hlen1).
    destruct (IH _ Hrest) as (l2 & -> & Hl2 & Hlen2).
    exists (l1 ++ l2)%list. rewrite <- app_assoc. split; [reflexivity|].
    split; [now apply Forall_app|]. rewrite length_app. lia.
Qed.

Lemma process_flat_history (l acc : list dict) :
  Forall flat l -> rfold process_message l acc = Ok (acc ++ l)%list.
Proof.
  intros Hl. revert acc. induction Hl as [|m l (role & content & -> & Hc) _ IH];
    intros acc; simpl.
  - now rewrite app_nil_r.
  - unfold process_message at 1. cbn [Py.get String.eqb Ascii.eqb Bool.eqb].
    assert (Hflat : flatten_content content = Ok content).
    { destruct content; try reflexivity; contradiction. }
    cbn. rewrite Hflat. cbn [rbind]. rewrite IH. now rewrite <- app_assoc.
Qed.

End SanitizedFacts.

(** X16: sanitizing a sanitized history changes nothing; a sanitized
    history has at most as many messages as the history it comes from, and
    each of its messages is a role with a content that is neither a list
    nor a mapping. *)
Theorem sanitization_idempotent (message_history sanitized : list dict)
    (Hrun : RAGMMAgent._process_message_history message_history = Ok sanitized) :
  RAGMMAgent._process_message_history sanitized = Ok sanitized /\
  List.length sanitized <= List.length message_history /\
  Forall SanitizedFacts.flat sanitized.
Proof.
  unfold RAGMMAgent._process_message_history in *.
  destruct (SanitizedFacts.process_history_flat _ _ _ Hrun) as (l & -> & Hl & Hlen).
  simpl. split; [|split; assumption].
  now rewrite (SanitizedFacts.process_flat_history l [] Hl).
Qed.

Lemma sanitization_idempotent_witness :
  RAGMMAgent._process_message_history
    [ [("role", PStr "user"); ("content", PStr "{'domain': 0}")];
      [("role", PStr "assistant"); ("content", PStr "a cat")] ]
  = Ok [ [("role", PStr "user"); ("content", PStr "{'domain': 0}")];
         [("role", PStr "assistant"); ("content", PStr "a cat")] ].
Proof.
  apply (sanitization_idempotent
           [ [("role", PStr "user"); ("content", PDict [("domain", PInt 0)])];
             [("role", PStr "assistant"); ("session_id", PStr "S")];
             [("role", PStr "assistant"); ("content", PStr "a cat")] ]).
  reflexivity.
Defined.

(** ** Whole batches *)

Module RunMore.

Import Agent RAGMMAgent BatchFacts.

Lemma nth_error_combine_seq {A : Type} (xs : list A) (s n i j : nat) (x : A) :
  nth_error (combine (seq s n) xs) i = Some (j, x) ->
  j = s + i /\ nth_error xs i = Some x.
Proof.
  revert s n i. induction xs as [|y xs IH]; intros s n i; destruct n; simpl;
    try (destruct i; discriminate).
  destruct i as [|i]; simpl.
  - intros [= <- <-]. split; [lia | reflexivity].
  - intros H. apply IH in H as [-> H]. split; [lia | exact H].
Qed.

Lemma nth_error_enumerate {A : Type} (xs : list A) (i j : nat) (x : A) :
  nth_error (enumerate xs) i = Some (j, x) -> j = i /\ nth_error xs i = Some x.
Proof. intros H. now apply nth_error_combine_seq in H. Qed.

Lemma length_enumerate {A : Type} (xs : list A) :
  List.length (enumerate xs) = List.length xs.
Proof. unfold enumerate. rewrite length_combine, length_seq. apply Nat.min_id. Qed.

Lemma Forall2_nth {A B : Type} (R : A -> B -> Prop) (xs : list A) (ys : list B)
    (i : nat) (y : B) :
  Forall2 R xs ys -> nth_error ys i = Some y ->
  exists x, nth_error xs i = Some x /\ R x y.
Proof.
  intros H. revert i. induction H as [|x0 y0 xs ys Hxy _ IH]; intros i.
  - now destruct i.
  - destruct i as [|i]; simpl.
    + intros [= <-]. now exists x0.
    + apply IH.
Qed.

Section Generic.

Variable image : Type.

(** Each value a successful loop appends comes from a successful run of
    the body on the element at the same position. *)
Lemma for_each_ok {A B : Type} (body : A -> M image B) (xs : list A) (ys : list B)
    (st st' : agent image) :
  for_each body xs st = (Ok ys, st') ->
  Forall2 (fun x y => exists s s', body x s = (Ok y, s')) xs ys.
Proof.
  revert ys st st'. induction xs as [|x xs IH]; intros ys st st'; simpl.
  - unfold ret. intros [= <- _]. constructor.
  - unfold bind at 1. destruct (body x st) as [[y|e] s1] eqn:Hx; [|discriminate].
    unfold bind at 1. destruct (for_each body xs s1) as [[ys'|e] s2] eqn:Hxs;
      [|discriminate].
    unfold ret. intros [= <- _].
    constructor; [now exists st, s1 | now apply (IH ys' s1 s2)].
Qed.

(** The run ends in a raise, from every state. *)
Definition fails {A : Type} (m : M image A) : Prop :=
  forall st, exists e, fst (m st) = Raise e.

Lemma fails_lift {A : Type} (e : exn) : fails (lift (@Raise A e)).
Proof. intros st. now exists e. Qed.

Lemma fails_bind_l {A B : Type} (m : M image A) (k : A -> M image B) :
  fails m -> fails (bind m k).
Proof.
  intros Hm st. unfold bind. destruct (Hm st) as [e He].
  destruct (m st) as [[a|e'] st']; simpl in *; [discriminate | now exists e'].
Qed.

Lemma fails_bind_r {A B : Type} (m : M image A) (k : A -> M image B) :
  (forall a, fails (k a)) -> fails (bind m k).
Proof.
  intros Hk st. unfold bind. destruct (m st) as [[a|e] st']; [apply Hk | now exists e].
Qed.

Variable R : agent image -> agent image -> Prop.
Hypothesis R_refl : forall st, R st st.

Lemma preserves_bind_lift {A B : Type} (r : outcome A) (k : A -> M image B) :
  (forall a, r = Ok a -> RunFacts.preserves image R (k a)) ->
  RunFacts.preserves image R (bind (lift r) k).
Proof.
  intros Hk st. unfold bind, lift. destruct r as [a|e]; simpl.
  - now apply Hk.
  - apply R_refl.
Qed.

End Generic.

Section Cache.

Variable image : Type.
Variable C : collaborators image.

(** The session cache after the run is the one before it. *)
Definition cache_kept (st st' : agent image) : Prop :=
  session_cache image st' = session_cache image st.

Lemma cache_kept_refl (st : agent image) : cache_kept st st.
Proof. reflexivity. Qed.

Lemma cache_kept_trans (st1 st2 st3 : agent image) :
  cache_kept st1 st2 -> cache_kept st2 st3 -> cache_kept st1 st3.
Proof. unfold cache_kept. congruence. Qed.

Local Notation "'kept' m" := (RunFacts.preserves image cache_kept m)
  (at level 10, m at level 9).

Lemma kept_ret {A : Type} (a : A) : kept (ret a).
Proof. apply RunFacts.preserves_ret, cache_kept_refl. Qed.

Lemma kept_lift {A : Type} (r : outcome A) : kept (lift r).
Proof. apply RunFacts.preserves_lift, cache_kept_refl. Qed.

Lemma kept_observe (c : call image) : kept (observe image c).
Proof. intros st. reflexivity. Qed.

Lemma kept_bind {A B : Type} (m : M image A) (k : A -> M image B) :
  kept m -> (forall a, kept (k a)) -> kept (bind m k).
Proof. apply RunFacts.preserves_bind, cache_kept_trans. Qed.

Lemma kept_run_image_search (search_queries : list string) (images : list image) :
  kept (run_image_search image C search_queries images).
Proof.
  intros st. unfold run_image_search. now rewrite for_each_image_search.
Qed.

Lemma kept_run_web_search (search_queries : list string) :
  kept (run_web_search image C search_queries).
Proof.
  intros st. rewrite run_web_search_run. now destruct (probe image C) as [[|]|].
Qed.

Lemma kept_prepare_llm_prompts (queries : list string) (images : list image)
    (message_histories : list (list dict)) (ictx wctx : option (list string)) :
  kept (prepare_llm_prompts image C queries images message_histories ictx wctx).
Proof.
  unfold prepare_llm_prompts.
  apply RunFacts.preserves_for_each; [apply cache_kept_refl | apply cache_kept_trans|].
  intros [idx [q [img h]]] _. unfold prepare_prompt.
  apply kept_bind; [apply kept_lift|]. intros messages.
  apply kept_bind; [apply kept_observe|]. intros _.
  apply kept_bind; [apply kept_lift|]. intros formatted. apply kept_ret.
Qed.

End Cache.

End RunMore.

(** ** The messages handed to the generation side *)

Module PromptFacts.

Import PyStr Agent RAGMMAgent BatchFacts.

(** Follows the specification's words (the prompt assembler, steps 1 to
    5): one fixed system instruction, the sanitized history, one system
    message for each evidence block that is not empty, and the final user
    turn with an image reference and the query. To be compared with what
    [prepare_llm_prompts] hands to the chat template. *)
Definition spec_instruction : string :=
  "You are a helpful visual assistant. Answer questions about the image " ++
  "accurately and concisely based on what you can see and the provided context. " ++
  "If you don't know the answer, say 'I don't know'.".

Definition image_heading : string := "Information about what's in the image:".

Definition web_heading : string := "Additional information from the web:".

Definition spec_note (heading block : string) : list dict :=
  if String.eqb block "" then []
  else [[("role", PStr "system"); ("content", PStr (heading ++ nl ++ nl ++ block))]].

Definition spec_messages (sanitized : list dict) (image_block web_block query : string)
  : list dict :=
  ([("role", PStr "system"); ("content", PStr spec_instruction)]
   :: sanitized
   ++ spec_note image_heading image_block
   ++ spec_note web_heading web_block
   ++ [[("role", PStr "user");
        ("content", PList [PDict [("type", PStr "image")];
                           PDict [("type", PStr "text"); ("text", PStr query)]])]])%list.

(** The evidence block of item [idx], empty when there is none. *)
Definition block_at (contexts : option (list string)) (idx : nat) : string :=
  match context_at contexts idx with
  | Some c => c
  | None => ""
  end.

Lemma context_at_nonempty (contexts : option (list string)) (idx : nat) (c : string) :
  context_at contexts idx = Some c -> String.eqb c "" = false.
Proof.
  unfold context_at. destruct contexts as [l|]; [|discriminate].
  destruct (nth_error l idx) as [c0|]; [|discriminate].
  destruct (String.eqb c0 "") eqn:Hc0; [discriminate|]. now intros [= <-].
Qed.

Lemma note_at (heading : string) (contexts : option (list string)) (idx : nat)
    (messages : list dict) :
  match context_at contexts idx with
  | Some c => (messages ++ [system_message (heading ++ nl ++ nl ++ c)])%list
  | None => messages
  end = (messages ++ spec_note heading (block_at contexts idx))%list.
Proof.
  unfold block_at, spec_note.
  destruct (context_at contexts idx) as [c|] eqn:Hc.
  - now rewrite (context_at_nonempty _ _ _ Hc).
  - simpl. now rewrite app_nil_r.
Qed.

(** The message list of an item is the one the specification describes:
    nothing but the instruction, the sanitized history, the evidence notes
    and the user turn with the query given for the item. *)
Lemma build_messages_spec (idx : nat) (q : string) (h : list dict)
    (ictx wctx : option (list string)) (messages : list dict) :
  build_messages idx q h ictx wctx = Ok messages ->
  exists sanitized,
    _process_message_history h = Ok sanitized /\
    messages = spec_messages sanitized (block_at ictx idx) (block_at wctx idx) q.
Proof.
  unfold build_messages. intros H.
  assert (Hfront : exists sanitized,
             _process_message_history h = Ok sanitized /\
             match h with
             | [] => Ok [system_message system_prompt]
             | _ :: _ =>
                 let* processed_history := _process_message_history h in
                 Ok ([system_message system_prompt] ++ processed_history)%list
             end = Ok (system_message system_prompt :: sanitized)).
  { destruct h as [|m h]; [now exists []|].
    destruct (_process_message_history (m :: h)) as [sanitized|e] eqn:Hs.
    - now exists sanitized.
    - simpl in H. discriminate. }
  destruct Hfront as (sanitized & Hs & Hfront). rewrite Hfront in H.
  cbn [rbind] in H. exists sanitized. split; [exact Hs|].
  rewrite (note_at image_heading), (note_at web_heading) in H.
  injection H as <-. unfold spec_messages. cbn [app].
  now rewrite <- !app_assoc.
Qed.

(** *** Where a text occurs *)

(** An occurrence of [p] in [h ++ c] that starts inside [h]. *)
Fixpoint starts_in (h c p : string) : bool :=
  match h with
  | EmptyString => false
  | String a h' => startswith (h ++ c) p || starts_in h' c p
  end.

Lemma contains_app (h c p : string) :
  contains (h ++ c) p = starts_in h c p || contains c p.
Proof.
  induction h as [|a h IH]; [reflexivity|].
  cbn [append contains starts_in]. rewrite IH. now rewrite orb_assoc.
Qed.

Lemma startswith_app_l (t p q : string) :
  startswith t (p ++ q) = true -> startswith t p = true.
Proof.
  revert t. induction p as [|a p IH]; intros t; [reflexivity|].
  destruct t as [|b t]; cbn [append startswith]; [discriminate|].
  intros H. apply andb_true_iff in H as [Hab H].
  now rewrite Hab, (IH t H).
Qed.

Lemma starts_in_app_l (h c p q : string) :
  starts_in h c (p ++ q) = true -> starts_in h c p = true.
Proof.
  induction h as [|a h IH]; [discriminate|].
  cbn [starts_in]. intros H. apply orb_true_iff in H as [H|H]; apply orb_true_iff.
  - left. now apply (startswith_app_l _ p q).
  - right. now apply IH.
Qed.

Lemma contains_app_l (t p q : string) :
  contains t (p ++ q) = true -> contains t p = true.
Proof.
  induction t as [|b t IH]; cbn [contains]; intros H;
    apply orb_true_iff in H as [H|H]; apply orb_true_iff.
  - left. now apply (startswith_app_l _ p q).
  - discriminate.
  - left. now apply (startswith_app_l _ p q).
  - right. now apply IH.
Qed.

Lemma startswith_length (t p : string) :
  startswith t p = true -> String.length p <= String.length t.
Proof.
  revert t. induction p as [|a p IH]; intros t; [simpl; lia|].
  destruct t as [|b t]; cbn [startswith]; [discriminate|].
  intros H. apply andb_true_iff in H as [_ H]. apply IH in H. simpl. lia.
Qed.

(** A text does not contain a longer one. *)
Lemma contains_longer (t p : string) :
  String.length t < String.length p -> contains t p = false.
Proof.
  induction t as [|b t IH]; cbn [contains]; intros Hlen.
  - destruct (startswith "" p) eqn:H; [|reflexivity].
    apply startswith_length in H. lia.
  - destruct (startswith (String b t) p) eqn:H.
    + apply startswith_length in H. lia.
    + apply IH. simpl in Hlen. lia.
Qed.

(** No domain prefix occurs in the texts the agent writes itself: the
    instruction and the headings of the evidence notes, up to where the
    evidence block begins. *)
Definition own_text_free (p : string) : Prop :=
  contains spec_instruction p = false /\
  forall block,
    starts_in (image_heading ++ nl ++ nl) block p = false /\
    starts_in (web_heading ++ nl ++ nl) block p = false.

Lemma prefixes_own_text_free : Forall own_text_free (map snd domain_prefixes).
Proof.
  repeat (constructor;
          [split; [vm_compute; reflexivity
                  | intros block; split; vm_compute; reflexivity]|]).
  constructor.
Qed.

Lemma prefix_listed (d : string) :
  prefix_of domain_prefixes d <> "" ->
  In (prefix_of domain_prefixes d) (map snd domain_prefixes).
Proof.
  intros Hne.
  destruct (SearchQueryFacts.prefix_of_cases domain_prefixes d) as [Hin|[Hp _]];
    [|contradiction].
  now apply (in_map snd) in Hin.
Qed.

(** The enhanced query in the texts of a prompt: never in the final user
    turn or in the instruction, and in an evidence note only where the
    evidence block itself holds it. *)
Lemma enhanced_occurrences (q d : string) :
  prefix_of domain_prefixes d <> "" ->
  contains q (prefix_of domain_prefixes d ++ q) = false /\
  contains spec_instruction (prefix_of domain_prefixes d ++ q) = false /\
  forall block,
    contains (image_heading ++ nl ++ nl ++ block) (prefix_of domain_prefixes d ++ q)
    = contains block (prefix_of domain_prefixes d ++ q) /\
    contains (web_heading ++ nl ++ nl ++ block) (prefix_of domain_prefixes d ++ q)
    = contains block (prefix_of domain_prefixes d ++ q).
Proof.
  intros Hne.
  pose proof prefixes_own_text_free as Hfree. rewrite Forall_forall in Hfree.
  destruct (Hfree _ (prefix_listed d Hne)) as [Hinstr Hhead].
  set (p := prefix_of domain_prefixes d) in *.
  assert (Hno : forall h c, starts_in h c p = false -> starts_in h c (p ++ q) = false).
  { intros h c H. destruct (starts_in h c (p ++ q)) eqn:E; [|reflexivity].
    apply starts_in_app_l in E. congruence. }
  split; [|split].
  - apply contains_longer. rewrite QueryFacts.append_length.
    destruct p; [contradiction | simpl; lia].
  - destruct (contains spec_instruction (p ++ q)) eqn:E; [|reflexivity].
    apply contains_app_l in E. congruence.
  - intros block. destruct (Hhead block) as [Himage Hweb]. split.
    + change (image_heading ++ nl ++ nl ++ block)
        with ((image_heading ++ nl ++ nl) ++ block).
      now rewrite contains_app, (Hno _ _ Himage).
    + change (web_heading ++ nl ++ nl ++ block)
        with ((web_heading ++ nl ++ nl) ++ block).
      now rewrite contains_app, (Hno _ _ Hweb).
Qed.

(** *** Runs of the prompt preparation *)

Lemma nth_error_enumerate_some {A : Type} (xs : list A) (i : nat) (x : A) :
  nth_error xs i = Some x -> nth_error (enumerate xs) i = Some (i, x).
Proof.
  intros Hx. unfold enumerate.
  apply SearchQueryFacts.nth_error_combine_some; [|exact Hx].
  assert (Hi : i < List.length xs) by (apply nth_error_Some; congruence).
  rewrite (nth_error_nth' _ 0) by (now rewrite length_seq).
  now rewrite seq_nth.
Qed.

(** A call to the retrieval side; the text of a web search is the query of
    its item behind a domain prefix. *)
Definition retrieval_call {image : Type} (queries : list string) (c : call image) : Prop :=
  match c with
  | CallImageSearch _ _ | CallWebCapability => True
  | CallWebSearch i s =>
      exists q d, nth_error queries i = Some q /\ s = prefix_of domain_prefixes d ++ q
  | CallChatTemplate _ | CallGenerate _ => False
  end.

Section Prompts.

Variable image : Type.
Variable C : collaborators image.

(** The prompt text is the rendering of the message list. *)
Definition rendered (messages : list dict) (p : prompt image) : Prop :=
  apply_chat_template image C messages = Ok (prompt_text image p).

Lemma prepare_prompt_run (ictx wctx : option (list string)) (idx : nat) (q : string)
    (img : image) (h : list dict) (st : agent image) :
  prepare_prompt image C ictx wctx (idx, (q, (img, h))) st
  = match build_messages idx q h ictx wctx with
    | Raise e => (Raise e, st)
    | Ok messages =>
        (match apply_chat_template image C messages with
         | Ok formatted_prompt =>
             Ok {| prompt_text := formatted_prompt; multi_modal_image := img |}
         | Raise e => Raise e
         end, observed image st (CallChatTemplate messages))
    end.
Proof.
  unfold prepare_prompt, bind, lift, observe, ret, observed.
  destruct (build_messages idx q h ictx wctx) as [messages|e]; [|reflexivity].
  now destruct (apply_chat_template image C messages).
Qed.

Lemma for_each_cons {A B : Type} (body : A -> M image B) (x : A) (xs : list A)
    (st : agent image) :
  for_each body (x :: xs) st
  = match body x st with
    | (Ok y, st1) =>
        match for_each body xs st1 with
        | (Ok ys, st2) => (Ok (y :: ys), st2)
        | (Raise e, st2) => (Raise e, st2)
        end
    | (Raise e, st1) => (Raise e, st1)
    end.
Proof.
  cbn [for_each]. unfold bind, ret.
  destruct (body x st) as [[y|e] st1]; [|reflexivity].
  now destruct (for_each body xs st1) as [[ys|e] st2].
Qed.

(** The chat-template calls of the loop of [prepare_llm_prompts], whether
    it returns or raises: one per item, in item order, up to the item it
    stops at; all of them when it returns. *)
Lemma for_each_prepare_prompt (ictx wctx : option (list string))
    (items : list (nat * (string * (image * list dict)))) (st : agent image) :
  exists handed,
    snd (for_each (prepare_prompt image C ictx wctx) items st)
    = observed_all image st (map CallChatTemplate handed) /\
    (forall k messages,
        nth_error handed k = Some messages ->
        exists idx q img h,
          nth_error items k = Some (idx, (q, (img, h))) /\
          build_messages idx q h ictx wctx = Ok messages) /\
    (forall prompts,
        fst (for_each (prepare_prompt image C ictx wctx) items st) = Ok prompts ->
        List.length handed = List.length items /\ Forall2 rendered handed prompts).
Proof.
  revert st. induction items as [|[idx [q [img h]]] items IH]; intros st.
  - exists []. cbn [for_each]. unfold ret. cbn [fst snd map].
    rewrite observed_all_nil. split; [reflexivity|]. split.
    + intros k messages H. now destruct k.
    + intros prompts [= <-]. split; [reflexivity | constructor].
  - rewrite for_each_cons, prepare_prompt_run.
    destruct (build_messages idx q h ictx wctx) as [messages|e] eqn:Hm.
    + destruct (IH (observed image st (CallChatTemplate messages)))
        as (handed & Hsnd & Hnth & Hok).
      destruct (apply_chat_template image C messages) as [formatted|e] eqn:Hf.
      * exists (messages :: handed).
        destruct (for_each (prepare_prompt image C ictx wctx) items
                    (observed image st (CallChatTemplate messages)))
          as [[prompts|e] st2]; cbn [fst snd] in *.
        -- split; [now rewrite Hsnd, observed_all_cons|]. split.
           ++ intros [|k] ms; cbn [nth_error].
              ** intros [= <-]. now exists idx, q, img, h.
              ** apply Hnth.
           ++ intros ps [= <-]. destruct (Hok prompts eq_refl) as [Hlen Hall].
              split; [simpl; now rewrite Hlen|]. constructor; [exact Hf | exact Hall].
        -- split; [now rewrite Hsnd, observed_all_cons|]. split.
           ++ intros [|k] ms; cbn [nth_error].
              ** intros [= <-]. now exists idx, q, img, h.
              ** apply Hnth.
           ++ discriminate.
      * exists [messages]. cbn [fst snd map]. split; [reflexivity|]. split.
        -- intros [|k] ms; cbn [nth_error].
           ++ intros [= <-]. now exists idx, q, img, h.
           ++ now destruct k.
        -- discriminate.
    + exists []. cbn [fst snd map]. rewrite observed_all_nil.
      split; [reflexivity|]. split; [intros k ms H; now destruct k | discriminate].
Qed.

(** Steps 6 to 8 of a batch, on the prepared prompts. *)
Definition generation_steps (queries : list string)
    (message_histories : list (list dict)) (prompts : list (prompt image))
  : M image (list string) :=
  bind (lift (generate image C prompts)) (fun outputs =>
  bind (lift (rmap first_text outputs)) (fun responses =>
  bind (_update_session_cache image queries responses message_histories) (fun _ =>
  ret responses))).

Lemma generation_steps_calls (queries : list string)
    (message_histories : list (list dict)) (prompts : list (prompt image))
    (st : agent image) :
  calls image (snd (generation_steps queries message_histories prompts st))
  = calls image st.
Proof.
  unfold generation_steps. unfold bind at 1. unfold lift at 1.
  destruct (generate image C prompts) as [outputs|e]; [|reflexivity].
  unfold bind at 1. unfold lift at 1.
  destruct (rmap first_text outputs) as [responses|e]; [|reflexivity].
  unfold bind at 1.
  destruct (UpdateFacts.update_session_cache_grows image queries responses
              message_histories st) as (Hcalls & _).
  destruct (_update_session_cache image queries responses message_histories st)
    as [[u|e] s3]; exact Hcalls.
Qed.

Lemma answer_from_results_eq (queries : list string) (images : list image)
    (message_histories : list (list dict)) (isr wsr : list (list dict))
    (st : agent image) :
  answer_from_results image C queries images message_histories isr wsr st
  = match process_image_search_results isr with
    | Raise e => (Raise e, st)
    | Ok image_contexts =>
        match prepare_llm_prompts image C queries images message_histories
                (Some image_contexts) (CallFacts.web_contexts_of wsr) st with
        | (Raise e, st1) => (Raise e, st1)
        | (Ok prompts, st1) =>
            generation_steps queries message_histories prompts
              (observed image st1 (CallGenerate prompts))
        end
    end.
Proof.
  unfold answer_from_results. fold (CallFacts.web_contexts_of wsr).
  unfold bind at 1. unfold lift at 1.
  destruct (process_image_search_results isr) as [image_contexts|e]; [|reflexivity].
  unfold bind at 1.
  destruct (prepare_llm_prompts image C queries images message_histories
              (Some image_contexts) (CallFacts.web_contexts_of wsr) st)
    as [[prompts|e] st1]; reflexivity.
Qed.

(** Steps 4 to 8 of a batch: the calls made, whether the run returns or
    raises. *)
Lemma answer_from_results_run (queries : list string) (images : list image)
    (message_histories : list (list dict)) (isr wsr : list (list dict))
    (st : agent image) :
  exists handed generation,
    calls image (snd (answer_from_results image C queries images message_histories
                        isr wsr st))
    = (calls image st ++ map CallChatTemplate handed ++ generation)%list /\
    (forall k messages,
        nth_error handed k = Some messages ->
        exists image_contexts q img h,
          process_image_search_results isr = Ok image_contexts /\
          nth_error queries k = Some q /\ nth_error images k = Some img /\
          nth_error message_histories k = Some h /\
          build_messages k q h (Some image_contexts) (CallFacts.web_contexts_of wsr)
          = Ok messages) /\
    (generation = [] \/
     exists prompts,
       generation = [CallGenerate prompts] /\
       List.length handed
       = Nat.min (List.length queries)
                 (Nat.min (List.length images) (List.length message_histories)) /\
       Forall2 rendered handed prompts) /\
    (forall responses,
        fst (answer_from_results image C queries images message_histories isr wsr st)
        = Ok responses ->
        generation <> []).
Proof.
  rewrite answer_from_results_eq.
  destruct (process_image_search_results isr) as [image_contexts|e].
  2:{ exists [], []. cbn [fst snd map app]. rewrite app_nil_r.
      split; [reflexivity|]. split; [intros k ms H; now destruct k|].
      split; [now left | intros responses H; discriminate H]. }
  unfold prepare_llm_prompts.
  destruct (for_each_prepare_prompt (Some image_contexts) (CallFacts.web_contexts_of wsr)
              (enumerate (combine queries (combine images message_histories))) st)
    as (handed & Hsnd & Hnth & Hok).
  assert (Hitem : forall k messages,
             nth_error handed k = Some messages ->
             exists ictxs q img h,
               Ok image_contexts = Ok ictxs /\
               nth_error queries k = Some q /\ nth_error images k = Some img /\
               nth_error message_histories k = Some h /\
               build_messages k q h (Some ictxs) (CallFacts.web_contexts_of wsr)
               = Ok messages).
  { intros k messages Hk.
    destruct (Hnth k messages Hk) as (idx & q & img & h & Hin & Hm).
    apply RunMore.nth_error_enumerate in Hin as [-> Hin].
    apply nth_error_combine in Hin as [Hq Hrest].
    apply nth_error_combine in Hrest as [Himg Hh].
    now exists image_contexts, q, img, h. }
  destruct (for_each (prepare_prompt image C (Some image_contexts)
                        (CallFacts.web_contexts_of wsr))
              (enumerate (combine queries (combine images message_histories))) st)
    as [[prompts|e] st1]; cbn [fst snd] in Hsnd, Hok.
  2:{ exists handed, []. cbn [fst snd]. rewrite app_nil_r, Hsnd.
      split; [reflexivity|]. split; [exact Hitem|].
      split; [now left | intros responses H; discriminate H]. }
  exists handed, [CallGenerate prompts].
  destruct (Hok prompts eq_refl) as [Hlen Hall].
  split; [|split; [exact Hitem|split]].
  - rewrite generation_steps_calls, Hsnd. cbn [observed observed_all calls].
    now rewrite <- app_assoc.
  - right. exists prompts. split; [reflexivity|]. split; [|exact Hall].
    rewrite Hlen, RunMore.length_enumerate. now rewrite !length_combine.
  - intros _ _ H. discriminate H.
Qed.

(** The search query of an item is its query behind a domain prefix. *)
Lemma search_query_at (queries : list string) (images : list image)
    (message_histories : list (list dict)) (search_queries : list string)
    (i : nat) (q : string) (img : image) (h : list dict) :
  prepare_search_queries queries images message_histories = Ok search_queries ->
  nth_error queries i = Some q -> nth_error images i = Some img ->
  nth_error message_histories i = Some h ->
  exists d, nth_error search_queries i = Some (prefix_of domain_prefixes d ++ q).
Proof.
  unfold prepare_search_queries, extract_session_info. intros H Hq Himg Hh.
  destruct (rmap history_session_info message_histories) as [infos|e] eqn:Hinfos;
    [|discriminate].
  simpl in H. injection H as <-.
  destruct (SearchQueryFacts.rmap_nth _ _ _ i h Hinfos Hh) as (info & Hinfo & _).
  rewrite nth_error_map.
  rewrite (SearchQueryFacts.nth_error_combine_some queries (combine images infos) i
             q (img, info) Hq
             (SearchQueryFacts.nth_error_combine_some images infos i img info Himg Hinfo)).
  eexists. reflexivity.
Qed.

(** The evidence blocks an item's prompt is built with: what the result
    normalizer makes of the hits of its own searches. *)
Lemma image_block_at (search_queries : list string) (images : list image)
    (image_contexts : list string) (i : nat) (s : string) (img : image) :
  process_image_search_results
    (map (image_hits image C) (enumerate (combine search_queries images)))
  = Ok image_contexts ->
  nth_error search_queries i = Some s -> nth_error images i = Some img ->
  image_context (recovered (image_search image C i img))
  = Ok (block_at (Some image_contexts) i).
Proof.
  unfold process_image_search_results. intros Hrun Hs Himg.
  pose proof (nth_error_enumerate_some _ i _
                (SearchQueryFacts.nth_error_combine_some _ _ i s img Hs Himg)) as Hitem.
  apply (map_nth_error (image_hits image C)) in Hitem.
  destruct (SearchQueryFacts.rmap_nth _ _ _ i _ Hrun Hitem) as (c & Hc & Hblock).
  unfold image_hits in Hblock. cbn [fst snd] in Hblock. rewrite Hblock. f_equal.
  unfold block_at, context_at. rewrite Hc.
  destruct (String.eqb_spec c ""); congruence.
Qed.

Lemma web_block_at (search_queries : list string) (i : nat) (s : string) :
  nth_error search_queries i = Some s ->
  block_at (CallFacts.web_contexts_of
              (map (web_hits image C) (enumerate search_queries))) i
  = web_context (recovered (web_search image C i s)).
Proof.
  intros Hs. pose proof (nth_error_enumerate_some _ i _ Hs) as Hitem.
  apply (map_nth_error (web_hits image C)) in Hitem.
  unfold CallFacts.web_contexts_of.
  destruct (map (web_hits image C) (enumerate search_queries)) as [|hits0 rest] eqn:Hmap;
    [now destruct i|].
  unfold block_at, context_at, process_web_search_results.
  rewrite (map_nth_error web_context _ _ Hitem).
  unfold web_hits. cbn [fst snd].
  destruct (String.eqb_spec (web_context (recovered (web_search image C i s))) "");
    congruence.
Qed.

End Prompts.

End PromptFacts.

(** C7: what a batch hands to the generation side. The calls of a run are
    the retrieval calls, then one chat-template call per item in item
    order, then the generation call. The message list of item i is the
    fixed instruction, the sanitized history of item i, the notes of the
    evidence found for item i and, last, the user turn with an image
    reference and the query of item i exactly as it was given. The
    enhanced query of the item (its domain prefix followed by the query)
    is the text of the item's web search and enters the prompt in no other
    way than through what that search returned; where the prefix is not
    empty it is neither the text of the final user turn nor contained in
    it, nor in the instruction, and it occurs in an evidence note only
    where the evidence block itself holds it. When the generation is
    reached, and so whenever a batch with images returns, every item has
    its prompt, and the prompts generated from are the renderings of these
    message lists. *)
Theorem prompt_keeps_original_query :
  forall (image : Type) (C : Agent.collaborators image) (queries : list string)
         (images : list image) (message_histories : list (list dict))
         (st : Agent.agent image),
    let run := Agent.batch_generate_response image C queries images message_histories st in
    exists (retrieval : list (Agent.call image)) (handed : list (list dict))
           (generation : list (Agent.call image)),
      Agent.calls image (snd run)
      = (Agent.calls image st ++ retrieval
         ++ map Agent.CallChatTemplate handed ++ generation)%list /\
      Forall (PromptFacts.retrieval_call queries) retrieval /\
      (forall i messages,
          nth_error handed i = Some messages ->
          exists q img history d sanitized image_block,
            nth_error queries i = Some q /\
            nth_error images i = Some img /\
            nth_error message_histories i = Some history /\
            RAGMMAgent._process_message_history history = Ok sanitized /\
            RAGMMAgent.image_context
              (BatchFacts.recovered (Agent.image_search image C i img))
            = Ok image_block /\
            messages
            = PromptFacts.spec_messages sanitized image_block
                (match BatchFacts.probe image C with
                 | Ok true =>
                     RAGMMAgent.web_context
                       (BatchFacts.recovered
                          (Agent.web_search image C i
                             (RAGMMAgent.prefix_of RAGMMAgent.domain_prefixes d ++ q)))
                 | _ => ""
                 end) q /\
            exists front,
              messages
              = (front ++
                 [[("role", PStr "user");
                   ("content",
                    PList [PDict [("type", PStr "image")];
                           PDict [("type", PStr "text"); ("text", PStr q)]])]])%list) /\
      (generation = [] \/
       exists prompts,
         generation = [Agent.CallGenerate prompts] /\
         List.length handed
         = Nat.min (List.length queries)
                   (Nat.min (List.length images) (List.length message_histories)) /\
         Forall2 (PromptFacts.rendered image C) handed prompts) /\
      (images <> [] -> forall responses, fst run = Ok responses -> generation <> []) /\
      (forall q d,
          RAGMMAgent.prefix_of RAGMMAgent.domain_prefixes d <> "" ->
          let s := RAGMMAgent.prefix_of RAGMMAgent.domain_prefixes d ++ q in
          s <> q /\
          PyStr.contains q s = false /\
          PyStr.contains PromptFacts.spec_instruction s = false /\
          forall block,
            PyStr.contains
              ("Information about what's in the image:" ++ PyStr.nl ++ PyStr.nl ++ block) s
            = PyStr.contains block s /\
            PyStr.contains
              ("Additional information from the web:" ++ PyStr.nl ++ PyStr.nl ++ block) s
            = PyStr.contains block s).
Proof.
  intros image C queries images message_histories st run.
  assert (Htexts : forall q d,
             RAGMMAgent.prefix_of RAGMMAgent.domain_prefixes d <> "" ->
             let s := RAGMMAgent.prefix_of RAGMMAgent.domain_prefixes d ++ q in
             s <> q /\
             PyStr.contains q s = false /\
             PyStr.contains PromptFacts.spec_instruction s = false /\
             forall block,
               PyStr.contains
                 ("Information about what's in the image:" ++ PyStr.nl ++ PyStr.nl ++ block) s
               = PyStr.contains block s /\
               PyStr.contains
                 ("Additional information from the web:" ++ PyStr.nl ++ PyStr.nl ++ block) s
               = PyStr.contains block s).
  { intros q d Hne s. split.
    - exact (proj1 (QueryFacts.enhanced_differs q d Hne)).
    - exact (PromptFacts.enhanced_occurrences q d Hne). }
  assert (Hcases : images = [] \/ images <> [])
    by (destruct images; [now left | right; discriminate]).
  destruct Hcases as [Hnil|Hne].
  { subst images run. exists [], [], []. cbn [fst snd map app]. rewrite app_nil_r.
    split; [reflexivity|]. split; [constructor|].
    split; [intros i ms H; now destruct i|]. split; [now left|].
    split; [intros H; now contradiction H | exact Htexts]. }
  subst run. rewrite (BatchFacts.batch_generate_response_run image C) by exact Hne.
  unfold BatchFacts.staged_batch.
  destruct (RAGMMAgent.prepare_search_queries queries images message_histories)
    as [search_queries|e] eqn:Hprepared.
  2:{ exists [], [], []. cbn [fst snd map app]. rewrite app_nil_r.
      split; [reflexivity|]. split; [constructor|].
      split; [intros i ms H; now destruct i|]. split; [now left|].
      split; [discriminate | exact Htexts]. }
  cbv zeta.
  set (items := RAGMMAgent.enumerate (combine search_queries images)).
  assert (Himage_calls : Forall (PromptFacts.retrieval_call queries)
                           (map (BatchFacts.image_call image) items)).
  { apply Forall_forall. intros c Hc. apply in_map_iff in Hc as [item [<- _]]. exact I. }
  assert (Hweb_calls : Forall (PromptFacts.retrieval_call queries)
                         (map (BatchFacts.web_call image)
                              (RAGMMAgent.enumerate search_queries))).
  { apply Forall_forall. intros c Hc. apply in_map_iff in Hc as [[i s] [<- Hin]].
    apply BatchFacts.in_enumerate in Hin.
    destruct (QueryFacts.search_query_enhanced queries images message_histories
                search_queries i s Hprepared Hin) as (q & d & Hq & ->).
    now exists q, d. }
  assert (Hanswer : forall wsr st2 retrieval,
             Agent.calls image st2 = (Agent.calls image st ++ retrieval)%list ->
             Forall (PromptFacts.retrieval_call queries) retrieval ->
             (forall i s, nth_error search_queries i = Some s ->
                PromptFacts.block_at (CallFacts.web_contexts_of wsr) i
                = match BatchFacts.probe image C with
                  | Ok true =>
                      RAGMMAgent.web_context
                        (BatchFacts.recovered (Agent.web_search image C i s))
                  | _ => ""
                  end) ->
             let run :=
               Agent.answer_from_results image C queries images message_histories
                 (map (BatchFacts.image_hits image C) items) wsr st2 in
             exists (retrieval : list (Agent.call image)) (handed : list (list dict))
                    (generation : list (Agent.call image)),
               Agent.calls image (snd run)
               = (Agent.calls image st ++ retrieval
                  ++ map Agent.CallChatTemplate handed ++ generation)%list /\
               Forall (PromptFacts.retrieval_call queries) retrieval /\
               (forall i messages,
                   nth_error handed i = Some messages ->
                   exists q img history d sanitized image_block,
                     nth_error queries i = Some q /\
                     nth_error images i = Some img /\
                     nth_error message_histories i = Some history /\
                     RAGMMAgent._process_message_history history = Ok sanitized /\
                     RAGMMAgent.image_context
                       (BatchFacts.recovered (Agent.image_search image C i img))
                     = Ok image_block /\
                     messages
                     = PromptFacts.spec_messages sanitized image_block
                         (match BatchFacts.probe image C with
                          | Ok true =>
                              RAGMMAgent.web_context
                                (BatchFacts.recovered
                                   (Agent.web_search image C i
                                      (RAGMMAgent.prefix_of RAGMMAgent.domain_prefixes d
                                       ++ q)))
                          | _ => ""
                          end) q /\
                     exists front,
                       messages
                       = (front ++
                          [[("role", PStr "user");
                            ("content",
                             PList [PDict [("type", PStr "image")];
                                    PDict [("type", PStr "text");
                                           ("text", PStr q)]])]])%list) /\
               (generation = [] \/
                exists prompts,
                  generation = [Agent.CallGenerate prompts] /\
                  List.length handed
                  = Nat.min (List.length queries)
                            (Nat.min (List.length images) (List.length message_histories)) /\
                  Forall2 (PromptFacts.rendered image C) handed prompts) /\
               (images <> [] -> forall responses, fst run = Ok responses ->
                                generation <> [])).
  { intros wsr st2 retrieval Hst2 Hretr Hweb run.
    destruct (PromptFacts.answer_from_results_run image C queries images message_histories
                (map (BatchFacts.image_hits image C) items) wsr st2)
      as (handed & generation & Hcalls & Hitem & Hgen & Hlive).
    exists retrieval, handed, generation.
    split; [subst run; now rewrite Hcalls, Hst2, <- app_assoc|].
    split; [exact Hretr|]. split; [|split; [exact Hgen | intros _; exact Hlive]].
    intros i messages Hi.
    destruct (Hitem i messages Hi) as (ictxs & q & img & h & Hictx & Hq & Himg & Hh & Hm).
    destruct (PromptFacts.search_query_at image queries images message_histories
                search_queries i q img h Hprepared Hq Himg Hh) as (d & Hs).
    destruct (PromptFacts.build_messages_spec _ _ _ _ _ _ Hm) as (sanitized & Hsan & ->).
    exists q, img, h, d, sanitized, (PromptFacts.block_at (Some ictxs) i).
    split; [exact Hq|]. split; [exact Himg|]. split; [exact Hh|]. split; [exact Hsan|].
    split; [exact (PromptFacts.image_block_at image C search_queries images ictxs i _ img
                     Hictx Hs Himg)|].
    split; [now rewrite (Hweb i _ Hs)|].
    unfold PromptFacts.spec_messages.
    eexists. rewrite !app_comm_cons, !app_assoc. reflexivity. }
  destruct (BatchFacts.probe image C) as [[|]|e] eqn:Hprobe.
  - destruct (Hanswer (map (BatchFacts.web_hits image C)
                           (RAGMMAgent.enumerate search_queries))
                (BatchFacts.observed_all image
                   (BatchFacts.observed_all image st (map (BatchFacts.image_call image) items))
                   (Agent.CallWebCapability
                    :: map (BatchFacts.web_call image)
                         (RAGMMAgent.enumerate search_queries)))
                (map (BatchFacts.image_call image) items
                 ++ Agent.CallWebCapability
                 :: map (BatchFacts.web_call image)
                      (RAGMMAgent.enumerate search_queries))%list)
      as (retrieval & handed & generation & H).
    + cbn [BatchFacts.observed_all Agent.calls]. now rewrite <- app_assoc.
    + apply Forall_app. split; [exact Himage_calls|].
      constructor; [exact I | exact Hweb_calls].
    + intros i s Hs. exact (PromptFacts.web_block_at image C search_queries i s Hs).
    + exists retrieval, handed, generation.
      destruct H as (H1 & H2 & H3 & H4 & H5). repeat (split; [assumption|]). exact Htexts.
  - destruct (Hanswer []
                (BatchFacts.observed image
                   (BatchFacts.observed_all image st (map (BatchFacts.image_call image) items))
                   Agent.CallWebCapability)
                (map (BatchFacts.image_call image) items ++ [Agent.CallWebCapability])%list)
      as (retrieval & handed & generation & H).
    + cbn [BatchFacts.observed BatchFacts.observed_all Agent.calls].
      now rewrite <- app_assoc.
    + apply Forall_app. split; [exact Himage_calls | repeat constructor].
    + intros i s Hs. unfold PromptFacts.block_at. now destruct i.
    + exists retrieval, handed, generation.
      destruct H as (H1 & H2 & H3 & H4 & H5). repeat (split; [assumption|]). exact Htexts.
  - destruct (Hanswer []
                (BatchFacts.observed image
                   (BatchFacts.observed_all image st (map (BatchFacts.image_call image) items))
                   Agent.CallWebCapability)
                (map (BatchFacts.image_call image) items ++ [Agent.CallWebCapability])%list)
      as (retrieval & handed & generation & H).
    + cbn [BatchFacts.observed BatchFacts.observed_all Agent.calls].
      now rewrite <- app_assoc.
    + apply Forall_app. split; [exact Himage_calls | repeat constructor].
    + intros i s Hs. unfold PromptFacts.block_at. now destruct i.
    + exists retrieval, handed, generation.
      destruct H as (H1 & H2 & H3 & H4 & H5). repeat (split; [assumption|]). exact Htexts.
Qed.

(** Collaborators whose web search finds a page for the first item only,
    for closed examples. *)
Definition snippet_pipeline : Agent.collaborators unit :=
  {| Agent.image_search := fun _ _ => Ok [];
     Agent.has_search_web := Ok true;
     Agent.web_index_present := Ok true;
     Agent.web_search :=
       fun i _ =>
         Ok (if Nat.eqb i 0
             then [[("page_name", PStr "Cars"); ("page_snippet", PStr "A red car.")]]
             else []);
     Agent.apply_chat_template := fun messages => Ok (PyStr.of_Z (Z.of_nat (List.length messages)));
     Agent.generate := fun prompts => Ok (map (fun _ => ["ok"]) prompts) |}.

(** Two items, the query of the second being the enhanced query of the
    first: each prompt ends with the query of its own item. *)
Example prompts_hold_their_own_queries :
  Agent.calls unit
    (snd (Agent.batch_generate_response unit snippet_pipeline
            ["red car"; "vehicle transportation red car"] [tt; tt]
            [[];
             [[("role", PStr "user");
               ("content", PList [PDict [("type", PStr "text"); ("text", PStr "hi")]])]]]
            fresh_agent))
  = [ Agent.CallImageSearch 0 tt; Agent.CallImageSearch 1 tt; Agent.CallWebCapability;
      Agent.CallWebSearch 0 "vehicle transportation red car";
      Agent.CallWebSearch 1 "sports game vehicle transportation red car";
      Agent.CallChatTemplate
        (PromptFacts.spec_messages [] "" ("From Cars:" ++ PyStr.nl ++ "A red car.")
           "red car");
      Agent.CallChatTemplate
        (PromptFacts.spec_messages [[("role", PStr "user"); ("content", PStr "hi")]] "" ""
           "vehicle transportation red car");
      Agent.CallGenerate
        [{| Agent.prompt_text := "3"; Agent.multi_modal_image := tt |};
         {| Agent.prompt_text := "3"; Agent.multi_modal_image := tt |}] ].
Proof. reflexivity. Qed.

(** X17: when the prompts can be prepared there is one per item of the
    shortest of the three input lists, and the prompt at position i carries
    the image at position i together with the chat-template rendering of
    the messages built from the query and the history at position i. *)
Theorem prompts_aligned (image : Type) (C : Agent.collaborators image)
    (queries : list string) (images : list image) (message_histories : list (list dict))
    (image_contexts web_contexts : option (list string))
    (st st' : Agent.agent image) (prompts : list (Agent.prompt image))
    (Hrun : Agent.prepare_llm_prompts image C queries images message_histories
              image_contexts web_contexts st = (Ok prompts, st')) :
  List.length prompts
  = Nat.min (List.length queries)
            (Nat.min (List.length images) (List.length message_histories)) /\
  forall i p,
    nth_error prompts i = Some p ->
    exists q history messages,
      nth_error queries i = Some q /\
      nth_error images i = Some (Agent.multi_modal_image image p) /\
      nth_error message_histories i = Some history /\
      RAGMMAgent.build_messages i q history image_contexts web_contexts = Ok messages /\
      Agent.apply_chat_template image C messages = Ok (Agent.prompt_text image p).
Proof.
  unfold Agent.prepare_llm_prompts in Hrun.
  apply RunMore.for_each_ok in Hrun. split.
  - rewrite <- (Forall2_length Hrun), RunMore.length_enumerate.
    now rewrite !length_combine.
  - intros i p Hp.
    destruct (RunMore.Forall2_nth _ _ _ i p Hrun Hp)
      as ([idx [q [img h]]] & Hitem & s & s' & Hbody).
    apply RunMore.nth_error_enumerate in Hitem as [-> Hitem].
    apply BatchFacts.nth_error_combine in Hitem as [Hq Hrest].
    apply BatchFacts.nth_error_combine in Hrest as [Himg Hh].
    unfold Agent.prepare_prompt, Agent.bind, Agent.lift, Agent.observe, Agent.ret in Hbody.
    destruct (RAGMMAgent.build_messages i q h image_contexts web_contexts)
      as [messages|e] eqn:Hm; [|discriminate].
    destruct (Agent.apply_chat_template image C messages) as [formatted|e] eqn:Hf;
      [|discriminate].
    injection Hbody as <- _. exists q, h, messages. simpl. now repeat split.
Qed.

Lemma prompts_aligned_witness :
  exists prompts st',
    Agent.prepare_llm_prompts unit web_pipeline ["a"; "b"] [tt; tt; tt] [[]; []]
      (Some [""; "x"]) None fresh_agent = (Ok prompts, st') /\
    List.length prompts = 2.
Proof.
  destruct (Agent.prepare_llm_prompts unit web_pipeline ["a"; "b"] [tt; tt; tt] [[]; []]
              (Some [""; "x"]) None fresh_agent) as [[prompts|e] st'] eqn:Hrun;
    [|discriminate].
  exists prompts, st'. split; [reflexivity|].
  exact (proj1 (prompts_aligned unit web_pipeline ["a"; "b"] [tt; tt; tt] [[]; []]
                  (Some [""; "x"]) None fresh_agent st' prompts Hrun)).
Defined.

(** X18: a whole batch, whether it returns or raises, keeps the keys of the
    session store distinct and removes or rewrites nothing in it: every
    list the store held is a prefix of the list it holds afterwards. *)
Theorem batch_store_grows :
  forall (image : Type) (C : Agent.collaborators image) (queries : list string)
         (images : list image) (message_histories : list (list dict))
         (st : Agent.agent image),
    let st' :=
      snd (Agent.batch_generate_response image C queries images message_histories st) in
    (StoreFacts.distinct_keys (Agent.session_cache image st) ->
     StoreFacts.distinct_keys (Agent.session_cache image st')) /\
    StoreFacts.extends (Agent.session_cache image st) (Agent.session_cache image st').
Proof.
  intros image C queries images message_histories st.
  set (R := fun s s' : Agent.agent image =>
              (StoreFacts.distinct_keys (Agent.session_cache image s) ->
               StoreFacts.distinct_keys (Agent.session_cache image s')) /\
              StoreFacts.extends (Agent.session_cache image s)
                                 (Agent.session_cache image s')).
  assert (R_refl : forall s, R s s).
  { intros s. split; [tauto | apply StoreFacts.extends_refl]. }
  assert (R_trans : forall s1 s2 s3, R s1 s2 -> R s2 s3 -> R s1 s3).
  { intros s1 s2 s3 [Hd He] [Hd' He']. split; [tauto|].
    now apply (StoreFacts.extends_trans _ (Agent.session_cache image s2)). }
  assert (Hkept : forall A (m : Agent.M image A),
             RunFacts.preserves image (RunMore.cache_kept image) m ->
             RunFacts.preserves image R m).
  { intros A m Hm s. specialize (Hm s). unfold RunMore.cache_kept in Hm.
    unfold R. rewrite Hm. apply R_refl. }
  assert (Hbatch : RunFacts.preserves image R
                     (Agent.batch_generate_response image C queries images
                        message_histories)).
  { unfold Agent.batch_generate_response.
    destruct images as [|img0 imgs]; [apply RunFacts.preserves_ret, R_refl|].
    apply (RunFacts.preserves_bind image R R_trans);
      [apply RunFacts.preserves_lift, R_refl|]. intros search_queries.
    apply (RunFacts.preserves_bind image R R_trans);
      [apply Hkept, RunMore.kept_run_image_search|]. intros image_search_results.
    apply (RunFacts.preserves_bind image R R_trans);
      [apply Hkept, RunMore.kept_run_web_search|]. intros web_search_results.
    unfold Agent.answer_from_results.
    apply (RunFacts.preserves_bind image R R_trans);
      [apply RunFacts.preserves_lift, R_refl|]. intros image_contexts.
    apply (RunFacts.preserves_bind image R R_trans);
      [apply Hkept, RunMore.kept_prepare_llm_prompts|]. intros prompts.
    apply (RunFacts.preserves_bind image R R_trans);
      [apply Hkept, RunMore.kept_observe|]. intros _.
    apply (RunFacts.preserves_bind image R R_trans);
      [apply RunFacts.preserves_lift, R_refl|]. intros outputs.
    apply (RunFacts.preserves_bind image R R_trans);
      [apply RunFacts.preserves_lift, R_refl|]. intros responses.
    apply (RunFacts.preserves_bind image R R_trans);
      [|intros _; apply RunFacts.preserves_ret, R_refl].
    intros s.
    destruct (UpdateFacts.update_session_cache_grows image queries responses
                message_histories s) as (_ & Hd & He).
    now split. }
  exact (Hbatch st).
Qed.

(** X19: when the generation engine raises, the batch raises and the
    session store is left as it was: nothing is recorded for a batch
    without answers. *)
Theorem generation_failure_records_nothing (image : Type)
    (C : Agent.collaborators image)
    (Hgenerate : forall prompts, exists e, Agent.generate image C prompts = Raise e)
    (queries : list string) (images : list image)
    (message_histories : list (list dict)) (st : Agent.agent image)
    (Himages : images <> []) :
  (exists e,
      fst (Agent.batch_generate_response image C queries images message_histories st)
      = Raise e) /\
  Agent.session_cache image
    (snd (Agent.batch_generate_response image C queries images message_histories st))
  = Agent.session_cache image st.
Proof.
  destruct images as [|img0 imgs]; [contradiction|]. split.
  - assert (Hfails : RunMore.fails image
                       (Agent.batch_generate_response image C queries (img0 :: imgs)
                          message_histories)).
    { unfold Agent.batch_generate_response.
      apply RunMore.fails_bind_r. intros search_queries.
      apply RunMore.fails_bind_r. intros isr.
      apply RunMore.fails_bind_r. intros wsr.
      unfold Agent.answer_from_results.
      apply RunMore.fails_bind_r. intros image_contexts.
      apply RunMore.fails_bind_r. intros prompts.
      apply RunMore.fails_bind_r. intros _.
      apply RunMore.fails_bind_l.
      destruct (Hgenerate prompts) as [e ->]. apply RunMore.fails_lift. }
    exact (Hfails st).
  - assert (Hbatch : RunFacts.preserves image (RunMore.cache_kept image)
                       (Agent.batch_generate_response image C queries (img0 :: imgs)
                          message_histories)).
    { unfold Agent.batch_generate_response.
      apply RunMore.kept_bind; [apply RunMore.kept_lift|]. intros search_queries.
      apply RunMore.kept_bind; [apply RunMore.kept_run_image_search|]. intros isr.
      apply RunMore.kept_bind; [apply RunMore.kept_run_web_search|]. intros wsr.
      unfold Agent.answer_from_results.
      apply RunMore.kept_bind; [apply RunMore.kept_lift|]. intros image_contexts.
      apply RunMore.kept_bind; [apply RunMore.kept_prepare_llm_prompts|]. intros prompts.
      apply RunMore.kept_bind; [apply RunMore.kept_observe|]. intros _.
      apply (RunMore.preserves_bind_lift image _ (RunMore.cache_kept_refl image)).
      intros outputs Hout. destruct (Hgenerate prompts) as [e He]. congruence. }
    exact (Hbatch st).
Qed.

(** Collaborators whose engine is down, for closed examples. *)
Definition engine_down : Agent.collaborators unit :=
  {| Agent.image_search := fun _ _ => Ok [];
     Agent.has_search_web := Ok false;
     Agent.web_index_present := Ok false;
     Agent.web_search := fun _ _ => Ok [];
     Agent.apply_chat_template := fun _ => Ok "prompt";
     Agent.generate := fun _ => Raise (CollaboratorError "engine") |}.

Lemma generation_failure_records_nothing_witness :
  Agent.session_cache unit
    (snd (Agent.batch_generate_response unit engine_down ["q"] [tt]
            [[[("role", PStr "user"); ("session_id", PStr "S")]]] fresh_agent))
  = [].
Proof.
  apply (proj2 (generation_failure_records_nothing unit engine_down
                  (fun _ => ex_intro _ (CollaboratorError "engine") eq_refl)
                  ["q"] [tt] [[[("role", PStr "user"); ("session_id", PStr "S")]]]
                  fresh_agent ltac:(discriminate))).
Defined.

Module OrderFacts.

Import Agent.

(** A call that is neither an image search nor the capability probe. *)
Definition later_call {image : Type} (c : call image) : Prop :=
  match c with
  | CallImageSearch _ _ | CallWebCapability => False
  | _ => True
  end.

(** A call to the retrieval side: a search or the capability probe. *)
Definition retrieval_call {image : Type} (c : call image) : Prop :=
  match c with
  | CallChatTemplate _ | CallGenerate _ => False
  | _ => True
  end.

Lemma prepared_length {image : Type} (queries : list string) (images : list image)
    (message_histories : list (list dict)) (search_queries : list string) :
  RAGMMAgent.prepare_search_queries queries images message_histories = Ok search_queries ->
  List.length search_queries <= List.length images.
Proof.
  unfold RAGMMAgent.prepare_search_queries. intros H.
  destruct (RAGMMAgent.extract_session_info message_histories) as [infos|e];
    [|discriminate].
  simpl in H. injection H as <-. rewrite length_map, !length_combine. lia.
Qed.

End OrderFacts.

(** X20: a batch whose search queries can be prepared first searches the
    image of every item, once each and in the order of the items, then
    probes the web capability exactly once; every later call is a web
    search, a chat-template rendering or the generation. *)
Theorem batch_call_order (image : Type) (C : Agent.collaborators image)
    (queries : list string) (images : list image) (message_histories : list (list dict))
    (search_queries : list string) (st : Agent.agent image)
    (Himages : images <> [])
    (Hprepared : RAGMMAgent.prepare_search_queries queries images message_histories
                 = Ok search_queries) :
  exists rest,
    Agent.calls image
      (snd (Agent.batch_generate_response image C queries images message_histories st))
    = (Agent.calls image st
       ++ map (BatchFacts.image_call image)
              (RAGMMAgent.enumerate (combine search_queries images))
       ++ Agent.CallWebCapability :: rest)%list /\
    Forall OrderFacts.later_call rest /\
    List.length (map (BatchFacts.image_call image)
                     (RAGMMAgent.enumerate (combine search_queries images)))
    = List.length search_queries.
Proof.
  rewrite BatchFacts.batch_generate_response_run by exact Himages.
  unfold BatchFacts.staged_batch. rewrite Hprepared.
  assert (Hlen : List.length (map (BatchFacts.image_call image)
                                  (RAGMMAgent.enumerate (combine search_queries images)))
                 = List.length search_queries).
  { rewrite length_map, RunMore.length_enumerate, length_combine.
    pose proof (OrderFacts.prepared_length _ _ _ _ Hprepared). lia. }
  assert (Hanswer : forall isr wsr s,
             CallFacts.only_calls image OrderFacts.later_call s
               (snd (Agent.answer_from_results image C queries images message_histories
                       isr wsr s))).
  { intros isr wsr s.
    apply (CallFacts.safe_answer_from_results image C OrderFacts.later_call);
      intros; exact I. }
  cbv zeta. destruct (BatchFacts.probe image C) as [[|]|e].
  - match goal with
    | |- context [Agent.answer_from_results image C _ _ _ ?isr ?wsr ?s] =>
        destruct (Hanswer isr wsr s) as (new & Hcalls & Hnew)
    end.
    exists (map (BatchFacts.web_call image) (RAGMMAgent.enumerate search_queries)
            ++ new)%list.
    split; [|split; [|exact Hlen]].
    + rewrite Hcalls. simpl. now rewrite <- !app_assoc.
    + apply Forall_app. split; [|exact Hnew].
      apply Forall_forall. intros c Hc. apply in_map_iff in Hc as [[i q] [<- _]].
      exact I.
  - match goal with
    | |- context [Agent.answer_from_results image C _ _ _ ?isr ?wsr ?s] =>
        destruct (Hanswer isr wsr s) as (new & Hcalls & Hnew)
    end.
    exists new. split; [|split; [exact Hnew | exact Hlen]].
    rewrite Hcalls. simpl. now rewrite <- !app_assoc.
  - match goal with
    | |- context [Agent.answer_from_results image C _ _ _ ?isr ?wsr ?s] =>
        destruct (Hanswer isr wsr s) as (new & Hcalls & Hnew)
    end.
    exists new. split; [|split; [exact Hnew | exact Hlen]].
    rewrite Hcalls. simpl. now rewrite <- !app_assoc.
Qed.

Lemma batch_call_order_witness :
  exists rest,
    Agent.calls unit
      (snd (Agent.batch_generate_response unit web_pipeline ["a"; "b"] [tt; tt]
              [[]; []] fresh_agent))
    = ([] ++ [Agent.CallImageSearch 0 tt; Agent.CallImageSearch 1 tt]
          ++ Agent.CallWebCapability :: rest)%list /\
    Forall OrderFacts.later_call rest.
Proof.
  destruct (batch_call_order unit web_pipeline ["a"; "b"] [tt; tt] [[]; []]
              ["a"; "b"] fresh_agent ltac:(discriminate) eq_refl)
    as (rest & Hcalls & Hrest & _).
  exists rest. split; [exact Hcalls | exact Hrest].
Defined.

(** X21: when the image evidence cannot be built (a hit holds an entity
    that is no mapping, attributes that are no mapping, or a record a
    formatter fails on), the whole batch raises that exception after the
    searches: no prompt is rendered, nothing is generated and the session
    store is left as it was. *)
Theorem evidence_failure_aborts (image : Type) (C : Agent.collaborators image)
    (queries : list string) (images : list image) (message_histories : list (list dict))
    (search_queries : list string) (e : exn) (st : Agent.agent image)
    (Himages : images <> [])
    (Hprepared : RAGMMAgent.prepare_search_queries queries images message_histories
                 = Ok search_queries)
    (Hevidence : RAGMMAgent.process_image_search_results
                   (map (BatchFacts.image_hits image C)
                        (RAGMMAgent.enumerate (combine search_queries images)))
                 = Raise e) :
  fst (Agent.batch_generate_response image C queries images message_histories st)
  = Raise e /\
  Agent.session_cache image
    (snd (Agent.batch_generate_response image C queries images message_histories st))
  = Agent.session_cache image st /\
  exists made,
    Agent.calls image
      (snd (Agent.batch_generate_response image C queries images message_histories st))
    = (Agent.calls image st ++ made)%list /\
    Forall OrderFacts.retrieval_call made.
Proof.
  rewrite BatchFacts.batch_generate_response_run by exact Himages.
  unfold BatchFacts.staged_batch. rewrite Hprepared. cbv zeta.
  unfold Agent.answer_from_results, Agent.bind, Agent.lift. rewrite Hevidence.
  assert (Himage : Forall (@OrderFacts.retrieval_call image)
                     (map (BatchFacts.image_call image)
                          (RAGMMAgent.enumerate (combine search_queries images)))).
  { apply Forall_forall. intros c Hc. apply in_map_iff in Hc as [item [<- _]]. exact I. }
  destruct (BatchFacts.probe image C) as [[|]|e0]; cbn [fst snd];
    (split; [reflexivity|]; split; [reflexivity|]).
  - eexists. split; [simpl; rewrite <- app_assoc; reflexivity|].
    apply Forall_app. split; [exact Himage|]. constructor; [exact I|].
    apply Forall_forall. intros c Hc. apply in_map_iff in Hc as [[i q] [<- _]]. exact I.
  - eexists. split; [simpl; rewrite <- app_assoc; reflexivity|].
    apply Forall_app. split; [exact Himage | repeat constructor].
  - eexists. split; [simpl; rewrite <- app_assoc; reflexivity|].
    apply Forall_app. split; [exact Himage | repeat constructor].
Qed.

(** Collaborators whose image search returns a hit with a malformed
    entity, for closed examples. *)
Definition malformed_hits : Agent.collaborators unit :=
  {| Agent.image_search := fun _ _ => Ok [[("entities", PList [PStr "oops"])]];
     Agent.has_search_web := Ok false;
     Agent.web_index_present := Ok false;
     Agent.web_search := fun _ _ => Ok [];
     Agent.apply_chat_template := fun _ => Ok "prompt";
     Agent.generate := fun prompts => Ok (map (fun _ => ["ok"]) prompts) |}.

Lemma evidence_failure_aborts_witness :
  fst (Agent.batch_generate_response unit malformed_hits ["q"] [tt] [[]] fresh_agent)
  = Raise AttributeError.
Proof.
  apply (proj1 (evidence_failure_aborts unit malformed_hits ["q"] [tt] [[]] ["q"]
                  AttributeError fresh_agent ltac:(discriminate) eq_refl eq_refl)).
Defined.

(** ** What the marker stripping leaves *)

Module MarkerFacts.

Import PyStr.

(** The pattern made of twice the character [c]. *)
Definition twice (c : ascii) : string := String c (String c EmptyString).

Lemma startswith_twice (c x : ascii) (s : string) :
  startswith (String x s) (twice c)
  = Ascii.eqb c x && startswith s (String c EmptyString).
Proof. reflexivity. Qed.

Lemma startswith_one (c : ascii) (s : string) :
  startswith s (String c EmptyString)
  = match s with String x _ => Ascii.eqb c x | EmptyString => false end.
Proof. destruct s as [|x s]; simpl; [reflexivity|]. now rewrite andb_true_r. Qed.

(** What the scan leaves begins with [c] only where the scanned text
    does. *)
Lemma replace_head (c : ascii) (s : string) :
  startswith (replace_from (twice c) "" 0 s) (String c EmptyString) = true ->
  startswith s (String c EmptyString) = true.
Proof.
  destruct s as [|x s]; [discriminate|]. cbn [replace_from].
  rewrite startswith_twice. rewrite !startswith_one.
  destruct (Ascii.eqb c x) eqn:Hx; [reflexivity|]. cbn [andb]. simpl.
  now rewrite Hx.
Qed.

Lemma replace_twice_free (c : ascii) (s : string) :
  contains (replace_from (twice c) "" 0 s) (twice c) = false /\
  contains (replace_from (twice c) "" 1 s) (twice c) = false.
Proof.
  induction s as [|x s [IH0 IH1]]; [split; reflexivity|]. split.
  - cbn [replace_from]. rewrite startswith_twice.
    destruct (Ascii.eqb c x && startswith s (String c EmptyString)) eqn:Hmatch.
    + exact IH1.
    + cbn [contains]. rewrite IH0, orb_false_r, startswith_twice.
      destruct (Ascii.eqb c x) eqn:Hx; [|reflexivity]. cbn [andb] in *.
      destruct (startswith (replace_from (twice c) "" 0 s) (String c EmptyString))
        eqn:Hhead; [|reflexivity].
      apply replace_head in Hhead. congruence.
  - exact IH0.
Qed.

Lemma replace_free (c : ascii) (s : string) :
  contains (replace s (twice c) "") (twice c) = false.
Proof. apply replace_twice_free. Qed.

(** The text before a separator begins with [p] only where the whole text
    does. *)
Lemma startswith_split_head (s sep p : string) :
  startswith (split_head s sep) p = true -> startswith s p = true.
Proof.
  revert s. induction p as [|a p IH]; intros s; [reflexivity|].
  destruct s as [|x s]; [discriminate|]. cbn [split_head].
  destruct (startswith (String x s) sep); [discriminate|].
  cbn [startswith]. intros H. apply andb_prop in H as [Hax Hrest].
  now rewrite Hax, (IH s Hrest).
Qed.

(** Cutting a text at a separator brings no occurrence of [p] into it. *)
Lemma contains_split_head (s sep p : string) :
  contains s p = false -> contains (split_head s sep) p = false.
Proof.
  induction s as [|x s IH]; [auto|]. intros H.
  assert (Hstart : startswith (split_head (String x s) sep) p = false).
  { destruct (startswith (split_head (String x s) sep) p) eqn:E; [|reflexivity].
    apply startswith_split_head in E. cbn [contains] in H. now rewrite E in H. }
  cbn [contains] in H. apply orb_false_elim in H as [_ Hrest].
  revert Hstart. cbn [split_head].
  destruct (startswith (String x s) sep).
  - intros Hstart. cbn [contains]. now rewrite Hstart.
  - intros Hstart. cbn [contains]. now rewrite Hstart, (IH Hrest).
Qed.

End MarkerFacts.

(** X22: the marker stripping never leaves the closing marker it removes
    last: no "]]" is left in a landmark's address, type, style or
    architect, and no "}}" in a text value of the generic formatter. *)
Theorem closing_markers_removed :
  forall value,
    PyStr.contains (StructuredDataParser.strip_links value) "]]" = false /\
    PyStr.contains (StructuredDataParser.strip_templates value) "}}" = false /\
    PyStr.contains (ScrubFacts.scrub value) "}}" = false /\
    PyStr.contains (StructuredDataParser.clean_address value) "]]" = false.
Proof.
  intros value.
  assert (Hlinks : forall v, PyStr.contains (StructuredDataParser.strip_links v) "]]"
                             = false).
  { intros v. apply (MarkerFacts.replace_free "]"%char). }
  assert (Htemplates : forall v,
             PyStr.contains (StructuredDataParser.strip_templates v) "}}" = false).
  { intros v. apply (MarkerFacts.replace_free "}"%char). }
  split; [apply Hlinks|]. split; [apply Htemplates|]. split; [apply Htemplates|].
  rewrite clean_address_cut. apply MarkerFacts.contains_split_head, Hlinks.
Qed.

Example opening_marker_left :
  StructuredDataParser.strip_links "[]][" = "[[".
Proof. reflexivity. Qed.

(** ** The agent's turn helper and the recorded answers *)

(** X23: on turns whose annotation ids can be hashed, the agent's per-turn
    helper gives, turn by turn, the domains of the multi-turn summary of
    [domain_utils]. *)
Theorem turn_domains_agree (turn_data : list dict)
    (Hturns : Forall DomainUtilsFacts.hashable_turn turn_data) :
  exists info,
    MultiTurn.process_multi_turn_conversation turn_data = Ok info /\
    rmap RAGMMAgent.extract_domain_from_turn turn_data = Ok (MultiTurn.domains info).
Proof.
  unfold MultiTurn.process_multi_turn_conversation.
  rewrite (DomainUtilsFacts.add_turns_from turn_data _ Hturns).
  eexists. split; [reflexivity|]. cbn [MultiTurn.domains app].
  induction Hturns as [|turn turn_data (Hd & _ & _) _ IH]; [reflexivity|].
  cbn [rmap map]. rewrite IH.
  assert (Hturn : RAGMMAgent.extract_domain_from_turn turn
                  = Ok (DomainUtilsFacts.tag_of DOMAIN_MAP "other" turn "domain")).
  { rewrite <- (DomainUtilsFacts.resolve_field_tag DOMAIN_MAP "other" turn "domain" Hd).
    unfold RAGMMAgent.extract_domain_from_turn, MultiTurn.resolve_field, get_domain_name.
    destruct turn; reflexivity. }
  now rewrite Hturn.
Qed.

Lemma turn_domains_agree_witness :
  exists info,
    MultiTurn.process_multi_turn_conversation
      [[("domain", PInt 4)]; []; [("domain", PBool true)]] = Ok info /\
    rmap RAGMMAgent.extract_domain_from_turn
      [[("domain", PInt 4)]; []; [("domain", PBool true)]] = Ok (MultiTurn.domains info).
Proof.
  apply (turn_domains_agree [[("domain", PInt 4)]; []; [("domain", PBool true)]]).
  repeat constructor.
Defined.

Module RecordFacts.

Import Agent.

(** The store after the update of one answered item. *)
Definition record_item (cache : SessionStore.store)
    (item : string * (string * list dict)) : outcome SessionStore.store :=
  SessionStore.update cache (fst item) (fst (snd item)) (snd (snd item)).

Lemma for_each_update_ok (image : Type) (items : list (string * (string * list dict)))
    (st st' : agent image) (done : list unit) :
  for_each (update_session image) items st = (Ok done, st') ->
  rfold record_item items (session_cache image st) = Ok (session_cache image st').
Proof.
  revert st st' done. induction items as [|[q [r h]] items IH]; intros st st' done.
  - simpl. unfold ret. now intros [= _ <-].
  - cbn [for_each rfold]. unfold bind at 1. unfold update_session at 1.
    unfold record_item at 1. cbn [fst snd].
    destruct (SessionStore.update (session_cache image st) q r h) as [cache|e];
      [|discriminate].
    cbn [rbind]. unfold bind at 1.
    destruct (for_each (update_session image) items _) as [[done'|e] s2] eqn:Hrest;
      [|discriminate].
    unfold ret. intros [= _ <-]. exact (IH _ _ _ Hrest).
Qed.

End RecordFacts.

(** X24: the answers of a batch that returns are the first completion of
    each output of the generation engine, and by then the session store
    has been updated with every (query, answer) pair in item order: the
    store afterwards is the store before, updated item by item. *)
Theorem batch_records_answers (image : Type) (C : Agent.collaborators image)
    (queries : list string) (images : list image) (message_histories : list (list dict))
    (st st' : Agent.agent image) (responses : list string)
    (Himages : images <> [])
    (Hrun : Agent.batch_generate_response image C queries images message_histories st
            = (Ok responses, st')) :
  (exists prompts outputs,
      Agent.generate image C prompts = Ok outputs /\
      rmap Agent.first_text outputs = Ok responses /\
      List.length responses = List.length outputs) /\
  rfold RecordFacts.record_item
        (combine queries (combine responses message_histories))
        (Agent.session_cache image st)
  = Ok (Agent.session_cache image st').
Proof.
  rewrite BatchFacts.batch_generate_response_run in Hrun by exact Himages.
  unfold BatchFacts.staged_batch in Hrun.
  destruct (RAGMMAgent.prepare_search_queries queries images message_histories)
    as [search_queries|e]; [|discriminate].
  cbv zeta in Hrun.
  assert (Hanswer : forall isr wsr s,
             Agent.session_cache image s = Agent.session_cache image st ->
             Agent.answer_from_results image C queries images message_histories isr wsr s
             = (Ok responses, st') ->
             (exists prompts outputs,
                 Agent.generate image C prompts = Ok outputs /\
                 rmap Agent.first_text outputs = Ok responses /\
                 List.length responses = List.length outputs) /\
             rfold RecordFacts.record_item
                   (combine queries (combine responses message_histories))
                   (Agent.session_cache image st)
             = Ok (Agent.session_cache image st')).
  { intros isr wsr s Hs. unfold Agent.answer_from_results.
    unfold Agent.bind at 1. unfold Agent.lift at 1.
    destruct (RAGMMAgent.process_image_search_results isr) as [ictx|e]; [|discriminate].
    unfold Agent.bind at 1.
    match goal with
    | |- context [Agent.prepare_llm_prompts image C ?a ?b ?c ?d ?w s] =>
        pose proof (RunMore.kept_prepare_llm_prompts image C a b c d w s) as Hkept;
        destruct (Agent.prepare_llm_prompts image C a b c d w s) as [[prompts|e] s1]
    end; [|discriminate].
    unfold RunMore.cache_kept in Hkept. cbn [snd] in Hkept.
    unfold Agent.bind at 1. unfold Agent.observe at 1.
    unfold Agent.bind at 1. unfold Agent.lift at 1.
    destruct (Agent.generate image C prompts) as [outputs|e] eqn:Hgen; [|discriminate].
    unfold Agent.bind at 1. unfold Agent.lift at 1.
    destruct (rmap Agent.first_text outputs) as [responses'|e] eqn:Hfirst;
      [|discriminate].
    unfold Agent.bind at 1. unfold Agent._update_session_cache. unfold Agent.bind at 1.
    match goal with
    | |- context [Agent.for_each (Agent.update_session image) ?items ?s2] =>
        destruct (Agent.for_each (Agent.update_session image) items s2)
          as [[done|e] s3] eqn:Hupdate
    end; [|discriminate].
    unfold Agent.ret. intros [= <- <-]. split.
    - exists prompts, outputs. split; [exact Hgen|]. split; [exact Hfirst|].
      exact (SearchQueryFacts.rmap_length _ _ _ Hfirst).
    - apply RecordFacts.for_each_update_ok in Hupdate. cbn [Agent.session_cache] in Hupdate.
      now rewrite Hkept, Hs in Hupdate. }
  destruct (BatchFacts.probe image C) as [[|]|e];
    (refine (Hanswer _ _ _ _ Hrun); reflexivity).
Qed.

Lemma batch_records_answers_witness :
  exists st',
    Agent.batch_generate_response unit web_pipeline ["what is it"] [tt]
      [[[("role", PStr "user"); ("session_id", PStr "S")]]] fresh_agent
    = (Ok ["ok"], st') /\
    Agent.session_cache unit st'
    = [(PStr "S", [{| SessionStore.query := "what is it";
                      SessionStore.response := "ok" |}])].
Proof.
  destruct (Agent.batch_generate_response unit web_pipeline ["what is it"] [tt]
              [[[("role", PStr "user"); ("session_id", PStr "S")]]] fresh_agent)
    as [result st'] eqn:Hrun.
  assert (Hresult : result = Ok ["ok"]).
  { apply (f_equal fst) in Hrun. symmetry. exact Hrun. }
  subst result. exists st'. split; [reflexivity|].
  pose proof (proj2 (batch_records_answers unit web_pipeline ["what is it"] [tt]
                       [[[("role", PStr "user"); ("session_id", PStr "S")]]]
                       fresh_agent st' ["ok"] ltac:(discriminate) Hrun)) as Hstore.
  change (Ok [(PStr "S", [{| SessionStore.query := "what is it";
                             SessionStore.response := "ok" |}])]
          = Ok (Agent.session_cache unit st')) in Hstore.
  injection Hstore as Hstore. symmetry. exact Hstore.
Defined.
